(** * BCI-Based-PC-Operation: the signal-conditioning and event-detection core

    A shallow embedding of [src/main.py], lines 25-327: the classes
    [LiveFilter], [LiveLFilter] and the record-processing part of
    [SignalVisualizer] ([setup_parameters], [start_countdown],
    [update_countdown], [update], [start_initial_countdown],
    [update_initial_countdown]).

    Modelling decisions, all of them visible in the definitions below:

    - Sample values are IEEE-754 binary64 numbers, Python's [float]:
      Rocq's primitive floats.  Not-a-number exists and compares false
      with everything, as in Python.
    - Clock readings ([time.time()]) and the timing constants are exact
      rational seconds ([Q]); rounding of clock arithmetic is not modelled.
    - Python exceptions are values of [exn]; a method is a function from
      the object's state to a result ([Ok] or [Raise]), the state after the
      call, and the observable effects of the call in order.  Mutations
      made before a [raise] stay in the state, as in Python.
    - [float()] on a string and the coefficient vectors returned by
      [scipy.signal.iirfilter] are not code of this repository: they are
      parameters of the development.
    - Calls that leave the core (printing, appending to a log file,
      [send_command], the label and the curves of the window) are recorded
      as [effect]s.  The body of [send_command] is code of the windows: the
      call returns or raises, as the environment of the call has it.
    - The event loop is a list of deliveries ([input]): lines handed over
      by the serial thread, each with the clock reading of its call and
      with what a call of [send_command] does during it, and ticks of the
      two timers in any order.

    The definitions come first: the core, the vocabulary of the properties
    of whole sessions, and the windows that receive the commands (lines
    203-216 and 330-1953, introduced where that part starts).  The
    properties follow under "Properties", each with the number of the claim
    it settles or, for the further properties, its own number. *)

From Stdlib Require Import String Ascii Floats QArith ZArith Lia Lqa Bool.
From stdpp Require Import base tactics option list.

#[local] Open Scope nat_scope.
#[local] Open Scope list_scope.

(** ** Exceptions and results *)

Inductive value_error : Type :=
  | CouldNotConvert (field : string)   (* float(field) failed *)
  | DataLengthMismatch                 (* raised by update, line 232 *)
  | ShapesNotAligned                   (* np.dot on vectors of different length *)
  | MaxOfEmpty                         (* max() of an empty list *)
  | NegativeMaxlen.                    (* deque(..., maxlen=-1) *)

Inductive exn : Type :=
  | ValueError (why : value_error)
  | StopIteration
  | IndexError
  | TypeError
  | AttributeError
  | ZeroDivisionError
  | TclError.                          (* tkinter: a call that Tk refuses *)

Inductive res (A : Type) : Type :=
  | Ok (a : A)
  | Raise (e : exn).
Arguments Ok {A} a.
Arguments Raise {A} e.

(** ** numpy and builtins on floats *)

Definition fzero : float := 0%float.

(** [np.isnan]. *)
Definition np_isnan (x : float) : bool := PrimFloat.is_nan x.

(** The sum of the products, accumulated from the left starting at 0.0. *)
Fixpoint dot_from (acc : float) (u v : list float) : float :=
  match u, v with
  | c :: u', x :: v' => dot_from (PrimFloat.add acc (PrimFloat.mul c x)) u' v'
  | _, _ => acc
  end.

(** [np.dot] on two one-dimensional sequences: a [ValueError] when the
    lengths differ. *)
Definition np_dot (u v : list float) : res float :=
  if Nat.eqb (length u) (length v) then Ok (dot_from fzero u v)
  else Raise (ValueError ShapesNotAligned).

(** ** collections.deque with a maxlen *)

Record deque : Type := Deque { items : list float; maxlen : nat }.

(** [deque(iterable, maxlen=n)]: only the last [n] items are kept. *)
Definition deque_new (l : list float) (n : nat) : deque :=
  Deque (drop (length l - n) l) n.

(** [d.appendleft(x)]: on a full deque the item at the right end is
    discarded; a deque of maxlen 0 stays empty. *)
Definition appendleft (x : float) (d : deque) : deque :=
  match maxlen d with
  | O => d
  | S _ =>
      if Nat.ltb (length (items d)) (maxlen d)
      then Deque (x :: items d) (maxlen d)
      else Deque (x :: removelast (items d)) (maxlen d)
  end.

(** ** class LiveFilter and class LiveLFilter (lines 25-49) *)

(** A method of a filter object: result and the object after the call. *)
Definition FM (F A : Type) : Type := F -> res A * F.

(** The abstract method [_process] that a derived class implements. *)
Class LiveFilter (F : Type) : Type := { _process : float -> FM F float }.

(** [LiveFilter.process] (and [__call__], which only forwards to it). *)
Definition process {F : Type} `{LiveFilter F} (x : float) : FM F float :=
  fun self =>
    if np_isnan x then (Ok x, self)
    else _process x self.

Record LiveLFilter : Type := MkLiveLFilter {
  b : list float;
  a : list float;
  _xs : deque;
  _ys : deque
}.

(** [LiveLFilter.__init__]: [len(a) - 1] is negative for an empty [a],
    and [deque] then raises. *)
Definition LiveLFilter_init (b a : list float) : res LiveLFilter :=
  match a with
  | [] => Raise (ValueError NegativeMaxlen)
  | _ :: _ =>
      Ok (MkLiveLFilter b a
            (deque_new (replicate (length b) fzero) (length b))
            (deque_new (replicate (length a - 1) fzero) (length a - 1)))
  end.

(** [LiveLFilter._process]. *)
Definition LiveLFilter_process (x : float) : FM LiveLFilter float :=
  fun self =>
    let self1 := MkLiveLFilter (b self) (a self) (appendleft x (_xs self)) (_ys self) in
    match np_dot (b self1) (items (_xs self1)) with
    | Raise e => (Raise e, self1)
    | Ok d1 =>
        match np_dot (tail (a self1)) (items (_ys self1)) with
        | Raise e => (Raise e, self1)
        | Ok d2 =>
            let y := PrimFloat.sub d1 d2 in
            match a self1 with
            | [] => (Raise IndexError, self1)
            | a0 :: _ =>
                let y := PrimFloat.div y a0 in
                (Ok y, MkLiveLFilter (b self1) (a self1) (_xs self1)
                         (appendleft y (_ys self1)))
            end
        end
    end.

#[export] Instance LiveLFilter_LiveFilter : LiveFilter LiveLFilter :=
  {| _process := LiveLFilter_process |}.

(** The step of the Causal Filter in the words of the specification:
    prepend to the feed-forward line keeping [len(b)] items, weighted sums,
    divide by the leading feedback coefficient, prepend to the feedback line
    keeping [len(a) - 1] items. *)
Definition spec_step (f : LiveLFilter) (x : float) : float * LiveLFilter :=
  let xs' := take (length (b f)) (x :: items (_xs f)) in
  let y := PrimFloat.div
             (PrimFloat.sub (dot_from fzero (b f) xs')
                            (dot_from fzero (tail (a f)) (items (_ys f))))
             (hd fzero (a f)) in
  let ys' := take (length (a f) - 1) (y :: items (_ys f)) in
  (y, MkLiveLFilter (b f) (a f) (Deque xs' (maxlen (_xs f))) (Deque ys' (maxlen (_ys f)))).

(** The delay lines have the lengths the constructor gave them. *)
Record filter_wf (f : LiveLFilter) : Prop := {
  wf_a : a f <> [];
  wf_xs_max : maxlen (_xs f) = length (b f);
  wf_xs_len : length (items (_xs f)) = length (b f);
  wf_ys_max : maxlen (_ys f) = length (a f) - 1;
  wf_ys_len : length (items (_ys f)) = length (a f) - 1
}.

(** ** What the core leaves to its environment *)

(** [float(s)] of Python ([None]: it raises [ValueError]) and the
    coefficient pairs [(b, a)] that [scipy.signal.iirfilter] returns for the
    band-pass and for the band-stop design of [create_filters]. *)
Class Externals : Type := {
  py_float : string -> option float;
  iirfilter_bandpass : list float * list float;
  iirfilter_bandstop : list float * list float
}.

(** ** Commands, messages and effects *)

Inductive command : Type := select | right.

Inductive log_file : Type := enter_txt | right_txt.

Inductive message : Type :=
  | DetectedDuringCountdown (c : command) (v : float)
  | EventLine (c : command) (v : float)            (* "enter (v)" or "right (v)" *)
  | SkippingOperation (c : command) (k : nat)
  | ErrorProcessingData (why : value_error)
  | IgnoringStoredCommand (c : option command) (v : float).

Inductive label : Type :=
  | TimerRemaining (n : Z)
  | TimerReady
  | GetReady (n : Z).

Inductive effect : Type :=
  | Print (m : message)
  | FileAppend (f : log_file) (m : message)
  | SendCommand (c : command)
  | SetLabel (l : label)
  | SetData (i : nat) (buf : list float).

(** ** class SignalVisualizer: the attributes the detector uses *)

Record SignalVisualizer : Type := MkSignalVisualizer {
  num_channels : nat;
  data : list (list float);
  filters : list (LiveLFilter * LiveLFilter);
  last_print_time : Q;
  last_blink_time : Q;
  start_time : Q;
  initial_delay_complete : bool;
  ready_for_operation : bool;
  countdown_remaining : Z;
  countdown_timer : bool;                       (* the QTimer is running *)
  initial_countdown_remaining : Z;
  initial_countdown_timer : bool;               (* the QTimer is running *)
  potential_command : option command;
  potential_value : option float;
  null_operation_counter : option nat;          (* None: attribute not set yet *)
  countdown_signals_skipped : option nat        (* None: attribute not set yet *)
}.

(** The constants of [setup_parameters] (lines 129-141). *)
Definition eye_open_min : float := (-100)%float.
Definition eye_open_max : float := 100%float.
Definition eye_blink_positive_min : float := 120%float.
Definition eye_blink_positive_max : float := 275%float.
Definition eye_blink_negative_min : float := (-120)%float.
Definition eye_blink_negative_max : float := (-220)%float.
Definition print_delay : Q := 3%Q.
Definition eye_open_duration : Q := 5%Q.
Definition blink_cooldown : Q := 1%Q.
Definition initial_delay : Q := 5%Q.

(** Attribute assignment. *)
Definition set_data (v : list (list float)) (s : SignalVisualizer) : SignalVisualizer :=
  MkSignalVisualizer (num_channels s) v (filters s) (last_print_time s) (last_blink_time s)
    (start_time s) (initial_delay_complete s) (ready_for_operation s) (countdown_remaining s)
    (countdown_timer s) (initial_countdown_remaining s) (initial_countdown_timer s)
    (potential_command s) (potential_value s) (null_operation_counter s)
    (countdown_signals_skipped s).
Definition set_filters (v : list (LiveLFilter * LiveLFilter)) (s : SignalVisualizer) : SignalVisualizer :=
  MkSignalVisualizer (num_channels s) (data s) v (last_print_time s) (last_blink_time s)
    (start_time s) (initial_delay_complete s) (ready_for_operation s) (countdown_remaining s)
    (countdown_timer s) (initial_countdown_remaining s) (initial_countdown_timer s)
    (potential_command s) (potential_value s) (null_operation_counter s)
    (countdown_signals_skipped s).
Definition set_last_print_time (v : Q) (s : SignalVisualizer) : SignalVisualizer :=
  MkSignalVisualizer (num_channels s) (data s) (filters s) v (last_blink_time s)
    (start_time s) (initial_delay_complete s) (ready_for_operation s) (countdown_remaining s)
    (countdown_timer s) (initial_countdown_remaining s) (initial_countdown_timer s)
    (potential_command s) (potential_value s) (null_operation_counter s)
    (countdown_signals_skipped s).
Definition set_last_blink_time (v : Q) (s : SignalVisualizer) : SignalVisualizer :=
  MkSignalVisualizer (num_channels s) (data s) (filters s) (last_print_time s) v
    (start_time s) (initial_delay_complete s) (ready_for_operation s) (countdown_remaining s)
    (countdown_timer s) (initial_countdown_remaining s) (initial_countdown_timer s)
    (potential_command s) (potential_value s) (null_operation_counter s)
    (countdown_signals_skipped s).
Definition set_initial_delay_complete (v : bool) (s : SignalVisualizer) : SignalVisualizer :=
  MkSignalVisualizer (num_channels s) (data s) (filters s) (last_print_time s) (last_blink_time s)
    (start_time s) v (ready_for_operation s) (countdown_remaining s)
    (countdown_timer s) (initial_countdown_remaining s) (initial_countdown_timer s)
    (potential_command s) (potential_value s) (null_operation_counter s)
    (countdown_signals_skipped s).
Definition set_ready_for_operation (v : bool) (s : SignalVisualizer) : SignalVisualizer :=
  MkSignalVisualizer (num_channels s) (data s) (filters s) (last_print_time s) (last_blink_time s)
    (start_time s) (initial_delay_complete s) v (countdown_remaining s)
    (countdown_timer s) (initial_countdown_remaining s) (initial_countdown_timer s)
    (potential_command s) (potential_value s) (null_operation_counter s)
    (countdown_signals_skipped s).
Definition set_countdown_remaining (v : Z) (s : SignalVisualizer) : SignalVisualizer :=
  MkSignalVisualizer (num_channels s) (data s) (filters s) (last_print_time s) (last_blink_time s)
    (start_time s) (initial_delay_complete s) (ready_for_operation s) v
    (countdown_timer s) (initial_countdown_remaining s) (initial_countdown_timer s)
    (potential_command s) (potential_value s) (null_operation_counter s)
    (countdown_signals_skipped s).
Definition set_countdown_timer (v : bool) (s : SignalVisualizer) : SignalVisualizer :=
  MkSignalVisualizer (num_channels s) (data s) (filters s) (last_print_time s) (last_blink_time s)
    (start_time s) (initial_delay_complete s) (ready_for_operation s) (countdown_remaining s)
    v (initial_countdown_remaining s) (initial_countdown_timer s)
    (potential_command s) (potential_value s) (null_operation_counter s)
    (countdown_signals_skipped s).
Definition set_initial_countdown_remaining (v : Z) (s : SignalVisualizer) : SignalVisualizer :=
  MkSignalVisualizer (num_channels s) (data s) (filters s) (last_print_time s) (last_blink_time s)
    (start_time s) (initial_delay_complete s) (ready_for_operation s) (countdown_remaining s)
    (countdown_timer s) v (initial_countdown_timer s)
    (potential_command s) (potential_value s) (null_operation_counter s)
    (countdown_signals_skipped s).
Definition set_initial_countdown_timer (v : bool) (s : SignalVisualizer) : SignalVisualizer :=
  MkSignalVisualizer (num_channels s) (data s) (filters s) (last_print_time s) (last_blink_time s)
    (start_time s) (initial_delay_complete s) (ready_for_operation s) (countdown_remaining s)
    (countdown_timer s) (initial_countdown_remaining s) v
    (potential_command s) (potential_value s) (null_operation_counter s)
    (countdown_signals_skipped s).
Definition set_potential_command (v : option command) (s : SignalVisualizer) : SignalVisualizer :=
  MkSignalVisualizer (num_channels s) (data s) (filters s) (last_print_time s) (last_blink_time s)
    (start_time s) (initial_delay_complete s) (ready_for_operation s) (countdown_remaining s)
    (countdown_timer s) (initial_countdown_remaining s) (initial_countdown_timer s)
    v (potential_value s) (null_operation_counter s)
    (countdown_signals_skipped s).
Definition set_potential_value (v : option float) (s : SignalVisualizer) : SignalVisualizer :=
  MkSignalVisualizer (num_channels s) (data s) (filters s) (last_print_time s) (last_blink_time s)
    (start_time s) (initial_delay_complete s) (ready_for_operation s) (countdown_remaining s)
    (countdown_timer s) (initial_countdown_remaining s) (initial_countdown_timer s)
    (potential_command s) v (null_operation_counter s)
    (countdown_signals_skipped s).
Definition set_null_operation_counter (v : option nat) (s : SignalVisualizer) : SignalVisualizer :=
  MkSignalVisualizer (num_channels s) (data s) (filters s) (last_print_time s) (last_blink_time s)
    (start_time s) (initial_delay_complete s) (ready_for_operation s) (countdown_remaining s)
    (countdown_timer s) (initial_countdown_remaining s) (initial_countdown_timer s)
    (potential_command s) (potential_value s) v
    (countdown_signals_skipped s).
Definition set_countdown_signals_skipped (v : option nat) (s : SignalVisualizer) : SignalVisualizer :=
  MkSignalVisualizer (num_channels s) (data s) (filters s) (last_print_time s) (last_blink_time s)
    (start_time s) (initial_delay_complete s) (ready_for_operation s) (countdown_remaining s)
    (countdown_timer s) (initial_countdown_remaining s) (initial_countdown_timer s)
    (potential_command s) (potential_value s) (null_operation_counter s)
    v.

(** ** Methods: state, exceptions and effects *)

Definition M (A : Type) : Type :=
  SignalVisualizer -> res A * SignalVisualizer * list effect.

Definition ret {A : Type} (x : A) : M A := fun s => (Ok x, s, []).

Definition bind {A B : Type} (m : M A) (k : A -> M B) : M B :=
  fun s =>
    match m s with
    | (Ok x, s1, o1) => let '(r, s2, o2) := k x s1 in (r, s2, o1 ++ o2)
    | (Raise e, s1, o1) => (Raise e, s1, o1)
    end.

Declare Scope py_scope.
Delimit Scope py_scope with py.
Notation "x <- m ;; k" := (bind m (fun x => k))
  (at level 100, m at next level, right associativity) : py_scope.
Notation "m ;; k" := (bind m (fun _ => k))
  (at level 100, right associativity) : py_scope.
#[local] Open Scope py_scope.

Definition raise {A : Type} (e : exn) : M A := fun s => (Raise e, s, []).
Definition gets {A : Type} (f : SignalVisualizer -> A) : M A := fun s => (Ok (f s), s, []).
Definition modify (f : SignalVisualizer -> SignalVisualizer) : M unit :=
  fun s => (Ok tt, f s, []).
Definition emit (e : effect) : M unit := fun s => (Ok tt, s, [e]).

(** Reading an attribute that may not have been assigned yet. *)
Definition getattr {A : Type} (f : SignalVisualizer -> option A) : M A :=
  fun s => match f s with
           | Some x => (Ok x, s, [])
           | None => (Raise AttributeError, s, [])
           end.

(** [try: m except ValueError as e: h e]. *)
Definition try_except_ValueError (m : M unit) (h : value_error -> M unit) : M unit :=
  fun s =>
    match m s with
    | (Raise (ValueError why), s1, o1) =>
        let '(r, s2, o2) := h why s1 in (r, s2, o1 ++ o2)
    | other => other
    end.

(** ** Builtins used by [update] *)

Definition tab : ascii := "009"%char.

(** [s.split("\t")]: always at least one field. *)
Fixpoint split_tab (s : string) : list string :=
  match s with
  | EmptyString => [EmptyString]
  | String c s' =>
      if Ascii.eqb c tab then EmptyString :: split_tab s'
      else match split_tab s' with
           | w :: ws => String c w :: ws
           | [] => [String c EmptyString]
           end
  end.

(** [[float(value) for value in fields]]: the first field that does not
    convert raises. *)
Fixpoint parse_fields `{Externals} (fields : list string) : res (list float) :=
  match fields with
  | [] => Ok []
  | fld :: rest =>
      match py_float fld with
      | None => Raise (ValueError (CouldNotConvert fld))
      | Some v =>
          match parse_fields rest with
          | Ok vs => Ok (v :: vs)
          | Raise e => Raise e
          end
      end
  end.

Definition lift {A : Type} (r : res A) : M A := fun s => (r, s, []).

(** [max(l, key=abs)]: the first item of greatest magnitude. *)
Fixpoint max_abs_from (best : float) (l : list float) : float :=
  match l with
  | [] => best
  | v :: l' =>
      max_abs_from (if PrimFloat.ltb (PrimFloat.abs best) (PrimFloat.abs v) then v else best) l'
  end.

Definition py_max_abs (l : list float) : res float :=
  match l with
  | [] => Raise (ValueError MaxOfEmpty)
  | v :: l' => Ok (max_abs_from v l')
  end.

(** [eye_open_min <= value <= eye_open_max]. *)
Definition in_eye_open (value : float) : bool :=
  PrimFloat.leb eye_open_min value && PrimFloat.leb value eye_open_max.

(** [(eye_blink_positive_min <= value <= eye_blink_positive_max) or
     (eye_blink_negative_min >= value >= eye_blink_negative_max)]. *)
Definition in_eye_blink (value : float) : bool :=
  (PrimFloat.leb eye_blink_positive_min value && PrimFloat.leb value eye_blink_positive_max)
  || (PrimFloat.leb value eye_blink_negative_min && PrimFloat.leb eye_blink_negative_max value).

(** [value > eye_open_max or value < eye_open_min]. *)
Definition outside_eye_open (value : float) : bool :=
  PrimFloat.ltb eye_open_max value || PrimFloat.ltb value eye_open_min.

(** [next(value for value in l if value > eye_open_max or value < eye_open_min)]. *)
Definition py_next_outside (l : list float) : res float :=
  match List.find outside_eye_open l with
  | Some v => Ok v
  | None => Raise StopIteration
  end.

(** [np.roll(buf, -1)]. *)
Definition np_roll_left (buf : list float) : list float :=
  match buf with
  | [] => []
  | x :: rest => rest ++ [x]
  end.

(** [buf[-1] = v]. *)
Definition set_last (v : float) (buf : list float) : res (list float) :=
  match buf with
  | [] => Raise IndexError
  | _ :: _ => Ok (removelast buf ++ [v])
  end.

(** [data != '\r\n' and data != '' and data != '\n'] is false. *)
Definition is_blank (line : string) : bool :=
  String.eqb line (String "013" (String "010" EmptyString))
  || String.eqb line EmptyString
  || String.eqb line (String "010" EmptyString).

(** ** Methods of SignalVisualizer *)

(** [create_filters] (lines 150-155). *)
Definition create_filters `{Externals} : res (LiveLFilter * LiveLFilter) :=
  match LiveLFilter_init (fst iirfilter_bandpass) (snd iirfilter_bandpass) with
  | Raise e => Raise e
  | Ok live_lfilter_bp =>
      match LiveLFilter_init (fst iirfilter_bandstop) (snd iirfilter_bandstop) with
      | Raise e => Raise e
      | Ok live_lfilter_notch => Ok (live_lfilter_bp, live_lfilter_notch)
      end
  end.

(** [[self.create_filters() for _ in range(n)]]. *)
Fixpoint create_all_filters `{Externals} (n : nat) : res (list (LiveLFilter * LiveLFilter)) :=
  match n with
  | O => Ok []
  | S n' =>
      match create_filters with
      | Raise e => Raise e
      | Ok p =>
          match create_all_filters n' with
          | Raise e => Raise e
          | Ok ps => Ok (p :: ps)
          end
      end
  end.

(** [__init__] with [setup_parameters] (lines 74-143): [now] is the clock
    reading taken by [setup_parameters].  The two counters are not
    assigned here. *)
Definition SignalVisualizer_init `{Externals} (channels data_length : nat) (now : Q)
  : res SignalVisualizer :=
  match create_all_filters channels with
  | Raise e => Raise e
  | Ok fs =>
      Ok {| num_channels := channels;
            data := replicate channels (replicate data_length fzero);
            filters := fs;
            last_print_time := 0%Q;
            last_blink_time := 0%Q;
            start_time := now;
            initial_delay_complete := false;
            ready_for_operation := false;
            countdown_remaining := 0%Z;
            countdown_timer := false;
            initial_countdown_remaining := 3%Z;
            initial_countdown_timer := false;
            potential_command := None;
            potential_value := None;
            null_operation_counter := None;
            countdown_signals_skipped := None |}
  end.

(** [start_countdown] (lines 190-193). *)
Definition start_countdown : M unit :=
  modify (set_countdown_remaining 3%Z) ;;
  modify (set_countdown_timer true) ;;
  n <- gets countdown_remaining ;;
  emit (SetLabel (TimerRemaining n)).

(** [update_countdown] (lines 195-201). *)
Definition update_countdown : M unit :=
  n <- gets countdown_remaining ;;
  modify (set_countdown_remaining (n - 1)%Z) ;;
  n <- gets countdown_remaining ;;
  if (0 <? n)%Z then emit (SetLabel (TimerRemaining n))
  else
    modify (set_countdown_timer false) ;;
    emit (SetLabel TimerReady).

(** The body of [send_command] returned. *)
Definition returns : res unit := Ok tt.

(** [send_command] (lines 203-216) hands the command to whichever window
    is active.  The call is an observable effect.  Its body runs methods of
    the windows and is not code of the core: [sink] is how it ends.  It
    returns, or it raises what the windows raise, and the exception goes the
    way of any exception in [update]: a [ValueError] is caught by the
    [except] clause, any other leaves the slot.  A select on the launcher's
    Exit button destroys the window and line 1897 then raises [TclError], as
    does every later call on that launcher.  A select that opens a keyboard
    runs the event loop of the new window inside the call (lines 1905, 1911,
    1917 and 1923); the lines of [update] behind the call have not run while
    that loop runs, and when it ends the windows are gone and line 1897
    raises as well: for the object this is a call that raises. *)
Definition send_command (sink : res unit) (c : command) : M unit :=
  emit (SendCommand c) ;;
  lift sink.

(** [start_initial_countdown] (lines 306-312). *)
Definition start_initial_countdown : M unit :=
  modify (set_initial_countdown_remaining 3%Z) ;;
  modify (set_initial_countdown_timer true) ;;
  n <- gets initial_countdown_remaining ;;
  emit (SetLabel (GetReady n)) ;;
  modify (set_null_operation_counter (Some 0)) ;;
  modify (set_countdown_signals_skipped (Some 0)).

(** [update_initial_countdown] (lines 314-327).  [hasattr(self,
    'potential_command')] holds since [__init__]; formatting a
    [potential_value] of [None] with [:.3f] raises [TypeError]. *)
Definition update_initial_countdown : M unit :=
  n <- gets initial_countdown_remaining ;;
  modify (set_initial_countdown_remaining (n - 1)%Z) ;;
  n <- gets initial_countdown_remaining ;;
  if (0 <? n)%Z then emit (SetLabel (GetReady n))
  else
    modify (set_initial_countdown_timer false) ;;
    emit (SetLabel TimerReady) ;;
    modify (set_ready_for_operation true) ;;
    c <- gets potential_command ;;
    v <- gets potential_value ;;
    match v with
    | None => raise TypeError
    | Some v =>
        emit (Print (IgnoringStoredCommand c v)) ;;
        modify (set_potential_command None) ;;
        modify (set_potential_value None)
    end.

(** [l[i]] for an index in [range]. *)
Definition index {A : Type} (l : list A) (i : nat) : M A :=
  match l !! i with
  | Some x => ret x
  | None => raise IndexError
  end.

(** [self.filters[i][k](x)] for [k = 0] ([second = false]) or [k = 1]: the
    filter object of that channel is mutated in place. *)
Definition call_filter (i : nat) (second : bool) (x : float) : M float :=
  fs <- gets filters ;;
  p <- index fs i ;;
  let '(r, f') := process x (if second then snd p else fst p) in
  modify (fun s =>
    set_filters (<[i := if second then (fst p, f') else (f', snd p)]> (filters s)) s) ;;
  lift r.

(** One turn of the loop of lines 235-240. *)
Definition condition_channel (data_values : list float) (i : nat) : M float :=
  x <- index data_values i ;;
  y <- call_filter i false x ;;
  filtered_value <- call_filter i true y ;;
  buf <- (d <- gets data ;; index d i) ;;
  modify (fun s => set_data (<[i := np_roll_left buf]> (data s)) s) ;;
  buf <- (d <- gets data ;; index d i) ;;
  buf <- lift (set_last filtered_value buf) ;;
  modify (fun s => set_data (<[i := buf]> (data s)) s) ;;
  emit (SetData i buf) ;;
  ret filtered_value.

(** [for i in range(...)] of lines 235-240, [filtered_values] being the
    list built so far. *)
Fixpoint filter_loop (rng : list nat) (data_values filtered_values : list float)
  : M (list float) :=
  match rng with
  | [] => ret filtered_values
  | i :: rng' =>
      filtered_value <- condition_channel data_values i ;;
      filter_loop rng' data_values (filtered_values ++ [filtered_value])
  end.

(** [self.x += 1] on a counter attribute. *)
Definition increment (get : SignalVisualizer -> option nat)
    (set : option nat -> SignalVisualizer -> SignalVisualizer) : M unit :=
  n <- getattr get ;;
  modify (set (Some (n + 1))).

(** Lines 244-264: a record while [ready_for_operation] is false. *)
Definition countdown_detect (current_time : Q) (data_values filtered_values : list float)
  : M unit :=
  pc <- gets potential_command ;;
  match pc with
  | Some _ => ret tt
  | None =>
      if forallb in_eye_open filtered_values then
        lpt <- gets last_print_time ;;
        if Qle_bool eye_open_duration (current_time - lpt) then
          trigger_value <- lift (py_max_abs filtered_values) ;;
          modify (set_potential_command (Some select)) ;;
          modify (set_potential_value (Some trigger_value)) ;;
          emit (Print (DetectedDuringCountdown select trigger_value)) ;;
          increment countdown_signals_skipped set_countdown_signals_skipped
        else ret tt
      else if existsb in_eye_blink data_values then
        trigger_value <- lift (py_next_outside filtered_values) ;;
        modify (set_potential_command (Some right)) ;;
        modify (set_potential_value (Some trigger_value)) ;;
        emit (Print (DetectedDuringCountdown right trigger_value)) ;;
        increment countdown_signals_skipped set_countdown_signals_skipped
      else ret tt
  end.

(** [self.countdown_signals_skipped + self.null_operation_counter]. *)
Definition skipped_so_far : M nat :=
  c <- getattr countdown_signals_skipped ;;
  n <- getattr null_operation_counter ;;
  ret (c + n).

(** Lines 266-301: a record while [ready_for_operation] is true. *)
Definition ready_detect (current_time : Q) (data_values filtered_values : list float)
    (sink : res unit) : M unit :=
  lpt <- gets last_print_time ;;
  if Qle_bool print_delay (current_time - lpt) then
    if forallb in_eye_open filtered_values then
      lpt <- gets last_print_time ;;
      if Qle_bool eye_open_duration (current_time - lpt) then
        trigger_value <- lift (py_max_abs filtered_values) ;;
        emit (Print (EventLine select trigger_value)) ;;
        emit (FileAppend enter_txt (EventLine select trigger_value)) ;;
        modify (set_last_print_time current_time) ;;
        k <- skipped_so_far ;;
        (if k <? 2 then
           increment null_operation_counter set_null_operation_counter ;;
           k <- skipped_so_far ;;
           emit (Print (SkippingOperation select k))
         else send_command sink select) ;;
        start_countdown
      else ret tt
    else if existsb in_eye_blink data_values then
      trigger_value <- lift (py_next_outside filtered_values) ;;
      emit (Print (EventLine right trigger_value)) ;;
      emit (FileAppend right_txt (EventLine right trigger_value)) ;;
      modify (set_last_print_time current_time) ;;
      k <- skipped_so_far ;;
      (if k <? 2 then
         increment null_operation_counter set_null_operation_counter ;;
         k <- skipped_so_far ;;
         emit (Print (SkippingOperation right k))
       else
         lbt <- gets last_blink_time ;;
         if Qle_bool blink_cooldown (current_time - lbt) then
           send_command sink right ;;
           modify (set_last_blink_time current_time)
         else ret tt) ;;
      start_countdown
    else ret tt
  else ret tt.

(** Lines 230-301, the body of the [try]. *)
Definition process_record `{Externals} (now : Q) (line : string) (sink : res unit)
  : M unit :=
  data_values <- lift (parse_fields (split_tab line)) ;;
  n <- gets num_channels ;;
  (if negb (length data_values =? n) then raise (ValueError DataLengthMismatch) else ret tt) ;;
  n <- gets num_channels ;;
  filtered_values <- filter_loop (seq 0 n) data_values [] ;;
  let current_time := now in
  ready <- gets ready_for_operation ;;
  if negb ready then countdown_detect current_time data_values filtered_values
  else ready_detect current_time data_values filtered_values sink.

(** [update] (lines 218-304); [now] is what [time.time()] reads during the
    call (the method reads the clock once on every path) and [sink] is what
    the body of [send_command] does if the call gets there. *)
Definition update `{Externals} (now : Q) (line : string) (sink : res unit) : M unit :=
  idc <- gets initial_delay_complete ;;
  if negb idc then
    st <- gets start_time ;;
    if Qle_bool initial_delay (now - st) then
      modify (set_initial_delay_complete true) ;;
      start_initial_countdown ;;
      modify (set_null_operation_counter (Some 0)) ;;
      modify (set_countdown_signals_skipped (Some 0))
    else ret tt
  else if negb (is_blank line) then
    try_except_ValueError (process_record now line sink)
      (fun why => emit (Print (ErrorProcessingData why)))
  else ret tt.

(** ** A session: what the event loop delivers to the object *)

Inductive input : Type :=
  | DataReady (now : Q) (line : string) (sink : res unit)
                                (* SerialThread.data_ready, with the clock reading
                                   and the outcome of send_command of that call *)
  | InitialCountdownTimeout     (* initial_countdown_timer.timeout *)
  | CountdownTimeout.           (* countdown_timer.timeout *)

(** A timer that is not running delivers nothing. *)
Definition deliver `{Externals} (i : input) : M unit :=
  match i with
  | DataReady now line sink => update now line sink
  | InitialCountdownTimeout =>
      t <- gets initial_countdown_timer ;;
      if t then update_initial_countdown else ret tt
  | CountdownTimeout =>
      t <- gets countdown_timer ;;
      if t then update_countdown else ret tt
  end.

Record delivery : Type := MkDelivery {
  dl_input : input;
  dl_result : res unit;
  dl_effects : list effect
}.

Definition is_raise {A : Type} (r : res A) : bool :=
  match r with Ok _ => false | Raise _ => true end.

(** The deliveries of a session, in order.  An exception that leaves a
    slot either ends the process ([halt = true]) or is reported and the
    event loop goes on ([halt = false]), depending on the Qt binding. *)
Fixpoint run `{Externals} (halt : bool) (ins : list input) (s : SignalVisualizer)
  : list delivery * SignalVisualizer :=
  match ins with
  | [] => ([], s)
  | i :: ins' =>
      let '(r, s1, o) := deliver i s in
      if halt && is_raise r then ([MkDelivery i r o], s1)
      else let '(ds, s2) := run halt ins' s1 in (MkDelivery i r o :: ds, s2)
  end.

(** ** Vocabulary of the properties *)

(** A malformed record, in the words of the specification: the number of
    tab-separated fields differs from the number of channels, or some field
    fails the numeric parse. *)
Definition fails_parse `{Externals} (fld : string) : bool :=
  match py_float fld with None => true | Some _ => false end.

Definition malformed `{Externals} (n : nat) (line : string) : bool :=
  negb (length (split_tab line) =? n) || existsb fails_parse (split_tab line).

(** The object after the transition from Warm-up into the Initial
    countdown: the flag, the countdown of three seconds with its timer, and
    the two counters at zero; every other attribute as in [s]. *)
Definition entered_initial_countdown (s : SignalVisualizer) : SignalVisualizer :=
  {| num_channels := num_channels s;
     data := data s;
     filters := filters s;
     last_print_time := last_print_time s;
     last_blink_time := last_blink_time s;
     start_time := start_time s;
     initial_delay_complete := true;
     ready_for_operation := ready_for_operation s;
     countdown_remaining := countdown_remaining s;
     countdown_timer := countdown_timer s;
     initial_countdown_remaining := 3%Z;
     initial_countdown_timer := true;
     potential_command := potential_command s;
     potential_value := potential_value s;
     null_operation_counter := Some 0;
     countdown_signals_skipped := Some 0 |}.

(** A pending command always comes with its value. *)
Definition pending_consistent (s : SignalVisualizer) : Prop :=
  potential_value s = None -> potential_command s = None.

Definition is_send (e : effect) : bool :=
  match e with SendCommand _ => true | _ => false end.

(** [s'] differs from [s] at most in the filters and the display buffers. *)
Definition signal_only (s s' : SignalVisualizer) : Prop :=
  s' = set_data (data s') (set_filters (filters s') s).

(** Effects that carry no event: a redrawn curve, a reported error. *)
Definition is_quiet (e : effect) : bool :=
  match e with
  | SetData _ _ => true
  | Print (ErrorProcessingData _) => true
  | _ => false
  end.

(** An event: a record that satisfied a classification rule, either
    recorded during the Initial countdown (the skip counter is incremented
    where this is printed) or fired in Ready (where its log line is written). *)
Definition is_match (e : effect) : bool :=
  match e with
  | FileAppend _ _ => true
  | Print (DetectedDuringCountdown _ _) => true
  | _ => false
  end.

Definition count_matches (o : list effect) : nat := length (List.filter is_match o).

(** The effects of a list of deliveries, in order. *)
Definition effects_of (ds : list delivery) : list effect :=
  concat (map dl_effects ds).

(** What [update] makes of the outcome of the detection step, [o1] being
    the effects of the filter loop: the [except ValueError] clause. *)
Definition after_filters (o1 : list effect) (x : res unit * SignalVisualizer * list effect)
  : res unit * SignalVisualizer * list effect :=
  let '(r, s2, o2) := x in
  match r with
  | Raise (ValueError why) => (Ok tt, s2, o1 ++ o2 ++ [Print (ErrorProcessingData why)])
  | _ => (r, s2, o1 ++ o2)
  end.

(** The two counters account for no more than the [m] events seen so
    far: either the object is still in warm-up (the counters are assigned
    when warm-up ends), or both counters are set and their sum is at most [m]. *)
Definition counters_account (s : SignalVisualizer) (m : nat) : Prop :=
  (initial_delay_complete s = false /\ ready_for_operation s = false
   /\ initial_countdown_timer s = false)
  \/ (initial_delay_complete s = true
      /\ exists c n, countdown_signals_skipped s = Some c
                     /\ null_operation_counter s = Some n /\ c + n <= m).

Definition is_send_right (e : effect) : bool :=
  match e with SendCommand right => true | _ => false end.

(** The clock reading of a delivery; a timer tick reads no clock. *)
Definition clock_of (i : input) : option Q :=
  match i with DataReady now _ _ => Some now | _ => None end.

(** The clock readings at which a move-next command was passed to
    [send_command], one per command, in the order of the session. *)
Definition right_send_times (ds : list delivery) : list (option Q) :=
  flat_map (fun d => map (fun _ => clock_of (dl_input d))
                         (List.filter is_send_right (dl_effects d))) ds.

(** The later of two readings is at least [blink_cooldown] after the
    earlier one. *)
Definition cooldown_apart (earlier later : option Q) : Prop :=
  match earlier, later with
  | Some ti, Some tj => (blink_cooldown <= tj - ti)%Q
  | _, _ => False
  end.

(** A reading at least [blink_cooldown] after the time [t]. *)
Definition cooldown_after (t : Q) (later : option Q) : Prop :=
  match later with
  | Some tj => (blink_cooldown <= tj - t)%Q
  | None => False
  end.

(** What the body of [send_command] does during a delivery; a timer tick
    does not call it. *)
Definition sink_of (i : input) : res unit :=
  match i with DataReady _ _ sink => sink | _ => returns end.

(** A delivery that handed a move-next command over: the command was
    passed to [send_command] and the call returned. *)
Definition right_handed_over (d : delivery) : bool :=
  existsb is_send_right (dl_effects d) && negb (is_raise (sink_of (dl_input d))).

(** The time of the last move-next command handed over by the deliveries
    [ds], and [t] if there is none. *)
Fixpoint last_right_time (t : Q) (ds : list delivery) : Q :=
  match ds with
  | [] => t
  | d :: ds' =>
      last_right_time
        (if right_handed_over d then default t (clock_of (dl_input d)) else t) ds'
  end.

(** An event of kind [c] fired: its line was appended to its log file. *)
Definition is_event (c : command) (e : effect) : bool :=
  match c, e with
  | select, FileAppend enter_txt (EventLine select _) => true
  | right, FileAppend right_txt (EventLine right _) => true
  | _, _ => false
  end.

Definition fired (c : command) (o : list effect) : bool := existsb (is_event c) o.

Definition is_log (e : effect) : bool :=
  match e with FileAppend _ _ => true | _ => false end.

(** The conditions under which the classification rules are evaluated at
    all: in Ready the rate limiter of line 266, during the Initial
    countdown the absence of a pending command (line 245). *)
Definition classification_runs (now : Q) (s : SignalVisualizer) : bool :=
  if ready_for_operation s
  then Qle_bool print_delay (now - last_print_time s)
  else match potential_command s with None => true | Some _ => false end.

(** ** A small environment for running the model on concrete input *)

Module Demo.

Definition digit_of (c : ascii) : option float :=
  let n := nat_of_ascii c in
  if (48 <=? n) && (n <=? 57)
  then Some (PrimFloat.of_uint63 (Uint63.of_Z (Z.of_nat (n - 48))))
  else None.

Fixpoint digits_value (acc : float) (s : string) : option float :=
  match s with
  | EmptyString => Some acc
  | String c s' =>
      match digit_of c with
      | Some d => digits_value (PrimFloat.add (PrimFloat.mul acc 10%float) d) s'
      | None => None
      end
  end.

(** Decimal integers with an optional minus sign, and "nan": a fragment
    of what [float()] accepts, with the values [float()] gives them. *)
Definition float_of_string (s : string) : option float :=
  if String.eqb s "nan" then Some PrimFloat.nan
  else match s with
       | EmptyString => None
       | String "-" EmptyString => None
       | String "-" s' => option_map PrimFloat.opp (digits_value fzero s')
       | _ => digits_value fzero s
       end.

(** Short coefficient vectors standing for the designed ones: from
    zero delay lines the first filter returns its input and the second
    one half of its input. *)
Definition bandpass : list float * list float :=
  ([1%float; 0.5%float], [1%float; 0.5%float]).
Definition bandstop : list float * list float :=
  ([1%float; 0.25%float], [2%float; 0.5%float]).

#[global] Instance externals : Externals := {|
  py_float := float_of_string;
  iirfilter_bandpass := bandpass;
  iirfilter_bandstop := bandstop
|}.

Definition tabbed (x y : string) : string := (x ++ String tab y)%string.

Definition chain : LiveLFilter * LiveLFilter :=
  (MkLiveLFilter (fst bandpass) (snd bandpass) (Deque [fzero; fzero] 2) (Deque [fzero] 1),
   MkLiveLFilter (fst bandstop) (snd bandstop) (Deque [fzero; fzero] 2) (Deque [fzero] 1)).

(** [n] channels as [__init__] leaves them at time 0, with a display
    window of three samples. *)
Definition fresh (n : nat) : SignalVisualizer :=
  {| num_channels := n;
     data := replicate n [fzero; fzero; fzero];
     filters := replicate n chain;
     last_print_time := 0%Q;
     last_blink_time := 0%Q;
     start_time := 0%Q;
     initial_delay_complete := false;
     ready_for_operation := false;
     countdown_remaining := 0%Z;
     countdown_timer := false;
     initial_countdown_remaining := 3%Z;
     initial_countdown_timer := false;
     potential_command := None;
     potential_value := None;
     null_operation_counter := None;
     countdown_signals_skipped := None |}.

(** [n] channels in Ready, with fresh filters: the last event fired at
    [lpt], the last move-next was sent at [lbt], and [skipped] events
    have been suppressed after the Initial countdown. *)
Definition armed (n : nat) (lpt lbt : Q) (skipped : nat) : SignalVisualizer :=
  {| num_channels := n;
     data := replicate n [fzero; fzero; fzero];
     filters := replicate n chain;
     last_print_time := lpt;
     last_blink_time := lbt;
     start_time := 0%Q;
     initial_delay_complete := true;
     ready_for_operation := true;
     countdown_remaining := 0%Z;
     countdown_timer := false;
     initial_countdown_remaining := 0%Z;
     initial_countdown_timer := false;
     potential_command := None;
     potential_value := None;
     null_operation_counter := Some skipped;
     countdown_signals_skipped := Some 0 |}.

(** Warm-up, one record during the Initial countdown and the first two
    ticks of its timer. *)
Definition countdown_inputs : list input :=
  [DataReady 1 "5" returns; DataReady 6 "5" returns; DataReady 6.5 "5" returns;
   InitialCountdownTimeout; InitialCountdownTimeout].

(** A whole session: the third tick, then records in Ready. *)
Definition session_inputs : list input :=
  countdown_inputs ++
  [InitialCountdownTimeout;
   DataReady 12 "250" returns; DataReady 16 "250" returns; DataReady 19.5 "250" returns;
   DataReady 23 "5" returns; DataReady 29 "250" returns].

(** The delivery of the record read at 16 s in that session. *)
Definition sent : delivery :=
  Eval vm_compute in
    nth 7 (run true session_inputs (fresh 1)).1 (MkDelivery CountdownTimeout (Ok tt) []).

End Demo.


(** * Vocabulary of the session properties *)

(** The log files written by a list of effects, in order. *)
Definition logs_of (o : list effect) : list log_file :=
  flat_map (fun e => match e with FileAppend f _ => [f] | _ => [] end) o.

(** The fired events of a session: clock reading and log file, in order. *)
Definition log_times (ds : list delivery) : list (option Q * log_file) :=
  flat_map (fun d => map (fun f => (clock_of (dl_input d), f)) (logs_of (dl_effects d))) ds.

(** The time that must have passed since the last fired event for an event
    of this log file to fire: lines 266 and 268. *)
Definition min_gap (f : log_file) : Q :=
  match f with enter_txt => eye_open_duration | right_txt => print_delay end.

Definition gap_after (t : Q) (y : option Q * log_file) : Prop :=
  match y.1 with
  | Some tj => (min_gap y.2 <= tj - t)%Q
  | None => False
  end.

Definition gap_apart (x y : option Q * log_file) : Prop :=
  match x.1 with
  | Some ti => gap_after ti y
  | None => False
  end.

(** What holds of the Arming State after a session in which [m] events
    were seen: the phase (warm-up, Initial countdown, Ready), the timers and
    the counters belong together. *)
Definition arming_inv (s : SignalVisualizer) (m : nat) : Prop :=
  if initial_delay_complete s then
    if ready_for_operation s then
      initial_countdown_timer s = false
      /\ potential_command s = None /\ potential_value s = None
      /\ (countdown_timer s = true -> (1 <= countdown_remaining s <= 3)%Z)
      /\ exists c n, countdown_signals_skipped s = Some c
                     /\ null_operation_counter s = Some n
                     /\ c <= 1 /\ c + n = Nat.min m 2
    else
      initial_countdown_timer s = true
      /\ (1 <= initial_countdown_remaining s <= 3)%Z
      /\ countdown_timer s = false
      /\ null_operation_counter s = Some 0
      /\ ((m = 0 /\ countdown_signals_skipped s = Some 0
           /\ potential_command s = None /\ potential_value s = None)
          \/ (m = 1 /\ countdown_signals_skipped s = Some 1
              /\ potential_command s <> None /\ potential_value s <> None))
  else
    m = 0 /\ ready_for_operation s = false
    /\ initial_countdown_timer s = false /\ countdown_timer s = false
    /\ potential_command s = None /\ potential_value s = None.

Definition is_initial_tick (d : delivery) : bool :=
  match dl_input d with InitialCountdownTimeout => true | _ => false end.

(** The ticks of the initial countdown timer among the deliveries made. *)
Definition count_initial_ticks (ds : list delivery) : nat :=
  length (List.filter is_initial_tick ds).

(** [self.filters[i][1](self.filters[i][0](x))] (line 237) on the filter
    pair of one channel: the result and the pair after the two calls. *)
Definition chain_call (p : LiveLFilter * LiveLFilter) (x : float)
  : res float * (LiveLFilter * LiveLFilter) :=
  let '(r1, f1) := process x (fst p) in
  match r1 with
  | Raise e => (Raise e, (f1, snd p))
  | Ok y => let '(r2, f2) := process y (snd p) in (r2, (f1, f2))
  end.

(** The signal path of an object of [n] channels with display buffers of
    length [L]: one buffer and one filter pair per channel, every filter
    with delay lines of the constructed lengths. *)
Record signal_wf (n L : nat) (s : SignalVisualizer) : Prop := {
  swf_channels : num_channels s = n;
  swf_data : length (data s) = n;
  swf_bufs : Forall (fun buf => length buf = L) (data s);
  swf_filters_len : length (filters s) = n;
  swf_filters : Forall (fun p => filter_wf (fst p) /\ filter_wf (snd p)) (filters s)
}.

(** The exceptions that can leave a slot: [StopIteration] out of the
    trigger selection of [update], before any command is passed on;
    [TypeError] out of [update_initial_countdown]; and the exception with
    which the body of [send_command] ends, out of [update], the call of
    [send_command] being the last thing the slot did (a [ValueError] from
    there is caught by [update] like its own). *)
Definition expected_outcome (d : delivery) : Prop :=
  match dl_result d with
  | Ok _ => True
  | Raise e =>
      (e = StopIteration
       /\ (exists now line sink, dl_input d = DataReady now line sink)
       /\ forall c, ~ In (SendCommand c) (dl_effects d))
      \/ (e = TypeError /\ dl_input d = InitialCountdownTimeout)
      \/ (exists now line c pre,
            dl_input d = DataReady now line (Raise e)
            /\ dl_effects d = pre ++ [SendCommand c])
  end.

Definition is_countdown_tick (d : delivery) : bool :=
  match dl_input d with CountdownTimeout => true | _ => false end.

Definition count_countdown_ticks (ds : list delivery) : nat :=
  length (List.filter is_countdown_tick ds).

(** What a delivery in which no event fires does to the countdown: a tick
    of the running timer takes one off and stops the timer at 0, and
    nothing else touches it. *)
Definition countdown_step (i : input) (s s' : SignalVisualizer) (o : list effect) : Prop :=
  match i with
  | CountdownTimeout =>
      if countdown_timer s
      then if (countdown_remaining s =? 1)%Z
           then countdown_timer s' = false /\ In (SetLabel TimerReady) o
           else countdown_timer s' = true
                /\ countdown_remaining s' = (countdown_remaining s - 1)%Z
      else countdown_timer s' = false
  | _ => countdown_timer s' = countdown_timer s
         /\ countdown_remaining s' = countdown_remaining s
  end.

(** The body of [send_command] was entered during the delivery and
    raised. *)
Definition send_raised (i : input) (o : list effect) : bool :=
  existsb is_send o && is_raise (sink_of i).

(** What a delivery in which an event fires does to the countdown:
    [start_countdown] is the last line of both branches, behind the call of
    [send_command].  Unless that call raises, the countdown is restarted at
    3 and the slot returns; when it raises, the countdown is as it was and
    the label is not touched. *)
Definition countdown_restart (i : input) (r : res unit) (s s' : SignalVisualizer)
    (o : list effect) : Prop :=
  if send_raised i o then
    countdown_timer s' = countdown_timer s
    /\ countdown_remaining s' = countdown_remaining s
    /\ forall l, ~ In (SetLabel l) o
  else
    r = Ok tt
    /\ countdown_timer s' = true /\ countdown_remaining s' = 3%Z
    /\ In (SetLabel (TimerRemaining 3)) o.

(** ** Sessions for running the model on concrete input *)

Module Sessions.
(** Warm-up and the record that ends it. *)
Definition warm_up_inputs : list input :=
  [DataReady 1 "5" returns; DataReady 6 "5" returns].

(** The three ticks of the Initial countdown. *)
Definition three_ticks : list input :=
  [InitialCountdownTimeout; InitialCountdownTimeout; InitialCountdownTimeout].

(** The demonstration session up to its first fired event, at 12 s. *)
Definition first_event_inputs : list input :=
  Demo.countdown_inputs ++ [InitialCountdownTimeout; DataReady 12 "250" returns].

(** Ticks of the countdown, and a record inside the rate limit. *)
Definition quiet_inputs : list input :=
  [CountdownTimeout; DataReady 13 "5" returns; CountdownTimeout; CountdownTimeout].

(** The tick that ends an Initial countdown in which nothing was recorded. *)
Definition failed_tick : delivery :=
  MkDelivery InitialCountdownTimeout (Raise TypeError) [SetLabel TimerReady].

(** The demonstration session up to its third event, the move-next sent
    at 16 s, and the three ticks of the countdown that follows it. *)
Definition before_exit : list input :=
  first_event_inputs
  ++ [DataReady 16 "250" returns; CountdownTimeout; CountdownTimeout; CountdownTimeout].

(** A select at 21 s then reaches the launcher's Exit button: the window
    is destroyed and line 1897 raises. *)
Definition exit_inputs : list input :=
  before_exit ++ [DataReady 21 "5" (Raise TclError)].

(** The delivery of the record read at 21 s in that session. *)
Definition exit_select : delivery :=
  Eval vm_compute in
    nth 11 (run false exit_inputs (Demo.fresh 1)).1 (MkDelivery CountdownTimeout (Ok tt) []).
End Sessions.

(** * The windows that receive the commands

    [send_command] (lines 203-216) hands a command to the window that is
    active: the launcher (class [LauncherGUI], lines 1788-1953) or one of
    the four on-screen keyboards (lines 330-1786).  What follows embeds the
    part of these classes that decides which button or key a command
    reaches and what a key does to the text: the launcher, the cursor of the
    four keyboards, the virtual keyboard with its text box, and the To field
    of the mail keyboard.  Geometry and fonts are left out; of the colours
    only the backgrounds of the launcher's buttons are kept.  What a selected
    entry does outside its window (files, mail, browser, the windows it
    opens) is recorded as an effect and not followed further.  Tk refuses
    every call on a widget of a window that has been destroyed, and a
    second [destroy], with [TclError]; calls that only paint are kept as far
    as they can raise it.  [after] is a command of Tcl itself: it goes on
    working on a destroyed window, and neither [after] nor the
    [after_cancel_all] of the keyboards raises. *)

(** ** Outcomes of the methods of the windows *)

Inductive outcome (A : Type) : Type :=
  | Returns (a : A)
  | Raises (e : exn).
Arguments Returns {A} a.
Arguments Raises {A} e.

(** [n] calls of a method, stopping at the first exception. *)
Fixpoint repeat_call {S : Type} (f : S -> outcome S) (n : nat) (s : S) : outcome S :=
  match n with
  | O => Returns s
  | S n' =>
      match f s with
      | Returns s' => repeat_call f n' s'
      | Raises e => Raises e
      end
  end.

(** ** The cursor of a keyboard *)

Module Keyboard.

(** The attributes [current_row] and [current_pos]: Python integers that
    start at 0 and are only incremented or reset. *)
Record Cursor : Type := MkCursor { current_row : nat; current_pos : nat }.

(** [self.rows[self.current_row][self.current_pos]]. *)
Definition key_at (rows : list (list string)) (c : Cursor) : outcome string :=
  match rows !! current_row c with
  | None => Raises IndexError
  | Some row =>
      match row !! current_pos c with
      | None => Raises IndexError
      | Some key => Returns key
      end
  end.

(** [move_right] of [VSCodeKeyboard] (lines 635-649), [NotepadKeyboard]
    (lines 1298-1312) and [MailKeyboard] (lines 1739-1753), the same text
    three times; the two calls that repaint are left out. *)
Definition move_right (rows : list (list string)) (c : Cursor) : outcome Cursor :=
  match rows !! current_row c with
  | None => Raises IndexError
  | Some row =>
      let current_row_length := Z.of_nat (length row) in
      if (Z.of_nat (current_pos c) <? current_row_length - 1)%Z
      then Returns (MkCursor (current_row c) (current_pos c + 1))
      else if (Z.of_nat (current_row c) <? Z.of_nat (length rows) - 1)%Z
           then Returns (MkCursor (current_row c + 1) 0)
           else Returns (MkCursor 0 0)
  end.

(** [VirtualKeyboard.move_right] (lines 959-970): the next row is taken
    modulo the number of rows, which is not 0 when the row lookup
    succeeded. *)
Definition move_right_modulo (rows : list (list string)) (c : Cursor) : outcome Cursor :=
  match rows !! current_row c with
  | None => Raises IndexError
  | Some row =>
      let current_row_length := Z.of_nat (length row) in
      if (Z.of_nat (current_pos c) <? current_row_length - 1)%Z
      then Returns (MkCursor (current_row c) (current_pos c + 1))
      else Returns (MkCursor ((current_row c + 1) mod length rows) 0)
  end.

(** [move_to_first_key_of_row] (lines 677-680, 1028-1031, 1363-1366,
    1782-1785). *)
Definition move_to_first_key_of_row (c : Cursor) : Cursor := MkCursor (current_row c) 0.

(** The cursor is on a key. *)
Definition on_key (rows : list (list string)) (c : Cursor) : Prop :=
  exists row, rows !! current_row c = Some row /\ current_pos c < length row.

(** The place of the cursor in reading order: the keys of the rows above,
    then the keys to the left. *)
Definition reading_index (rows : list (list string)) (c : Cursor) : nat :=
  length (concat (take (current_row c) rows)) + current_pos c.

End Keyboard.

(** The layouts of the four keyboards (lines 487-493, 821-827, 1173-1179
    and 1476-1482). *)
Definition vscode_rows : list (list string) :=
  [["a"; "b"; "c"; "d"; "e"; "f"; "g"; "h"; "i"; "space"; "enter"; "delete"; "bg"; "exit"];
   ["j"; "k"; "l"; "m"; "n"; "o"; "p"; "q"; "r"; "space"; "enter"; "delete"; "bg"; "exit"];
   ["s"; "t"; "u"; "v"; "w"; "x"; "y"; "z"; "."; "space"; "enter"; "delete"; "bg"; "exit"];
   ["("; ")"; ":"; "<"; ">"; "+"; "-"; "*"; "/"; "%"; "enter"; "delete"; "bg"; "exit"];
   ["1"; "2"; "3"; "4"; "5"; "6"; "7"; "8"; "9"; "0"; "enter"; "delete"; "exit"]]%string.

Definition vkb_rows : list (list string) :=
  [["a"; "b"; "c"; "d"; "e"; "f"; "space"; "enter"; "delete"; "bg"; "exit"];
   ["g"; "h"; "i"; "j"; "k"; "space"; "enter"; "delete"; "bg"; "exit"];
   ["l"; "m"; "n"; "o"; "p"; "space"; "enter"; "delete"; "bg"; "exit"];
   ["q"; "r"; "s"; "t"; "u"; "space"; "enter"; "delete"; "bg"; "exit"];
   ["v"; "w"; "x"; "y"; "z"; "space"; "enter"; "delete"; "bg"; "exit"]]%string.

Definition notepad_rows : list (list string) :=
  [["a"; "b"; "c"; "d"; "e"; "f"; "1"; "2"; "space"; "enter"; "delete"; "bg"; "exit"];
   ["g"; "h"; "i"; "j"; "k"; "3"; "4"; "space"; "enter"; "delete"; "bg"; "exit"];
   ["l"; "m"; "n"; "o"; "p"; "5"; "6"; "space"; "enter"; "delete"; "bg"; "exit"];
   ["q"; "r"; "s"; "t"; "u"; "7"; "8"; "space"; "enter"; "delete"; "bg"; "exit"];
   ["v"; "w"; "x"; "y"; "z"; "9"; "0"; "space"; "enter"; "delete"; "exit"]]%string.

Definition mail_rows : list (list string) :=
  [["a"; "b"; "c"; "d"; "e"; "f"; "g"; "h"; "i"; "space"; "enter"; "delete"; "send"; "bg";
    "Left"; "Right"];
   ["j"; "k"; "l"; "m"; "n"; "o"; "p"; "q"; "r"; "space"; "enter"; "delete"; "send"; "bg";
    "Left"; "Right"];
   ["s"; "t"; "u"; "v"; "w"; "x"; "y"; "z"; "."; "@"; "space"; "enter"; "delete"; "send";
    "bg"; "Left"; "Right"];
   ["1"; "2"; "3"; "4"; "5"; "6"; "7"; "8"; "9"; "0"; "enter"; "delete"; "send"; "bg"];
   ["Left"; "Right"; "Send"; "bg"; "exit"]]%string.

(** ** Methods of the windows *)

(** The callbacks of the launcher's buttons (lines 1829-1836). *)
Inductive callback : Type :=
  | launch_google_search
  | launch_notepad
  | launch_mail
  | launch_vscode
  | send_alert
  | exit_program.

(** What a method of a window does outside the attributes modelled here. *)
Inductive gui_effect : Type :=
  | Invoke (cb : callback)                 (* button.invoke() runs the callback *)
  | WebbrowserOpen (url : string)          (* webbrowser.open(url) *)
  | KeyPressVisual (row pos : nat)         (* on_key_press_visual(buttons[row][pos]) *)
  | AfterKeyRelease (row pos : nat)        (* after(200, on_key_release_visual(...)) *)
  | AfterProcessCommands                   (* after(50, self.process_commands) *)
  | AfterCancelAll.                        (* after_cancel_all() *)

(** A method of an object with attributes [S]: outcome, attributes after
    the call (mutations made before a raise stay), effects in order. *)
Definition GM (S A : Type) : Type := S -> outcome A * S * list gui_effect.

Definition gret {S A : Type} (x : A) : GM S A := fun s => (Returns x, s, []).

Definition gbind {S A B : Type} (m : GM S A) (k : A -> GM S B) : GM S B :=
  fun s =>
    match m s with
    | (Returns x, s1, o1) => let '(r, s2, o2) := k x s1 in (r, s2, o1 ++ o2)
    | (Raises e, s1, o1) => (Raises e, s1, o1)
    end.

Declare Scope gui_scope.
Delimit Scope gui_scope with gui.
Notation "x <- m ;; k" := (gbind m (fun x => k))
  (at level 100, m at next level, right associativity) : gui_scope.
Notation "m ;; k" := (gbind m (fun _ => k))
  (at level 100, right associativity) : gui_scope.
#[local] Open Scope gui_scope.

Definition graise {S A : Type} (e : exn) : GM S A := fun s => (Raises e, s, []).
Definition ggets {S A : Type} (f : S -> A) : GM S A := fun s => (Returns (f s), s, []).
Definition gmodify {S : Type} (f : S -> S) : GM S unit := fun s => (Returns tt, f s, []).
Definition gemit {S : Type} (e : gui_effect) : GM S unit := fun s => (Returns tt, s, [e]).
Definition glift {S A : Type} (r : outcome A) : GM S A := fun s => (r, s, []).

(** [try: m finally: h]: [h] runs in any case, and an exception of [h]
    replaces the outcome of [m]. *)
Definition try_finally {S : Type} (m h : GM S unit) : GM S unit :=
  fun s =>
    let '(r1, s1, o1) := m s in
    let '(r2, s2, o2) := h s1 in
    match r2 with
    | Raises e => (Raises e, s2, o1 ++ o2)
    | Returns _ => (r1, s2, o1 ++ o2)
    end.


(** ** class LauncherGUI (lines 1788-1953) *)

Module LauncherGUI.

(** A [tk.Button] of the launcher: its command and its background. *)
Record Button : Type := MkButton { text : string; command : callback; bg : string }.

Record t : Type := MkLauncherGUI {
  buttons : list Button;
  current_button_index : nat;
  status_label : string;
  cursor : option nat;          (* the button the cursor frame is placed under *)
  withdrawn : bool              (* [withdraw] hides the window, [deiconify] shows it *)
}.

Definition set_buttons (v : list Button) (g : t) : t :=
  MkLauncherGUI v (current_button_index g) (status_label g) (cursor g) (withdrawn g).
Definition set_current_button_index (v : nat) (g : t) : t :=
  MkLauncherGUI (buttons g) v (status_label g) (cursor g) (withdrawn g).
Definition set_status_label (v : string) (g : t) : t :=
  MkLauncherGUI (buttons g) (current_button_index g) v (cursor g) (withdrawn g).
Definition set_cursor (v : option nat) (g : t) : t :=
  MkLauncherGUI (buttons g) (current_button_index g) (status_label g) v (withdrawn g).
Definition set_withdrawn (v : bool) (g : t) : t :=
  MkLauncherGUI (buttons g) (current_button_index g) (status_label g) (cursor g) v.

(** [buttons_info] of [setup_gui] (lines 1829-1836). *)
Definition buttons_info : list (string * callback * string) :=
  [("Google Search", launch_google_search, "#4285F4");
   ("Notepad", launch_notepad, "#2196F3");
   ("Mail", launch_mail, "#4CAF50");
   ("VS Code", launch_vscode, "#007ACC");
   ("Alert", send_alert, "#FF9800");
   ("Exit", exit_program, "#FF5252")]%string.

(** [original_colors] of [highlight_button] (line 1873). *)
Definition original_colors : list string :=
  ["#4285F4"; "#2196F3"; "#4CAF50"; "#007ACC"; "#FF9800"; "#FF5252"]%string.

Definition highlight_color : string := "#1a237e".

(** [self.buttons[i].config(bg=color)]. *)
Definition config_bg (i : nat) (color : string) : GM t unit :=
  bs <- ggets buttons ;;
  match bs !! i with
  | None => graise IndexError
  | Some b => gmodify (set_buttons (<[i := MkButton (text b) (command b) color]> bs))
  end.

(** The loop of [highlight_button] (lines 1874-1875). *)
Fixpoint reset_colors (rng : list nat) : GM t unit :=
  match rng with
  | [] => gret tt
  | i :: rng' =>
      match original_colors !! i with
      | None => graise IndexError
      | Some color => config_bg i color ;; reset_colors rng'
      end
  end.

(** [highlight_button] (lines 1872-1876). *)
Definition highlight_button (index : nat) : GM t unit :=
  bs <- ggets buttons ;;
  reset_colors (seq 0 (length bs)) ;;
  config_bg index highlight_color.

(** [update_cursor_position] (lines 1878-1887). *)
Definition update_cursor_position : GM t unit :=
  gmodify (set_cursor None) ;;
  bs <- ggets buttons ;;
  idx <- ggets current_button_index ;;
  if idx <? length bs then gmodify (set_cursor (Some idx)) else gret tt.

(** [move_to_next_button] (lines 1889-1893); the modulus raises on an
    empty list of buttons. *)
Definition move_to_next_button : GM t unit :=
  bs <- ggets buttons ;;
  idx <- ggets current_button_index ;;
  (if length bs =? 0 then graise ZeroDivisionError else gret tt) ;;
  gmodify (set_current_button_index ((idx + 1) mod length bs)) ;;
  idx <- ggets current_button_index ;;
  highlight_button idx ;;
  gmodify (set_status_label "Moved to next button") ;;
  update_cursor_position.

(** [select_current_button] (lines 1895-1897).  The command of the button
    runs inside [invoke]: the call is recorded and the command is not
    followed.  After [exit_program], which destroys the window, the call on
    the status label raises; otherwise the attributes after the call are
    those a command leaves that returns without touching the launcher. *)
Definition select_current_button : GM t unit :=
  bs <- ggets buttons ;;
  idx <- ggets current_button_index ;;
  match bs !! idx with
  | None => graise IndexError
  | Some b =>
      gemit (Invoke (command b)) ;;
      (match command b with
       | exit_program => graise TclError
       | _ => gret tt
       end) ;;
      gmodify (set_status_label "Button selected!")
  end.

(** [setup_gui] (lines 1807-1860): the buttons, in the order of
    [buttons_info]. *)
Definition setup_gui : GM t unit :=
  gmodify (set_buttons (map (fun '(text, command, color) => MkButton text command color)
                            buttons_info)) ;;
  highlight_button 0 ;;
  gmodify (set_status_label "Ready").

(** [__init__] (lines 1789-1805), on the attributes of the new object. *)
Definition init : GM t unit :=
  gmodify (set_buttons []) ;;
  gmodify (set_current_button_index 0) ;;
  setup_gui ;;
  update_cursor_position.



(** The launcher as [__init__] leaves it. *)
Definition created : t :=
  Eval vm_compute in (init (MkLauncherGUI [] 0 "" None false)).1.2.

End LauncherGUI.

(** ** The attributes of SignalVisualizer that name the windows *)

(** The values of [active_gui] other than [None]: the strings "launcher",
    "vkb", "notepad", "vscode" and "mail". *)
Inductive gui_name : Type := launcher | vkb | notepad | vscode | mail.

Definition gui_name_eqb (x y : gui_name) : bool :=
  match x, y with
  | launcher, launcher | vkb, vkb | notepad, notepad | vscode, vscode | mail, mail => true
  | _, _ => false
  end.

(** [self.active_gui == name]. *)
Definition active_is (name : gui_name) (a : option gui_name) : bool :=
  match a with
  | Some x => gui_name_eqb x name
  | None => false
  end.

(** The launcher is an object of the model; of a keyboard the visualizer
    only tests whether the attribute is [None]. *)
Record Visualizer : Type := MkVisualizer {
  active_gui : option gui_name;
  launcher_gui : option LauncherGUI.t;
  vkb_gui : bool;
  notepad_gui : bool;
  vscode_gui : bool;
  mail_gui : bool;
  command_queue : list (command * unit)     (* queue.Queue of (command, None) *)
}.

Definition set_active_gui (a : option gui_name) (v : Visualizer) : Visualizer :=
  MkVisualizer a (launcher_gui v) (vkb_gui v) (notepad_gui v) (vscode_gui v) (mail_gui v)
    (command_queue v).
Definition set_launcher_gui (l : option LauncherGUI.t) (v : Visualizer) : Visualizer :=
  MkVisualizer (active_gui v) l (vkb_gui v) (notepad_gui v) (vscode_gui v) (mail_gui v)
    (command_queue v).
Definition set_vkb_gui (b : bool) (v : Visualizer) : Visualizer :=
  MkVisualizer (active_gui v) (launcher_gui v) b (notepad_gui v) (vscode_gui v) (mail_gui v)
    (command_queue v).
Definition set_command_queue (q : list (command * unit)) (v : Visualizer) : Visualizer :=
  MkVisualizer (active_gui v) (launcher_gui v) (vkb_gui v) (notepad_gui v) (vscode_gui v)
    (mail_gui v) q.

(** [x is not None], the truth value of a window object. *)
Definition is_not_None {A : Type} (x : option A) : bool :=
  match x with Some _ => true | None => false end.

(** A method of the launcher called through [self.launcher_gui]. *)
Definition on_launcher {A : Type} (m : GM LauncherGUI.t A) : GM Visualizer A :=
  fun v =>
    match launcher_gui v with
    | None => (Raises AttributeError, v, [])
    | Some g => let '(r, g', o) := m g in (r, set_launcher_gui (Some g') v, o)
    end.

(** [self.command_queue.put((command, None))]. *)
Definition command_queue_put (c : command) : GM Visualizer unit :=
  gmodify (fun v => set_command_queue (command_queue v ++ [(c, tt)]) v).

(** The body of [send_command] (lines 203-216). *)
Definition dispatch_command (c : command) : GM Visualizer unit :=
  a <- ggets active_gui ;;
  l <- ggets launcher_gui ;;
  if active_is launcher a && is_not_None l then
    match c with
    | right => on_launcher LauncherGUI.move_to_next_button
    | select => on_launcher LauncherGUI.select_current_button
    end
  else
    k <- ggets vkb_gui ;;
    if active_is vkb a && k then command_queue_put c
    else
      k <- ggets notepad_gui ;;
      if active_is notepad a && k then command_queue_put c
      else
        k <- ggets vscode_gui ;;
        if active_is vscode a && k then command_queue_put c
        else
          k <- ggets mail_gui ;;
          if active_is mail a && k then command_queue_put c
          else gret tt.

(** One call of [send_command] for every command of a list, up to the
    first call that raises. *)
Fixpoint dispatch_commands (cs : list command) : GM Visualizer unit :=
  match cs with
  | [] => gret tt
  | c :: cs' => dispatch_command c ;; dispatch_commands cs'
  end.

(** ** Python strings

    A string is a sequence of code points below 256. *)

(** [c.isspace()]. *)
Definition py_isspace (c : ascii) : bool :=
  let n := nat_of_ascii c in
  ((9 <=? n) && (n <=? 13)) || ((28 <=? n) && (n <=? 32)) || (n =? 133) || (n =? 160).

(** [s.lstrip()], [s.rstrip()] and [s.strip()]. *)
Fixpoint py_lstrip (s : string) : string :=
  match s with
  | EmptyString => EmptyString
  | String c s' => if py_isspace c then py_lstrip s' else s
  end.

Fixpoint py_rstrip (s : string) : string :=
  match s with
  | EmptyString => EmptyString
  | String c s' =>
      match py_rstrip s' with
      | EmptyString => if py_isspace c then EmptyString else String c EmptyString
      | rest => String c rest
      end
  end.

Definition py_strip (s : string) : string := py_rstrip (py_lstrip s).

(** [s.lower()]: the letters A-Z, and the capital letters of Latin-1. *)
Definition py_lower_char (c : ascii) : ascii :=
  let n := nat_of_ascii c in
  if ((65 <=? n) && (n <=? 90)) || ((192 <=? n) && (n <=? 222) && negb (n =? 215))
  then ascii_of_nat (n + 32)
  else c.

Fixpoint py_lower (s : string) : string :=
  match s with
  | EmptyString => EmptyString
  | String c s' => String (py_lower_char c) (py_lower s')
  end.

(** [s.replace(old, new)] for strings [old] and [new] of one character. *)
Fixpoint py_replace_char (old new : ascii) (s : string) : string :=
  match s with
  | EmptyString => EmptyString
  | String c s' =>
      String (if Ascii.eqb c old then new else c) (py_replace_char old new s')
  end.

(** [s[:-1]]. *)
Fixpoint py_drop_last (s : string) : string :=
  match s with
  | EmptyString => EmptyString
  | String c EmptyString => EmptyString
  | String c s' => String c (py_drop_last s')
  end.

(** [s.endswith(suffix)]. *)
Definition py_endswith (s suffix : string) : bool :=
  let n := String.length s in
  let m := String.length suffix in
  (m <=? n) && String.eqb (substring (n - m) m s) suffix.

(** [s.split(sep)[0]] for a separator of one character. *)
Fixpoint py_split_first (sep : ascii) (s : string) : string :=
  match s with
  | EmptyString => EmptyString
  | String c s' => if Ascii.eqb c sep then EmptyString else String c (py_split_first sep s')
  end.

(** ** class VirtualKeyboard (lines 682-1036) *)

Module VirtualKeyboard.

(** [text_box] holds the characters of the [tk.Text] in front of the
    newline that Tk keeps at its end; [visualizer] is the object the
    keyboard was given, the one [send_command] belongs to. *)
Record t : Type := MkVirtualKeyboard {
  visualizer : Visualizer;
  rows : list (list string);
  current_row : nat;
  current_pos : nat;
  text_box : string;
  text_var : string;
  destroyed : bool
}.

Definition set_visualizer (v : Visualizer) (k : t) : t :=
  MkVirtualKeyboard v (rows k) (current_row k) (current_pos k) (text_box k) (text_var k)
    (destroyed k).
Definition set_cursor (c : Keyboard.Cursor) (k : t) : t :=
  MkVirtualKeyboard (visualizer k) (rows k) (Keyboard.current_row c) (Keyboard.current_pos c)
    (text_box k) (text_var k) (destroyed k).
Definition set_text_box (s : string) (k : t) : t :=
  MkVirtualKeyboard (visualizer k) (rows k) (current_row k) (current_pos k) s (text_var k)
    (destroyed k).
Definition set_text_var (s : string) (k : t) : t :=
  MkVirtualKeyboard (visualizer k) (rows k) (current_row k) (current_pos k) (text_box k) s
    (destroyed k).
Definition set_destroyed (b : bool) (k : t) : t :=
  MkVirtualKeyboard (visualizer k) (rows k) (current_row k) (current_pos k) (text_box k)
    (text_var k) b.

Definition cursor_of (k : t) : Keyboard.Cursor := Keyboard.MkCursor (current_row k) (current_pos k).

(** The keys that type themselves: every key but the five named in
    [on_button_click]. *)
Definition plain_key (key : string) : bool :=
  negb (String.eqb key "space" || String.eqb key "enter" || String.eqb key "delete"
        || String.eqb key "bg" || String.eqb key "exit").

(** A call on a widget of the window, or [destroy]: on a destroyed window
    it raises. *)
Definition tk_call : GM t unit :=
  d <- ggets destroyed ;;
  if d then graise TclError else gret tt.

(** A method of the visualizer called through [self.visualizer]. *)
Definition on_visualizer {A : Type} (m : GM Visualizer A) : GM t A :=
  fun k => let '(r, v, o) := m (visualizer k) in (r, set_visualizer v k, o).

(** [update_button_highlight] and [update_cursor_position] (lines 947-957
    and 972-983) repaint: from the attributes they only read. *)
Definition repaint : GM t unit := tk_call.

(** [move_right] (lines 959-970). *)
Definition move_right : GM t unit :=
  rs <- ggets rows ;;
  c <- ggets cursor_of ;;
  c' <- glift (Keyboard.move_right_modulo rs c) ;;
  gmodify (set_cursor c') ;;
  repaint.

(** [move_to_first_key_of_row] (lines 1028-1031). *)
Definition move_to_first_key_of_row : GM t unit :=
  c <- ggets cursor_of ;;
  gmodify (set_cursor (Keyboard.move_to_first_key_of_row c)) ;;
  repaint.

(** [self.text_box.insert(tk.END, s)]. *)
Definition text_box_insert_end (s : string) : GM t unit :=
  tk_call ;;
  gmodify (fun k => set_text_box (text_box k ++ s) k).

(** [self.text_box.get("1.0", tk.END)]: the text and the final newline. *)
Definition text_box_get : GM t string :=
  tk_call ;;
  s <- ggets text_box ;;
  gret (s ++ String "010" EmptyString)%string.

(** [self.text_box.delete("end-2c")]: the character in front of the final
    newline. *)
Definition text_box_delete_last : GM t unit :=
  tk_call ;;
  gmodify (fun k => set_text_box (py_drop_last (text_box k)) k).

(** [perform_web_search] (lines 1033-1036). *)
Definition perform_web_search (search_term : string) : GM t unit :=
  let base_url := "https://www.google.com/search?q="%string in
  let url := (base_url ++ py_replace_char " " "+" search_term)%string in
  gemit (WebbrowserOpen url).

(** [on_closing] (lines 795-804): the pending [after] calls are
    cancelled, the launcher is made the active window and shown, and the
    keyboard is destroyed. *)
Definition on_closing : GM t unit :=
  gemit AfterCancelAll ;;
  on_visualizer (gmodify (set_active_gui (Some launcher))) ;;
  on_visualizer (gmodify (set_vkb_gui false)) ;;
  on_visualizer
    (l <- ggets launcher_gui ;;
     match l with
     | Some g => gmodify (set_launcher_gui (Some (LauncherGUI.set_withdrawn false g)))
     | None => gret tt
     end) ;;
  tk_call ;;                                                (* self.destroy() *)
  gmodify (set_destroyed true).

(** [on_key_press_visual] (lines 889-898) changes colours and schedules
    the release of the key. *)
Definition on_key_press_visual (row pos : nat) : GM t unit :=
  tk_call ;;                                                (* button.cget, button.config *)
  gemit (KeyPressVisual row pos).

(** What a key does: the [if] chain that [on_button_click] and
    [select_highlighted_key] have in common, written out once for each of
    them below. *)

(** [on_button_click] (lines 985-1012). *)
Definition on_button_click (button : string) : GM t unit :=
  let button := py_lower button in
  (if String.eqb button "space" then
     text_box_insert_end " " ;;
     v <- ggets text_var ;;
     gmodify (set_text_var (v ++ " "))
   else if String.eqb button "enter" then
     current_text <- text_box_get ;;
     perform_web_search (py_strip current_text)
   else if String.eqb button "delete" then
     current_text <- text_box_get ;;
     (if 1 <? String.length current_text then text_box_delete_last else gret tt) ;;
     current_var_text <- ggets text_var ;;
     (if negb (String.eqb current_var_text "")
      then gmodify (set_text_var (py_drop_last current_var_text))
      else gret tt)
   else if String.eqb button "bg" then move_to_first_key_of_row
   else if String.eqb button "exit" then on_closing
   else
     text_box_insert_end button ;;
     v <- ggets text_var ;;
     gmodify (set_text_var (v ++ button))) ;;
  tk_call.                                                  (* text_box.see(tk.END) *)

(** [select_highlighted_key] (lines 909-945). *)
Definition select_highlighted_key : GM t unit :=
  rs <- ggets rows ;;
  c <- ggets cursor_of ;;
  key <- glift (Keyboard.key_at rs c) ;;
  let selected_key := py_lower key in
  on_key_press_visual (Keyboard.current_row c) (Keyboard.current_pos c) ;;
  (if String.eqb selected_key "space" then
     text_box_insert_end " " ;;
     v <- ggets text_var ;;
     gmodify (set_text_var (v ++ " "))
   else if String.eqb selected_key "enter" then
     current_text <- text_box_get ;;
     perform_web_search (py_strip current_text)
   else if String.eqb selected_key "delete" then
     current_text <- text_box_get ;;
     (if 1 <? String.length current_text then text_box_delete_last else gret tt) ;;
     current_var_text <- ggets text_var ;;
     (if negb (String.eqb current_var_text "")
      then gmodify (set_text_var (py_drop_last current_var_text))
      else gret tt)
   else if String.eqb selected_key "bg" then move_to_first_key_of_row
   else if String.eqb selected_key "exit" then on_closing
   else
     text_box_insert_end selected_key ;;
     v <- ggets text_var ;;
     gmodify (set_text_var (v ++ selected_key))) ;;
  tk_call ;;                                                (* text_box.see(tk.END) *)
  gemit (AfterKeyRelease (Keyboard.current_row c) (Keyboard.current_pos c)).

(** The loop of [process_commands]: [fuel] bounds the number of items
    taken; the handlers put nothing on the queue, so that its length
    is enough. *)
Fixpoint drain (fuel : nat) : GM t unit :=
  match fuel with
  | O => gret tt
  | S fuel' =>
      q <- ggets (fun k => command_queue (visualizer k)) ;;
      match q with
      | [] => gret tt                                       (* queue.Empty: break *)
      | (c, _) :: q' =>
          on_visualizer (gmodify (set_command_queue q')) ;;
          match c with
          | right => move_right
          | select => select_highlighted_key
          end ;;
          drain fuel'
      end
  end.

(** [process_commands] (lines 781-793): an exception of a handler leaves
    the loop, and the [finally] clause schedules the next run in any
    case, also on a destroyed window. *)
Definition process_commands : GM t unit :=
  try_finally
    (q <- ggets (fun k => command_queue (visualizer k)) ;; drain (length q))
    (gemit AfterProcessCommands).

(** [__init__] (lines 683-723) on the visualizer [v]: the new keyboard
    makes itself the active window and runs [process_commands] once. *)
Definition init (v : Visualizer) : outcome unit * t * list gui_effect :=
  process_commands
    (MkVirtualKeyboard (set_vkb_gui true (set_active_gui (Some vkb) v))
       vkb_rows 0 0 "" "" false).

End VirtualKeyboard.

(** ** MailKeyboard.append_gmail_domain (lines 1452-1458) *)

(** The text of the To field after the call. *)
Definition append_gmail_domain (to_entry : string) : string :=
  let current_text := to_entry in
  if negb (String.eqb current_text "") && negb (py_endswith current_text "@gmail.com")
  then
    let clean_text := py_split_first "@" current_text in
    (clean_text ++ "@gmail.com")%string
  else to_entry.

(** [text_var] holds the text of the text box. *)
Definition mirrored (k : VirtualKeyboard.t) : Prop :=
  VirtualKeyboard.text_var k = VirtualKeyboard.text_box k.

(** ** What can be typed on the virtual keyboard *)

Fixpoint all_chars (P : ascii -> bool) (s : string) : bool :=
  match s with
  | EmptyString => true
  | String c s' => P c && all_chars P s'
  end.

Definition is_lower_letter (c : ascii) : bool :=
  let n := nat_of_ascii c in (97 <=? n) && (n <=? 122).

(** The characters the keys of the virtual keyboard insert: a letter, or
    the blank of the space key. *)
Definition typed_char (c : ascii) : bool := is_lower_letter c || Ascii.eqb c " ".

(** Characters that stand for themselves in the query of a URL. *)
Definition url_char (c : ascii) : bool := is_lower_letter c || Ascii.eqb c "+".

Definition typed (k : VirtualKeyboard.t) : Prop :=
  VirtualKeyboard.rows k = vkb_rows
  /\ all_chars typed_char (VirtualKeyboard.text_box k) = true.

(** Every page opened is a search for a query of such characters. *)
Definition urls_safe (o : list gui_effect) : Prop :=
  forall url, In (WebbrowserOpen url) o ->
  exists q, url = ("https://www.google.com/search?q=" ++ q)%string
            /\ all_chars url_char q = true.

(** ** The windows of a running program *)

(** The attributes as [SignalVisualizer.__init__] leaves them (lines 92,
    100 and 122-126): no window yet, an empty queue. *)
Definition Visualizer_init : Visualizer :=
  MkVisualizer None None false false false false [].

(** [LauncherGUI.__init__] (lines 1789-1805) on the visualizer it is
    given. *)
Definition LauncherGUI_new (v : Visualizer) : Visualizer :=
  set_launcher_gui (Some LauncherGUI.created) (set_active_gui (Some launcher) v).

Module Desk.

(** The visualizer once the main block has created the launcher. *)
Definition launched : Visualizer := LauncherGUI_new Visualizer_init.

(** The virtual keyboard opened from the launcher. *)
Definition keyboard : VirtualKeyboard.t :=
  Eval vm_compute in (VirtualKeyboard.init launched).1.2.

(** That keyboard with the cursor on another key, some text typed and
    commands waiting. *)
Definition keyboard_at (row pos : nat) (text : string) (q : list (command * unit))
  : VirtualKeyboard.t :=
  VirtualKeyboard.set_visualizer (set_command_queue q (VirtualKeyboard.visualizer keyboard))
    (VirtualKeyboard.set_cursor (Keyboard.MkCursor row pos)
       (VirtualKeyboard.set_text_var text (VirtualKeyboard.set_text_box text keyboard))).

End Desk.
(** * Properties *)

(** ** The Causal Filter *)

Lemma deque_new_replicate (n : nat) (x : float) :
  deque_new (replicate n x) n = Deque (replicate n x) n.
Proof.
  unfold deque_new. rewrite length_replicate, Nat.sub_diag. reflexivity.
Qed.

(** On a full deque, [appendleft] keeps the [maxlen] most recent items. *)
Lemma appendleft_full (x : float) (d : deque) :
  length (items d) = maxlen d ->
  appendleft x d = Deque (take (maxlen d) (x :: items d)) (maxlen d).
Proof.
  destruct d as [l n]; simpl; intros Hlen. unfold appendleft; simpl.
  destruct n as [|n].
  - destruct l; [reflexivity | discriminate].
  - rewrite (proj2 (Nat.ltb_ge _ _)) by lia. simpl.
    rewrite removelast_firstn_len, Hlen. reflexivity.
Qed.

Lemma appendleft_full_length (x : float) (d : deque) :
  length (items d) = maxlen d ->
  length (items (appendleft x d)) = maxlen d /\ maxlen (appendleft x d) = maxlen d.
Proof.
  intros Hlen. rewrite appendleft_full by assumption. simpl.
  split; [|reflexivity]. destruct (maxlen d); [reflexivity|].
  simpl. rewrite length_take. lia.
Qed.

Lemma np_dot_same_length (u v : list float) :
  length u = length v -> np_dot u v = Ok (dot_from fzero u v).
Proof. intros E. unfold np_dot. rewrite E, Nat.eqb_refl. reflexivity. Qed.

Lemma LiveLFilter_init_wf (b0 a0 : list float) (f : LiveLFilter) :
  LiveLFilter_init b0 a0 = Ok f -> filter_wf f /\ b f = b0 /\ a f = a0.
Proof.
  unfold LiveLFilter_init. destruct a0 as [|c a']; [discriminate|].
  intros [= <-]. rewrite !deque_new_replicate.
  repeat split; simpl; try rewrite length_replicate; try reflexivity; try lia.
  discriminate.
Qed.

(** On a filter with delay lines of the constructed lengths,
    [LiveLFilter._process] computes the step of the specification. *)
Lemma LiveLFilter_process_spec_step (f : LiveLFilter) (x : float) :
  filter_wf f ->
  LiveLFilter_process x f = (Ok (fst (spec_step f x)), snd (spec_step f x)).
Proof.
  intros [Ha Hxm Hxl Hym Hyl].
  destruct f as [bb aa [xs xm] [ys ym]]; simpl in *. subst xm ym.
  destruct aa as [|a0 a']; [contradiction|]. simpl in Hyl. rewrite Nat.sub_0_r in Hyl.
  assert (Hxs : length (take (length bb) (x :: xs)) = length bb).
  { rewrite length_take. simpl. lia. }
  unfold LiveLFilter_process. simpl.
  rewrite (appendleft_full x (Deque xs (length bb))) by (simpl; congruence).
  simpl. rewrite np_dot_same_length by (symmetry; exact Hxs).
  rewrite (np_dot_same_length a') by lia.
  rewrite Nat.sub_0_r.
  rewrite (appendleft_full _ (Deque ys (length a'))) by (simpl; congruence).
  reflexivity.
Qed.

Lemma spec_step_wf (f : LiveLFilter) (x : float) :
  filter_wf f -> filter_wf (snd (spec_step f x)).
Proof.
  intros [Ha Hxm Hxl Hym Hyl]. unfold spec_step.
  constructor; simpl; try assumption; rewrite length_take; simpl; lia.
Qed.

(** The lengths of the delay lines are an invariant of [process]. *)
Lemma process_preserves_wf (f : LiveLFilter) (x : float) :
  filter_wf f -> filter_wf (snd (process x f)).
Proof.
  intros Hwf. unfold process. destruct (np_isnan x); [exact Hwf|]. simpl.
  rewrite (LiveLFilter_process_spec_step f x Hwf). apply spec_step_wf. exact Hwf.
Qed.

(** C8: on a filter whose delay lines have their constructed lengths, and a
    sample that is not a NaN, [process] does what the specification says:
    the sample is prepended to the feed-forward line (oldest dropped, length
    [len(b)]), [y = (dot(b, xs) - dot(a[1:], ys)) / a[0]] is prepended to the
    feedback line (oldest dropped, length [len(a) - 1]) and returned; the
    lengths are those of the constructor again afterwards. *)
Theorem process_refines_spec_step (f : LiveLFilter) (x : float) :
  filter_wf f ->
  np_isnan x = false ->
  process x f = (Ok (fst (spec_step f x)), snd (spec_step f x))
  /\ filter_wf (snd (spec_step f x))
  /\ length (items (_xs (snd (spec_step f x)))) = length (b f)
  /\ length (items (_ys (snd (spec_step f x)))) = length (a f) - 1.
Proof.
  intros Hwf Hnan.
  pose proof (spec_step_wf f x Hwf) as Hwf'.
  split.
  - unfold process. rewrite Hnan. simpl. apply LiveLFilter_process_spec_step. exact Hwf.
  - split; [exact Hwf'|]. destruct Hwf' as [_ _ Hxl' _ Hyl']. split; assumption.
Qed.

(** Witness of C8: a band-pass filter as constructed, fed with 200.0. *)
Lemma process_refines_spec_step_witness :
  let f := MkLiveLFilter [0.25%float; 0.125%float] [1%float; 0.5%float]
             (Deque [fzero; fzero] 2) (Deque [fzero] 1) in
  process 200%float f = (Ok (fst (spec_step f 200%float)), snd (spec_step f 200%float))
  /\ filter_wf (snd (spec_step f 200%float))
  /\ length (items (_xs (snd (spec_step f 200%float)))) = length (b f)
  /\ length (items (_ys (snd (spec_step f 200%float)))) = length (a f) - 1.
Proof.
  intros f. apply (process_refines_spec_step f 200%float).
  - constructor; simpl; [discriminate | reflexivity ..].
  - reflexivity.
Defined.

(** C9: a NaN sample is returned as it is, and the filter object (both
    delay lines, and the coefficients) is exactly as before the call; this
    is [LiveFilter.process], whatever the derived class. *)
Theorem process_nan_passthrough (F : Type) `{LiveFilter F} (self : F) (x : float) :
  np_isnan x = true ->
  process x self = (Ok x, self).
Proof. intros Hnan. unfold process. rewrite Hnan. reflexivity. Qed.

(** Witness of C9: a NaN fed to a filter with a non-zero delay line. *)
Lemma process_nan_passthrough_witness :
  process PrimFloat.nan
    (MkLiveLFilter [0.25%float] [1%float] (Deque [3%float] 1) (Deque [] 0))
  = (Ok PrimFloat.nan,
     MkLiveLFilter [0.25%float] [1%float] (Deque [3%float] 1) (Deque [] 0)).
Proof. apply (process_nan_passthrough LiveLFilter). reflexivity. Defined.

(** ** Concrete runs *)

Example demo_fresh_is_init : SignalVisualizer_init 2 3 0%Q = Ok (Demo.fresh 2).
Proof. reflexivity. Qed.

Example split_tab_fields :
  split_tab (Demo.tabbed "12" (Demo.tabbed "" "abc")) = ["12"; ""; "abc"]%string.
Proof. reflexivity. Qed.

Example split_tab_empty : split_tab "" = [""%string].
Proof. reflexivity. Qed.

Example appendleft_drops_oldest :
  appendleft 3%float (Deque [2%float; 1%float] 2) = Deque [3%float; 2%float] 2.
Proof. reflexivity. Qed.

Example appendleft_maxlen_zero : appendleft 3%float (Deque [] 0) = Deque [] 0.
Proof. reflexivity. Qed.

Example max_abs_first_of_ties :
  py_max_abs [(-2)%float; 1%float; 2%float] = Ok (-2)%float.
Proof. reflexivity. Qed.

Example next_outside_skips_nan :
  py_next_outside [PrimFloat.nan; 100%float; (-100.5)%float] = Ok (-100.5)%float.
Proof. reflexivity. Qed.

(** The commands of the demonstration session, and its events: a select
    recorded during the Initial countdown, a move-next skipped at 12 s and
    the three move-next that were sent. *)
Example demo_session_commands :
  List.filter is_send (effects_of (run true Demo.session_inputs (Demo.fresh 1)).1)
  = [SendCommand right; SendCommand right; SendCommand right]
  /\ count_matches (effects_of (run true Demo.session_inputs (Demo.fresh 1)).1) = 5.
Proof. vm_compute. split; reflexivity. Qed.

(** A countdown that ends without a captured value: the print of line 325
    raises. *)
Example initial_countdown_exit_without_pending :
  (update_initial_countdown
     (set_initial_countdown_remaining 1 (entered_initial_countdown (Demo.fresh 1)))).1.1
  = Raise TypeError.
Proof. reflexivity. Qed.

(** ** Equations of the method monad *)

Ltac unfold_monad :=
  unfold bind, ret, gets, getattr, modify, emit, lift, raise, index in *.

Section MonadEquations.
Context {A B : Type}.
Implicit Types (k : A -> M B) (s : SignalVisualizer).

Lemma bind_unfold (m : M A) k s :
  bind m k s =
  match m s with
  | (Ok x, s1, o1) => let '(r, s2, o2) := k x s1 in (r, s2, o1 ++ o2)
  | (Raise e, s1, o1) => (Raise e, s1, o1)
  end.
Proof. reflexivity. Qed.

Lemma bind_ret (x : A) k s : bind (ret x) k s = k x s.
Proof. unfold bind, ret. destruct (k x s) as [[r s2] o2]. reflexivity. Qed.

Lemma bind_gets (f : SignalVisualizer -> A) k s : bind (gets f) k s = k (f s) s.
Proof. unfold bind, gets. destruct (k (f s) s) as [[r s2] o2]. reflexivity. Qed.

Lemma bind_lift_ok (x : A) k s : bind (lift (Ok x)) k s = k x s.
Proof. unfold bind, lift. destruct (k x s) as [[r s2] o2]. reflexivity. Qed.

Lemma bind_lift_raise (e : exn) k s : bind (lift (Raise e)) k s = (Raise e, s, []).
Proof. reflexivity. Qed.

Lemma bind_raise (e : exn) k s : bind (raise e) k s = (Raise e, s, []).
Proof. reflexivity. Qed.

Lemma bind_getattr_some (f : SignalVisualizer -> option A) k s (x : A) :
  f s = Some x -> bind (getattr f) k s = k x s.
Proof.
  intros E. unfold bind, getattr. rewrite E.
  destruct (k x s) as [[r s2] o2]. reflexivity.
Qed.

Lemma bind_getattr_none (f : SignalVisualizer -> option A) k s :
  f s = None -> bind (getattr f) k s = (Raise AttributeError, s, []).
Proof. intros E. unfold bind, getattr. rewrite E. reflexivity. Qed.

End MonadEquations.

Lemma bind_modify {B : Type} (f : SignalVisualizer -> SignalVisualizer)
    (k : unit -> M B) (s : SignalVisualizer) :
  bind (modify f) k s = k tt (f s).
Proof. unfold bind, modify. destruct (k tt (f s)) as [[r s2] o2]. reflexivity. Qed.

Lemma bind_emit {B : Type} (e : effect) (k : unit -> M B) (s : SignalVisualizer) :
  bind (emit e) k s = let '(r, s2, o2) := k tt s in (r, s2, e :: o2).
Proof. reflexivity. Qed.

Lemma bind_assoc {A B C : Type} (m : M A) (k : A -> M B) (h : B -> M C)
    (s : SignalVisualizer) :
  bind (bind m k) h s = bind m (fun x => bind (k x) h) s.
Proof.
  unfold bind. destruct (m s) as [[[x|e] s1] o1]; [|reflexivity].
  destruct (k x s1) as [[[y|e] s2] o2]; [|reflexivity].
  destruct (h y s2) as [[r s3] o3]. rewrite app_assoc. reflexivity.
Qed.

(** ** Parsing a record *)

Section Parsing.
Context `{Externals}.

Lemma parse_fields_length (fields : list string) (vs : list float) :
  parse_fields fields = Ok vs -> length vs = length fields.
Proof.
  revert vs. induction fields as [|fld rest IH]; intros vs; simpl.
  - intros [= <-]. reflexivity.
  - destruct (py_float fld); [|discriminate].
    destruct (parse_fields rest) as [ws|e]; [|discriminate].
    intros [= <-]. simpl. f_equal. apply IH. reflexivity.
Qed.

Lemma parse_fields_raise (fields : list string) (e : exn) :
  parse_fields fields = Raise e ->
  exists fld, e = ValueError (CouldNotConvert fld)
              /\ In fld fields /\ py_float fld = None.
Proof.
  induction fields as [|fld rest IH]; simpl; [discriminate|].
  destruct (py_float fld) eqn:Hf.
  - destruct (parse_fields rest) as [ws|e']; [discriminate|].
    intros [= <-]. destruct (IH eq_refl) as (g & -> & Hin & Hg). eauto.
  - intros [= <-]. eauto.
Qed.

Lemma parse_fields_ok (fields : list string) (vs : list float) :
  parse_fields fields = Ok vs ->
  forall fld, In fld fields -> py_float fld <> None.
Proof.
  revert vs. induction fields as [|fld rest IH]; intros vs; simpl; [tauto|].
  destruct (py_float fld) eqn:Hf; [|discriminate].
  destruct (parse_fields rest) as [ws|e]; [|discriminate].
  intros _ g [<- | Hin]; [congruence | eapply IH; eauto].
Qed.

(** A malformed record stops [process_record] before any filter is called. *)
Lemma process_record_malformed (now : Q) (line : string) (sink : res unit) (s : SignalVisualizer) :
  malformed (num_channels s) line = true ->
  exists why, process_record now line sink s = (Raise (ValueError why), s, []).
Proof.
  unfold malformed. intros Hbad. unfold process_record.
  destruct (parse_fields (split_tab line)) as [vs|e] eqn:Hp.
  - rewrite bind_lift_ok, bind_gets.
    assert (Hlen : (length vs =? num_channels s) = false).
    { apply orb_prop in Hbad as [Hn | Hf].
      - rewrite (parse_fields_length _ _ Hp). apply negb_true_iff. exact Hn.
      - exfalso. apply existsb_exists in Hf as (fld & Hin & Hf).
        unfold fails_parse in Hf.
        pose proof (parse_fields_ok _ _ Hp fld Hin) as Hok.
        destruct (py_float fld); [discriminate | congruence]. }
    rewrite Hlen. cbn [negb]. rewrite bind_raise. eauto.
  - destruct (parse_fields_raise _ _ Hp) as (fld & -> & _).
    rewrite bind_lift_raise. eauto.
Qed.

End Parsing.

(** ** Warm-up *)

(** What [update] does in warm-up, as one equation. *)
Lemma update_warm_up `{Externals} (now : Q) (line : string)
    (sink : res unit) (s : SignalVisualizer) :
  initial_delay_complete s = false ->
  update now line sink s
  = if Qle_bool initial_delay (now - start_time s)
    then (Ok tt, entered_initial_countdown s, [SetLabel (GetReady 3)])
    else (Ok tt, s, []).
Proof.
  intros Hidc. unfold update, start_initial_countdown.
  rewrite bind_gets, Hidc. cbn [negb]. rewrite bind_gets.
  destruct (Qle_bool initial_delay (now - start_time s)); [|reflexivity].
  unfold_monad. simpl. destruct s; simpl in *. subst. reflexivity.
Qed.

(** C7: while [initial_delay_complete] is false the record is discarded
    whole: the result is normal, no filter and no display buffer changes,
    nothing is printed, logged or sent (at most the label is set).  Before
    [initial_delay] has elapsed the object does not change at all; once it
    has elapsed the only change is the entry into the Initial countdown. *)
Theorem update_warm_up_discards `{Externals} (now : Q) (line : string) (sink : res unit)
    (s : SignalVisualizer) :
  initial_delay_complete s = false ->
  let '(r, s', o) := update now line sink s in
  r = Ok tt
  /\ filters s' = filters s
  /\ data s' = data s
  /\ ((now - start_time s < initial_delay)%Q -> s' = s /\ o = [])
  /\ ((initial_delay <= now - start_time s)%Q ->
      s' = entered_initial_countdown s /\ o = [SetLabel (GetReady 3)]).
Proof.
  intros Hidc. rewrite (update_warm_up now line sink s Hidc).
  destruct (Qle_bool initial_delay (now - start_time s)) eqn:Hle.
  - apply Qle_bool_iff in Hle.
    split; [reflexivity|]. split; [reflexivity|]. split; [reflexivity|]. split.
    + intros Hlt. exfalso. exact (Qlt_not_le _ _ Hlt Hle).
    + intros _. split; reflexivity.
  - assert (Hnle : ~ (initial_delay <= now - start_time s)%Q).
    { intros Hq. apply Qle_bool_iff in Hq. congruence. }
    split; [reflexivity|]. split; [reflexivity|]. split; [reflexivity|]. split.
    + intros _. split; reflexivity.
    + intros Hq. contradiction.
Qed.

(** Witness of C7: a record read 6 s after the start of a fresh session. *)
Lemma update_warm_up_discards_witness :
  let '(r, s', o) := update 6%Q "200" returns (Demo.fresh 1) in
  r = Ok tt
  /\ filters s' = filters (Demo.fresh 1)
  /\ data s' = data (Demo.fresh 1)
  /\ ((6 - start_time (Demo.fresh 1) < initial_delay)%Q -> s' = (Demo.fresh 1) /\ o = [])
  /\ ((initial_delay <= 6 - start_time (Demo.fresh 1))%Q ->
      s' = entered_initial_countdown (Demo.fresh 1) /\ o = [SetLabel (GetReady 3)]).
Proof. apply (update_warm_up_discards 6%Q "200" returns (Demo.fresh 1)). reflexivity. Defined.

(** ** Malformed records *)

(** C6: a malformed record makes [update] return normally with every
    filter (both delay lines of both filters of every channel) and every
    display buffer unchanged, no command sent and no log line written, in
    whatever state it arrives.  When the record is processed (warm-up is
    over) the whole object is exactly as before: all timestamps, counters,
    flags and the pending command; and unless the line is blank, which
    line 228 ignores, the one effect of the call is the printed error. *)
Theorem update_malformed_record `{Externals} (now : Q) (line : string) (sink : res unit)
    (s : SignalVisualizer) :
  malformed (num_channels s) line = true ->
  let '(r, s', o) := update now line sink s in
  r = Ok tt
  /\ filters s' = filters s
  /\ data s' = data s
  /\ (forall c, ~ In (SendCommand c) o)
  /\ existsb is_log o = false
  /\ (initial_delay_complete s = true ->
      s' = s
      /\ (is_blank line = false -> exists why, o = [Print (ErrorProcessingData why)])).
Proof.
  intros Hbad. destruct (initial_delay_complete s) eqn:Hidc.
  - destruct (is_blank line) eqn:Hblank.
    + unfold update. rewrite bind_gets, Hidc. cbn [negb]. rewrite Hblank. simpl.
      repeat split; auto; discriminate.
    + destruct (process_record_malformed now line sink s Hbad) as (why & Hpr).
      unfold update. rewrite bind_gets, Hidc. cbn [negb]. rewrite Hblank. cbn [negb].
      unfold try_except_ValueError. rewrite Hpr. simpl.
      repeat split; eauto. intros c [Hc|[]]. discriminate Hc.
  - rewrite (update_warm_up now line sink s Hidc).
    destruct (Qle_bool initial_delay (now - start_time s)); simpl;
      repeat split; auto; try discriminate.
    intros c [Hc|[]]. discriminate Hc.
Qed.

(** Witness of C6: the record "abc" on two channels. *)
Lemma update_malformed_record_witness :
  let '(r, s', o) := update 10%Q "abc" returns (Demo.armed 2 0 0 0) in
  r = Ok tt
  /\ filters s' = filters (Demo.armed 2 0 0 0)
  /\ data s' = data (Demo.armed 2 0 0 0)
  /\ (forall c, ~ In (SendCommand c) o)
  /\ existsb is_log o = false
  /\ (initial_delay_complete (Demo.armed 2 0 0 0) = true ->
      s' = Demo.armed 2 0 0 0
      /\ (is_blank "abc" = false -> exists why, o = [Print (ErrorProcessingData why)])).
Proof.
  apply (update_malformed_record 10%Q "abc" returns (Demo.armed 2 0 0 0)).
  reflexivity.
Defined.

Example update_malformed_abc :
  update 10%Q "abc" returns (Demo.armed 2 0 0 0)
  = (Ok tt, Demo.armed 2 0 0 0, [Print (ErrorProcessingData (CouldNotConvert "abc"))]).
Proof. reflexivity. Qed.

Example update_too_few_fields :
  update 10%Q "7" returns (Demo.armed 2 0 0 0)
  = (Ok tt, Demo.armed 2 0 0 0, [Print (ErrorProcessingData DataLengthMismatch)]).
Proof. reflexivity. Qed.

(** ** The filter loop touches the signal path only *)

Lemma signal_only_refl (s : SignalVisualizer) : signal_only s s.
Proof. destruct s; reflexivity. Qed.

Lemma signal_only_trans (s1 s2 s3 : SignalVisualizer) :
  signal_only s1 s2 -> signal_only s2 s3 -> signal_only s1 s3.
Proof.
  unfold signal_only.
  generalize (data s3) (filters s3) (data s2) (filters s2).
  intros d3 f3 d2 f2 -> ->. destruct s1; reflexivity.
Qed.

Lemma signal_only_set_filters (s : SignalVisualizer) fs :
  signal_only s (set_filters fs s).
Proof. destruct s; reflexivity. Qed.

Lemma signal_only_set_data (s : SignalVisualizer) d :
  signal_only s (set_data d s).
Proof. destruct s; reflexivity. Qed.

Lemma call_filter_frame (i : nat) (second : bool) (x : float) (s : SignalVisualizer) :
  let '(r, s', o) := call_filter i second x s in
  signal_only s s' /\ o = [].
Proof.
  unfold call_filter. unfold_monad. simpl.
  destruct (filters s !! i) as [p|]; simpl.
  - destruct (process x (if second then p.2 else p.1)) as [r f']. simpl.
    destruct r; simpl; split; auto using signal_only_set_filters.
  - split; auto using signal_only_refl.
Qed.

Lemma condition_channel_frame (vs : list float) (i : nat) (s : SignalVisualizer) :
  let '(r, s', o) := condition_channel vs i s in
  signal_only s s' /\ forallb is_quiet o = true.
Proof.
  unfold condition_channel.
  unfold bind at 1. unfold index at 1.
  destruct (vs !! i) as [x|]; simpl; [|auto using signal_only_refl].
  unfold bind at 1.
  pose proof (call_filter_frame i false x s) as F1.
  destruct (call_filter i false x s) as [[r1 s1] o1]. destruct F1 as [F1 ->].
  destruct r1 as [y|e]; [|auto].
  unfold bind at 1.
  pose proof (call_filter_frame i true y s1) as F2.
  destruct (call_filter i true y s1) as [[r2 s2] o2]. destruct F2 as [F2 ->].
  pose proof (signal_only_trans _ _ _ F1 F2) as F12.
  destruct r2 as [z|e]; [|auto].
  unfold_monad. simpl.
  destruct (data s2 !! i) as [buf|]; simpl; [|auto].
  assert (F3 : signal_only s (set_data (<[i:=np_roll_left buf]> (data s2)) s2)).
  { eapply signal_only_trans; [exact F12|apply signal_only_set_data]. }
  destruct (<[i:=np_roll_left buf]> (data s2) !! i) as [buf2|]; simpl; [|auto].
  destruct (set_last z buf2) as [buf3|e]; simpl; [|auto].
  split; [|reflexivity].
  eapply signal_only_trans; [exact F3|apply signal_only_set_data].
Qed.

Lemma filter_loop_frame (rng : list nat) (vs acc : list float) (s : SignalVisualizer) :
  let '(r, s', o) := filter_loop rng vs acc s in
  signal_only s s' /\ forallb is_quiet o = true.
Proof.
  revert acc s. induction rng as [|i rng IH]; intros acc s; simpl.
  - split; [apply signal_only_refl | reflexivity].
  - unfold bind.
    pose proof (condition_channel_frame vs i s) as F1.
    destruct (condition_channel vs i s) as [[r1 s1] o1]. destruct F1 as [F1 Q1].
    destruct r1 as [z|e]; [|auto].
    specialize (IH (acc ++ [z]) s1).
    destruct (filter_loop rng vs (acc ++ [z]) s1) as [[r2 s2] o2].
    destruct IH as [F2 Q2]. split.
    + eapply signal_only_trans; eauto.
    + rewrite forallb_app, Q1, Q2. reflexivity.
Qed.

(** ** The shape of [update] after warm-up *)

(** After warm-up a call of [update] either stops before the detection
    step (blank line, malformed record, exception in the filter loop), having
    touched the signal path only and produced quiet effects only, or it is
    the detection step run after the filter loop. *)
Lemma update_shape `{Externals} (now : Q) (line : string) (sink : res unit) (s : SignalVisualizer) :
  initial_delay_complete s = true ->
  (exists r s1 o,
      update now line sink s = (r, s1, o)
      /\ signal_only s s1 /\ forallb is_quiet o = true)
  \/ (exists vs fv s1 o1,
      parse_fields (split_tab line) = Ok vs
      /\ length vs = num_channels s
      /\ filter_loop (seq 0 (num_channels s)) vs [] s = (Ok fv, s1, o1)
      /\ signal_only s s1 /\ forallb is_quiet o1 = true
      /\ update now line sink s
         = after_filters o1
             ((if ready_for_operation s1 then ready_detect now vs fv sink
               else countdown_detect now vs fv) s1)).
Proof.
  intros Hidc. unfold update. rewrite bind_gets, Hidc. cbn [negb].
  destruct (is_blank line); cbn [negb].
  { left. do 3 eexists. split; [reflexivity|].
    split; [apply signal_only_refl | reflexivity]. }
  unfold try_except_ValueError, process_record.
  destruct (parse_fields (split_tab line)) as [vs|e] eqn:Hp.
  2:{ destruct (parse_fields_raise _ _ Hp) as (fld & -> & _).
      rewrite bind_lift_raise.
      left. do 3 eexists. split; [reflexivity|].
      split; [apply signal_only_refl | reflexivity]. }
  rewrite bind_lift_ok, bind_gets.
  destruct (length vs =? num_channels s) eqn:Hlen; cbn [negb].
  2:{ rewrite bind_raise.
      left. do 3 eexists. split; [reflexivity|].
      split; [apply signal_only_refl | reflexivity]. }
  apply Nat.eqb_eq in Hlen.
  rewrite bind_ret, bind_gets, bind_unfold.
  pose proof (filter_loop_frame (seq 0 (num_channels s)) vs [] s) as F.
  destruct (filter_loop (seq 0 (num_channels s)) vs [] s) as [[r1 s1] o1] eqn:Hloop.
  destruct F as [F Hq].
  destruct r1 as [fv|e].
  2:{ left. destruct e as [why| | | | | |]; do 3 eexists;
        (split; [reflexivity|]); (split; [exact F|]);
        rewrite ?forallb_app, ?Hq; reflexivity. }
  right. exists vs, fv, s1, o1.
  split; [reflexivity|]. split; [exact Hlen|]. split; [exact Hloop|].
  split; [exact F|]. split; [exact Hq|].
  rewrite bind_gets. unfold after_filters.
  destruct (ready_for_operation s1); simpl.
  - destruct (ready_detect now vs fv sink s1) as [[r2 s2] o2].
    destruct r2 as [[]|e]; [reflexivity|].
    destruct e; simpl; rewrite <- ?app_assoc; reflexivity.
  - destruct (countdown_detect now vs fv s1) as [[r2 s2] o2].
    destruct r2 as [[]|e]; [reflexivity|].
    destruct e; simpl; rewrite <- ?app_assoc; reflexivity.
Qed.

(** ** Case analysis *)

Lemma signal_only_fields (s s1 : SignalVisualizer) :
  signal_only s s1 ->
  num_channels s1 = num_channels s
  /\ last_print_time s1 = last_print_time s
  /\ last_blink_time s1 = last_blink_time s
  /\ start_time s1 = start_time s
  /\ initial_delay_complete s1 = initial_delay_complete s
  /\ ready_for_operation s1 = ready_for_operation s
  /\ countdown_remaining s1 = countdown_remaining s
  /\ countdown_timer s1 = countdown_timer s
  /\ initial_countdown_remaining s1 = initial_countdown_remaining s
  /\ initial_countdown_timer s1 = initial_countdown_timer s
  /\ potential_command s1 = potential_command s
  /\ potential_value s1 = potential_value s
  /\ null_operation_counter s1 = null_operation_counter s
  /\ countdown_signals_skipped s1 = countdown_signals_skipped s.
Proof.
  unfold signal_only. generalize (data s1) (filters s1). intros d f ->.
  repeat split.
Qed.

(** When only the signal path lies between [s] and [s1], every other
    attribute of [s1] is that of [s] ([signal_to_old]), and conversely
    ([signal_to_new], in the goal). *)
Ltac signal_to_old F :=
  let E := fresh "E" in
  pose proof (signal_only_fields _ _ F) as E;
  destruct E as (E0 & E1 & E2 & E3 & E4 & E5 & E6 & E7 & E8 & E9 & E10 & E11 & E12 & E13);
  rewrite ?E0, ?E1, ?E2, ?E3, ?E4, ?E5, ?E6, ?E7, ?E8, ?E9, ?E10, ?E11, ?E12, ?E13.

Ltac signal_to_new F :=
  let E := fresh "E" in
  pose proof (signal_only_fields _ _ F) as E;
  destruct E as (E0 & E1 & E2 & E3 & E4 & E5 & E6 & E7 & E8 & E9 & E10 & E11 & E12 & E13);
  rewrite <- ?E0, <- ?E1, <- ?E2, <- ?E3, <- ?E4, <- ?E5, <- ?E6, <- ?E7, <- ?E8,
    <- ?E9, <- ?E10, <- ?E11, <- ?E12, <- ?E13;
  clear E0 E1 E2 E3 E4 E5 E6 E7 E8 E9 E10 E11 E12 E13.

Ltac detect_unfold :=
  unfold ready_detect, countdown_detect, skipped_so_far, increment, start_countdown,
    send_command, py_next_outside, py_max_abs in *;
  unfold_monad.

(** Scrutinees the detection code branches on. *)
Ltac is_test x :=
  lazymatch x with
  | Qle_bool _ _ => idtac
  | forallb _ _ => idtac
  | existsb _ _ => idtac
  | List.find _ _ => idtac
  | Nat.ltb _ _ => idtac
  | Z.ltb _ _ => idtac
  | potential_command ?s => is_var s
  | potential_value ?s => is_var s
  | countdown_signals_skipped ?s => is_var s
  | null_operation_counter ?s => is_var s
  | initial_countdown_timer ?s => is_var s
  | countdown_timer ?s => is_var s
  | _ => is_var x
  end.

Ltac detect_split :=
  repeat (simpl; match goal with
    | |- context [match ?x with _ => _ end] => is_test x; destruct x eqn:?
    end); simpl.

Ltac detect_cases := detect_unfold; detect_split.

(** Every delivery is a timer tick, a record in warm-up, a record that
    stops before detection, or a detection step after the filter loop. *)
Lemma deliver_cases `{Externals}
    (P : input -> SignalVisualizer -> res unit * SignalVisualizer * list effect -> Prop) :
  (forall s, P CountdownTimeout s (deliver CountdownTimeout s)) ->
  (forall s, P InitialCountdownTimeout s (deliver InitialCountdownTimeout s)) ->
  (forall now line sink s,
      initial_delay_complete s = false ->
      P (DataReady now line sink) s (update now line sink s)) ->
  (forall now line sink s r s1 o,
      initial_delay_complete s = true ->
      signal_only s s1 -> forallb is_quiet o = true ->
      P (DataReady now line sink) s (r, s1, o)) ->
  (forall now line sink s vs fv s1 o1,
      initial_delay_complete s = true ->
      signal_only s s1 -> forallb is_quiet o1 = true ->
      P (DataReady now line sink) s
        (after_filters o1
           ((if ready_for_operation s1 then ready_detect now vs fv sink
             else countdown_detect now vs fv) s1))) ->
  forall i s, P i s (deliver i s).
Proof.
  intros Hc Hi Hw Hq Hd i s. destruct i as [now line sink| |]; [|apply Hi|apply Hc].
  simpl. destruct (initial_delay_complete s) eqn:Hidc; [|apply Hw; assumption].
  destruct (update_shape now line sink s Hidc)
    as [(r & s1 & o & -> & F & Q) | (vs & fv & s1 & o1 & _ & _ & _ & F & Q & ->)].
  - apply Hq; assumption.
  - apply Hd; assumption.
Qed.

(** ** Quiet effects *)

Lemma quiet_in (o : list effect) (e : effect) :
  forallb is_quiet o = true -> In e o -> is_quiet e = true.
Proof. intros Hq Hin. rewrite forallb_forall in Hq. auto. Qed.

Lemma quiet_no_send (o : list effect) (c : command) :
  forallb is_quiet o = true -> ~ In (SendCommand c) o.
Proof. intros Hq Hin. pose proof (quiet_in _ _ Hq Hin). discriminate. Qed.

Lemma count_matches_app (o1 o2 : list effect) :
  count_matches (o1 ++ o2) = count_matches o1 + count_matches o2.
Proof. unfold count_matches. rewrite List.filter_app, length_app. reflexivity. Qed.

Lemma quiet_count_matches (o : list effect) :
  forallb is_quiet o = true -> count_matches o = 0.
Proof.
  unfold count_matches. induction o as [|e o IH]; simpl; [reflexivity|].
  intros Hq. apply andb_prop in Hq as [He Ho].
  destruct e as [[]| | | |]; simpl in *; try discriminate; auto.
Qed.

(** Membership of an effect in the effects of a call: nothing in the
    quiet prefix, then the finitely many effects of the detection step. *)
Ltac in_effects :=
  repeat match goal with
    | H : In _ (_ ++ _) |- _ => apply in_app_or in H; destruct H as [H|H]
    | H : In ?e ?o, Q : forallb is_quiet ?o = true |- _ =>
        let Hq := fresh in
        pose proof (quiet_in _ _ Q H) as Hq; simpl in Hq; discriminate Hq
    | H : In _ (_ :: _) |- _ => destruct H as [H|H]; [try discriminate H|]
    | H : In _ [] |- _ => destruct H
    | H : False |- _ => destruct H
    | H : @eq effect _ _ \/ _ |- _ => destruct H as [H|H]; [try discriminate H|]
    end.

(** Closes the routine goals about the attributes and the effects of one
    explicit outcome. *)
Ltac arming_facts :=
  cbv beta; simpl;
  repeat match goal with
    | |- _ /\ _ => split
    | |- ~ _ => intros ?
    | |- _ => intro
    end;
  repeat match goal with
    | Hp : ?x = ?x -> _ |- _ => specialize (Hp eq_refl)
    | Hp : ?A -> _, Ha : ?A |- _ => specialize (Hp Ha)
    end;
  in_effects; try discriminate; try congruence; auto.

(** ** The pending command and the ready flag *)

Lemma deliver_pending `{Externals} (i : input) (s : SignalVisualizer) :
  let '(r, s', o) := deliver i s in
  (pending_consistent s -> pending_consistent s')
  /\ (ready_for_operation s = true -> ready_for_operation s' = true)
  /\ (ready_for_operation s = false -> forall c, ~ In (SendCommand c) o)
  /\ (pending_consistent s -> ready_for_operation s = false ->
      ready_for_operation s' = true ->
      potential_command s' = None /\ potential_value s' = None).
Proof.
  pattern i, s, (deliver i s). revert i s.
  apply deliver_cases; unfold pending_consistent.
  - intros s. unfold deliver, update_countdown. detect_cases; arming_facts.
  - intros s. unfold deliver, update_initial_countdown. detect_cases; arming_facts.
  - intros now line sink s Hidc. unfold update, start_initial_countdown.
    unfold_monad. simpl. rewrite Hidc. simpl.
    destruct (Qle_bool initial_delay (now - start_time s)); simpl; arming_facts.
  - intros now line sink s r s1 o Hidc F Q. signal_to_old F. arming_facts.
  - intros now line sink s vs fv s1 o1 Hidc F Q. signal_to_new F.
    unfold after_filters.
    destruct (ready_for_operation s1) eqn:Hr; detect_cases; arming_facts.
Qed.

Lemma effects_of_cons (d : delivery) (ds : list delivery) :
  effects_of (d :: ds) = dl_effects d ++ effects_of ds.
Proof. reflexivity. Qed.

Lemma run_pending `{Externals} (halt : bool) (ins : list input) (s : SignalVisualizer) :
  let '(ds, s') := run halt ins s in
  (pending_consistent s -> pending_consistent s')
  /\ (ready_for_operation s = true -> ready_for_operation s' = true)
  /\ (ready_for_operation s' = false -> forall c, ~ In (SendCommand c) (effects_of ds)).
Proof.
  revert s. induction ins as [|i ins IH]; intros s; simpl.
  - repeat split; auto.
  - pose proof (deliver_pending i s) as D.
    destruct (deliver i s) as [[r s1] o]. destruct D as (Dp & Dr & Ds & _).
    assert (Hback : ready_for_operation s1 = false -> ready_for_operation s = false).
    { intros Hs1. destruct (ready_for_operation s); [|reflexivity].
      rewrite (Dr eq_refl) in Hs1. discriminate. }
    destruct (halt && is_raise r).
    + repeat split; auto. intros Hr c Hin.
      rewrite effects_of_cons in Hin. simpl in Hin. rewrite app_nil_r in Hin.
      exact (Ds (Hback Hr) c Hin).
    + specialize (IH s1). destruct (run halt ins s1) as [ds s2].
      destruct IH as (Ip & Ir & Is). repeat split; auto.
      intros Hr c Hin. rewrite effects_of_cons in Hin. simpl in Hin.
      assert (Hr1 : ready_for_operation s1 = false).
      { destruct (ready_for_operation s1); [|reflexivity].
        rewrite (Ir eq_refl) in Hr. discriminate. }
      apply in_app_or in Hin as [Hin|Hin].
      * exact (Ds (Hback Hr1) c Hin).
      * exact (Is Hr c Hin).
Qed.

Lemma init_fresh `{Externals} (channels data_length : nat) (t0 : Q) (s0 : SignalVisualizer) :
  SignalVisualizer_init channels data_length t0 = Ok s0 ->
  initial_delay_complete s0 = false
  /\ ready_for_operation s0 = false
  /\ initial_countdown_timer s0 = false
  /\ potential_command s0 = None
  /\ potential_value s0 = None
  /\ last_blink_time s0 = 0%Q
  /\ last_print_time s0 = 0%Q.
Proof.
  unfold SignalVisualizer_init. destruct (create_all_filters channels); [|discriminate].
  intros [= <-]. repeat split.
Qed.

(** C5: in every session, at the delivery that takes the object from the
    Initial countdown into Ready (the flag [ready_for_operation] goes from
    false to true), the pending command and its value are [None] afterwards,
    and [send_command] has not been called in the session up to and
    including that delivery: the provisional command was never emitted. *)
Theorem pending_command_discarded `{Externals} (halt : bool)
    (channels data_length : nat) (t0 : Q) (s0 : SignalVisualizer)
    (ins : list input) (i : input) :
  SignalVisualizer_init channels data_length t0 = Ok s0 ->
  let '(ds, s) := run halt ins s0 in
  let '(r, s', o) := deliver i s in
  ready_for_operation s = false ->
  ready_for_operation s' = true ->
  potential_command s' = None
  /\ potential_value s' = None
  /\ forall c, ~ In (SendCommand c) (effects_of ds ++ o).
Proof.
  intros Hinit. destruct (init_fresh _ _ _ _ Hinit) as (_ & _ & _ & Hpc & _).
  pose proof (run_pending halt ins s0) as R.
  destruct (run halt ins s0) as [ds s]. destruct R as (Rp & _ & Rs).
  pose proof (deliver_pending i s) as D.
  destruct (deliver i s) as [[r s'] o]. destruct D as (_ & _ & Ds & Dflip).
  intros Hr Hr'.
  assert (Hcons : pending_consistent s) by (apply Rp; intros _; exact Hpc).
  destruct (Dflip Hcons Hr Hr') as [Hc Hv].
  split; [exact Hc|]. split; [exact Hv|].
  intros c Hin. apply in_app_or in Hin as [Hin|Hin].
  - exact (Rs Hr c Hin).
  - exact (Ds Hr c Hin).
Qed.


(** Witness of C5: a select is captured during the Initial countdown and
    the third tick of the timer discards it. *)
Lemma pending_command_discarded_witness :
  let '(ds, s) := run true Demo.countdown_inputs (Demo.fresh 1) in
  let '(r, s', o) := deliver InitialCountdownTimeout s in
  ready_for_operation s = false
  /\ ready_for_operation s' = true
  /\ potential_command s' = None
  /\ potential_value s' = None
  /\ forall c, ~ In (SendCommand c) (effects_of ds ++ o).
Proof.
  generalize (pending_command_discarded true 1 3 0%Q (Demo.fresh 1)
                Demo.countdown_inputs InitialCountdownTimeout).
  vm_compute. intros W.
  split; [reflexivity|]. split; [reflexivity|]. exact (W eq_refl eq_refl eq_refl).
Defined.

(** ** The first two events *)

(** Settles [counters_account] after one explicit outcome. *)
Ltac counters_facts :=
  cbv beta; simpl;
  let m := fresh "m" in let K := fresh "K" in
  intros m K;
  rewrite ?count_matches_app;
  repeat match goal with
    | Q : forallb is_quiet ?o = true |- context [count_matches ?o] =>
        rewrite (quiet_count_matches o Q)
    end;
  unfold count_matches; simpl;
  (split; [| intros ? ?; in_effects]);
  destruct K as [(? & ? & ?) | (? & ? & ? & ? & ? & ?)];
  simplify_eq;
  try (left; repeat split; simpl; congruence);
  try (right; split; [simpl; congruence|];
       do 2 eexists; split; [simpl; eauto|]; split; [simpl; eauto|]; simpl; lia);
  try (split; [|reflexivity]);
  repeat match goal with
    | Hlt : (_ <? _) = false |- _ => apply Nat.ltb_ge in Hlt
    end;
  try lia; try congruence.

Lemma deliver_counters `{Externals} (i : input) (s : SignalVisualizer) :
  let '(r, s', o) := deliver i s in
  forall m, counters_account s m ->
    counters_account s' (m + count_matches o)
    /\ (forall c, In (SendCommand c) o -> 2 <= m /\ count_matches o = 1).
Proof.
  pattern i, s, (deliver i s). revert i s.
  apply deliver_cases; unfold counters_account.
  - intros s. unfold deliver, update_countdown. detect_cases; counters_facts.
  - intros s. unfold deliver, update_initial_countdown. detect_cases; counters_facts.
  - intros now line sink s Hidc. unfold update, start_initial_countdown.
    unfold_monad. simpl. rewrite Hidc. simpl.
    destruct (Qle_bool initial_delay (now - start_time s)); simpl; counters_facts.
  - intros now line sink s r s1 o Hidc F Q. signal_to_old F. counters_facts.
  - intros now line sink s vs fv s1 o1 Hidc F Q. signal_to_new F.
    unfold after_filters.
    destruct (ready_for_operation s1) eqn:Hr; detect_cases; counters_facts.
Qed.

Lemma run_counters `{Externals} (halt : bool) (ins : list input) :
  forall (s : SignalVisualizer) (m : nat),
  counters_account s m ->
  forall (k : nat) (d : delivery) (c : command),
  (run halt ins s).1 !! k = Some d ->
  In (SendCommand c) (dl_effects d) ->
  count_matches (dl_effects d) = 1
  /\ 2 <= m + count_matches (effects_of (take k (run halt ins s).1)).
Proof.
  induction ins as [|i ins IH]; intros s m K k d c; simpl.
  - rewrite lookup_nil. discriminate.
  - pose proof (deliver_counters i s) as D.
    destruct (deliver i s) as [[r s1] o]. destruct (D m K) as [K1 Hsend].
    destruct (halt && is_raise r).
    + destruct k as [|k]; simpl; [|rewrite lookup_nil; discriminate].
      intros [= <-] Hin. simpl in Hin.
      destruct (Hsend c Hin) as [Hm Hone]. simpl. split; [exact Hone|].
      unfold effects_of, count_matches. simpl. lia.
    + specialize (IH s1 (m + count_matches o) K1).
      destruct (run halt ins s1) as [ds s2]. simpl in *.
      destruct k as [|k]; simpl.
      * intros [= <-] Hin. simpl in Hin.
        destruct (Hsend c Hin) as [Hm Hone]. simpl. split; [exact Hone|].
        unfold effects_of, count_matches. simpl. lia.
      * intros Hd Hin. destruct (IH k d c Hd Hin) as [Hone Htwo].
        split; [exact Hone|].
        rewrite effects_of_cons, count_matches_app. simpl. lia.
Qed.

(** C1: in every session, a delivery in which [send_command] is called is
    the handling of one event (a record that satisfied a classification
    rule), and at least two events, recorded during the Initial countdown or
    fired in Ready, came before that delivery: the first two events of a
    session never reach the Command Sink, only the third and later ones may. *)
Theorem first_two_events_never_sent `{Externals} (halt : bool)
    (channels data_length : nat) (t0 : Q) (s0 : SignalVisualizer)
    (ins : list input) (k : nat) (d : delivery) (c : command) :
  SignalVisualizer_init channels data_length t0 = Ok s0 ->
  (run halt ins s0).1 !! k = Some d ->
  In (SendCommand c) (dl_effects d) ->
  count_matches (dl_effects d) = 1
  /\ 2 <= count_matches (effects_of (take k (run halt ins s0).1)).
Proof.
  intros Hinit Hd Hin.
  destruct (init_fresh _ _ _ _ Hinit) as (Hidc & Hr & Ht & _).
  assert (K : counters_account s0 0) by (left; auto).
  exact (run_counters halt ins s0 0 K k d c Hd Hin).
Qed.

(** Witness of C1: one event is recorded during the Initial countdown, the
    first event in Ready is skipped, and the delivery at 16 s sends the
    third one. *)
Lemma first_two_events_never_sent_witness :
  (run true Demo.session_inputs (Demo.fresh 1)).1 !! 7 = Some Demo.sent
  /\ In (SendCommand right) (dl_effects Demo.sent)
  /\ count_matches (dl_effects Demo.sent) = 1
  /\ 2 <= count_matches
            (effects_of (take 7 (run true Demo.session_inputs (Demo.fresh 1)).1)).
Proof.
  assert (Hd : (run true Demo.session_inputs (Demo.fresh 1)).1 !! 7 = Some Demo.sent).
  { vm_compute. reflexivity. }
  assert (Hin : In (SendCommand right) (dl_effects Demo.sent)).
  { simpl. auto 10. }
  split; [exact Hd|]. split; [exact Hin|].
  exact (first_two_events_never_sent true 1 3 0%Q (Demo.fresh 1)
           Demo.session_inputs 7 Demo.sent right eq_refl Hd Hin).
Defined.

(** ** The cooldown of move-next *)

Lemma quiet_no_send_right (o : list effect) :
  forallb is_quiet o = true -> List.filter is_send_right o = [].
Proof.
  induction o as [|e o IH]; simpl; [reflexivity|].
  intros Hq. apply andb_prop in Hq as [He Ho].
  destruct e as [[]| |[]| |]; simpl in *; try discriminate; auto.
Qed.

Lemma quiet_no_right (o : list effect) :
  forallb is_quiet o = true -> existsb is_send_right o = false.
Proof.
  induction o as [|e o IH]; simpl; [reflexivity|].
  intros Hq. apply andb_prop in Hq as [He Ho].
  destruct e as [[]| |[]| |]; simpl in *; try discriminate; auto.
Qed.

(** Settles the facts about [last_blink_time] after one explicit outcome. *)
Ltac blink_facts :=
  cbv beta; simpl;
  unfold right_handed_over; simpl;
  rewrite ?List.filter_app, ?existsb_app;
  repeat match goal with
    | Q : forallb is_quiet ?o = true |- context [List.filter is_send_right ?o] =>
        rewrite (quiet_no_send_right o Q)
    | Q : forallb is_quiet ?o = true |- context [existsb is_send_right ?o] =>
        rewrite (quiet_no_right o Q)
    end;
  simpl;
  repeat match goal with
    | Hle : Qle_bool _ _ = true |- _ => apply Qle_bool_iff in Hle
    end;
  repeat match goal with
    | |- _ /\ _ => split
    | |- _ -> _ => intro
    end;
  in_effects; try discriminate;
  try reflexivity; try lia; try assumption;
  try (left; reflexivity); try (right; assumption);
  try (eexists; split; [reflexivity|split; [assumption|reflexivity]]).

(** What one delivery does to [last_blink_time]: it becomes the clock
    reading of the delivery when a move-next command is handed over, and is
    unchanged otherwise.  A move-next command is passed on only when
    [blink_cooldown] has elapsed since [last_blink_time] and [print_delay]
    since [last_print_time], which becomes the clock reading as well; a
    delivery passes at most one, and [last_print_time] never goes back. *)
Lemma deliver_blink `{Externals} (i : input) (s : SignalVisualizer) :
  let '(r, s', o) := deliver i s in
  last_blink_time s'
  = (if right_handed_over (MkDelivery i r o)
     then default (last_blink_time s) (clock_of i) else last_blink_time s)
  /\ (In (SendCommand right) o ->
      cooldown_after (last_blink_time s) (clock_of i)
      /\ exists t, clock_of i = Some t
                   /\ (print_delay <= t - last_print_time s)%Q
                   /\ last_print_time s' = t)
  /\ length (List.filter is_send_right o) <= 1
  /\ (last_print_time s' = last_print_time s
      \/ (print_delay <= last_print_time s' - last_print_time s)%Q).
Proof.
  pattern i, s, (deliver i s). revert i s.
  apply deliver_cases; unfold cooldown_after.
  - intros s. unfold deliver, update_countdown. detect_cases; blink_facts.
  - intros s. unfold deliver, update_initial_countdown. detect_cases; blink_facts.
  - intros now line sink s Hidc. unfold update, start_initial_countdown.
    unfold_monad. simpl. rewrite Hidc. simpl.
    destruct (Qle_bool initial_delay (now - start_time s)); simpl; blink_facts.
  - intros now line sink s r s1 o Hidc F Q. signal_to_old F. blink_facts.
  - intros now line sink s vs fv s1 o1 Hidc F Q. signal_to_new F.
    unfold after_filters.
    destruct (ready_for_operation s1) eqn:Hr; detect_cases; blink_facts.
Qed.

Lemma right_send_times_cons (d : delivery) (ds : list delivery) :
  right_send_times (d :: ds)
  = map (fun _ => clock_of (dl_input d)) (List.filter is_send_right (dl_effects d))
    ++ right_send_times ds.
Proof. reflexivity. Qed.

Lemma in_filter_send_right (o : list effect) :
  List.filter is_send_right o <> [] -> In (SendCommand right) o.
Proof.
  induction o as [|e o IH]; simpl; [congruence|].
  destruct e as [| |[]| |]; simpl; auto.
Qed.

(** A reading at least [print_delay] after the time [t]. *)
Lemma print_delay_after_later (t t' : Q) (l : list (option Q)) :
  (t' = t \/ (print_delay <= t' - t)%Q) ->
  Forall (fun x => exists tj, x = Some tj /\ (print_delay <= tj - t')%Q) l ->
  Forall (fun x => exists tj, x = Some tj /\ (print_delay <= tj - t)%Q) l.
Proof.
  intros Ht Hl. eapply Forall_impl; [exact Hl|].
  intros x (tj & -> & Hx). exists tj. split; [reflexivity|].
  unfold print_delay in *. destruct Ht as [->|Ht]; [assumption|lra].
Qed.

(** From any state on: the move-next commands of a session are pairwise
    [blink_cooldown] apart, since each is passed on [print_delay] after
    [last_print_time]; each is passed on [blink_cooldown] after the last one
    handed over before it; and [last_blink_time] ends as the time of the
    last one handed over. *)
Lemma run_blink `{Externals} (halt : bool) (ins : list input) :
  forall s : SignalVisualizer,
  ForallOrdPairs cooldown_apart (right_send_times (run halt ins s).1)
  /\ Forall (fun x => exists tj, x = Some tj /\ (print_delay <= tj - last_print_time s)%Q)
            (right_send_times (run halt ins s).1)
  /\ (forall k d, (run halt ins s).1 !! k = Some d ->
        In (SendCommand right) (dl_effects d) ->
        cooldown_after (last_right_time (last_blink_time s) (take k (run halt ins s).1))
                       (clock_of (dl_input d)))
  /\ last_blink_time (run halt ins s).2
     = last_right_time (last_blink_time s) (run halt ins s).1.
Proof.
  induction ins as [|i ins IH]; intros s; simpl.
  - split; [constructor|]. split; [constructor|]. split; [|reflexivity].
    intros k d Hk. rewrite lookup_nil in Hk. discriminate.
  - pose proof (deliver_blink i s) as D.
    destruct (deliver i s) as [[r s1] o]. destruct D as (Dt & Dsend & Done & Dprint).
    assert (Hhere :
      forall ds,
        ForallOrdPairs cooldown_apart (right_send_times ds) ->
        Forall (fun x => exists tj, x = Some tj
                         /\ (print_delay <= tj - last_print_time s1)%Q)
               (right_send_times ds) ->
        ForallOrdPairs cooldown_apart (right_send_times (MkDelivery i r o :: ds))
        /\ Forall (fun x => exists tj, x = Some tj
                            /\ (print_delay <= tj - last_print_time s)%Q)
                  (right_send_times (MkDelivery i r o :: ds))).
    { intros ds Hpairs Hafter. rewrite right_send_times_cons. simpl.
      pose proof (in_filter_send_right o) as Hin.
      destruct (List.filter is_send_right o) as [|e [|e' l]]; simpl.
      - split; [exact Hpairs|].
        exact (print_delay_after_later _ _ _ Dprint Hafter).
      - destruct (Dsend (Hin ltac:(discriminate))) as (_ & t & Ht & Hle & Hlpt).
        rewrite Ht. split.
        + constructor; [|exact Hpairs].
          eapply Forall_impl; [exact Hafter|].
          intros x (tj & -> & Hx). simpl. rewrite Hlpt in Hx.
          unfold blink_cooldown, print_delay in *. lra.
        + constructor; [exists t; split; [reflexivity|exact Hle]|].
          exact (print_delay_after_later _ _ _ Dprint Hafter).
      - simpl in Done. lia. }
    assert (Hfirst :
      forall ds k d, (MkDelivery i r o :: ds) !! k = Some d ->
        In (SendCommand right) (dl_effects d) ->
        (forall k' d', ds !! k' = Some d' -> In (SendCommand right) (dl_effects d') ->
           cooldown_after (last_right_time (last_blink_time s1) (take k' ds))
                          (clock_of (dl_input d'))) ->
        cooldown_after
          (last_right_time (last_blink_time s) (take k (MkDelivery i r o :: ds)))
          (clock_of (dl_input d))).
    { intros ds [|k] d Hk Hin Hrest; simpl in Hk.
      - injection Hk as <-. simpl in *. exact (proj1 (Dsend Hin)).
      - simpl. rewrite <- Dt. exact (Hrest k d Hk Hin). }
    destruct (halt && is_raise r).
    + simpl. destruct (Hhere [] ltac:(constructor) ltac:(constructor)) as [Hp Ha].
      split; [exact Hp|]. split; [exact Ha|]. split; [|exact Dt].
      intros k d Hk Hin. apply (Hfirst [] k d Hk Hin).
      intros k' d' Hk'. rewrite lookup_nil in Hk'. discriminate.
    + specialize (IH s1). destruct (run halt ins s1) as [ds s2]. simpl in *.
      destruct IH as (IHp & IHa & IHc & IHt).
      destruct (Hhere ds IHp IHa) as [Hp Ha].
      split; [exact Hp|]. split; [exact Ha|]. split.
      * intros k d Hk Hin. exact (Hfirst ds k d Hk Hin IHc).
      * rewrite IHt, Dt. reflexivity.
Qed.

Lemma ForallOrdPairs_lookup {A : Type} (R : A -> A -> Prop) (l : list A) :
  ForallOrdPairs R l ->
  forall (i j : nat) (x y : A),
  i < j -> l !! i = Some x -> l !! j = Some y -> R x y.
Proof.
  induction 1 as [|x0 l Hx0 Hl IH]; intros i j x y Hij Hi Hj.
  - rewrite lookup_nil in Hi. discriminate.
  - destruct j as [|j]; [lia|]. simpl in Hj. destruct i as [|i]; simpl in Hi.
    + injection Hi as <-. rewrite Forall_forall in Hx0. apply Hx0.
      eapply list_elem_of_lookup_2. exact Hj.
    + apply (IH i j); [lia|assumption|assumption].
Qed.

(** C2: in every session, from whatever state it starts, of any two
    move-next commands passed to [send_command] the later one was passed at
    least [blink_cooldown] seconds after the earlier one (both were passed
    while handling a record, so both have a clock reading).  The
    mechanism is the per-kind timestamp: a move-next command is passed
    on only when at least [blink_cooldown] seconds have elapsed since the
    last move-next command handed over before it (since [last_blink_time]
    of the starting state when there is none), and at the end
    [last_blink_time] is the time of the last move-next command handed
    over: it is set exactly when one is, to the clock reading of that
    call.  A command is handed over when the call of [send_command] that
    passes it returns. *)
Theorem right_commands_cooldown_apart `{Externals} (halt : bool) (ins : list input)
    (s : SignalVisualizer) :
  (forall (i j : nat) (x y : option Q),
     i < j ->
     right_send_times (run halt ins s).1 !! i = Some x ->
     right_send_times (run halt ins s).1 !! j = Some y ->
     exists ti tj, x = Some ti /\ y = Some tj /\ (blink_cooldown <= tj - ti)%Q)
  /\ (forall (k : nat) (d : delivery),
        (run halt ins s).1 !! k = Some d ->
        In (SendCommand right) (dl_effects d) ->
        exists t, clock_of (dl_input d) = Some t
          /\ (blink_cooldown
              <= t - last_right_time (last_blink_time s) (take k (run halt ins s).1))%Q)
  /\ last_blink_time (run halt ins s).2
     = last_right_time (last_blink_time s) (run halt ins s).1.
Proof.
  destruct (run_blink halt ins s) as (Hp & _ & Hc & Ht).
  split; [|split; [|exact Ht]].
  - intros i j x y Hij Hi Hj.
    pose proof (ForallOrdPairs_lookup _ _ Hp i j x y Hij Hi Hj) as Hxy.
    unfold cooldown_apart in Hxy.
    destruct x as [ti|]; [|contradiction]. destruct y as [tj|]; [|contradiction].
    exists ti, tj. auto.
  - intros k d Hk Hin. specialize (Hc k d Hk Hin). unfold cooldown_after in Hc.
    destruct (clock_of (dl_input d)) as [t|]; [|contradiction].
    exists t. split; [reflexivity|exact Hc].
Qed.

(** Witness of C2: three move-next commands, at 16 s, 19.5 s and 29 s; the
    one at 19.5 s comes 3.5 s after the one handed over before it, and at
    the end [last_blink_time] is 29 s. *)
Lemma right_commands_cooldown_apart_witness :
  right_send_times (run true Demo.session_inputs (Demo.fresh 1)).1
  = [Some 16%Q; Some 19.5%Q; Some 29%Q]
  /\ (exists ti tj, Some 16%Q = Some ti /\ Some 29%Q = Some tj
                    /\ (blink_cooldown <= tj - ti)%Q)
  /\ (exists t, Some 19.5%Q = Some t /\ (blink_cooldown <= t - 16)%Q)
  /\ last_blink_time (run true Demo.session_inputs (Demo.fresh 1)).2 = 29%Q.
Proof.
  assert (E : right_send_times (run true Demo.session_inputs (Demo.fresh 1)).1
              = [Some 16%Q; Some 19.5%Q; Some 29%Q]).
  { vm_compute. reflexivity. }
  destruct (right_commands_cooldown_apart true Demo.session_inputs (Demo.fresh 1))
    as (Hpair & Hlast & Hend).
  split; [exact E|]. split; [|split].
  - apply (Hpair 0 2).
    + lia.
    + rewrite E. reflexivity.
    + rewrite E. reflexivity.
  - assert (Hd : exists d,
        (run true Demo.session_inputs (Demo.fresh 1)).1 !! 8 = Some d
        /\ In (SendCommand right) (dl_effects d)
        /\ clock_of (dl_input d) = Some 19.5%Q
        /\ last_right_time (last_blink_time (Demo.fresh 1))
             (take 8 (run true Demo.session_inputs (Demo.fresh 1)).1) = 16%Q).
    { eexists. split; [vm_compute; reflexivity|].
      split; [simpl; auto 10|]. split; vm_compute; reflexivity. }
    destruct Hd as (d & Hk & Hin & Hclock & Hprev).
    destruct (Hlast 8 d Hk Hin) as (t & Ht & Hle).
    exists t. split; [congruence|]. rewrite Hprev in Hle. exact Hle.
  - rewrite Hend. vm_compute. reflexivity.
Defined.

(** ** Records that reach the detection step *)

(** A record that parses, has the right number of fields and passes the
    filter loop is handled by the detection step on the filtered values. *)
Lemma update_detect `{Externals} (now : Q) (line : string) (sink : res unit) (s : SignalVisualizer)
    (vs fv : list float) (s1 : SignalVisualizer) (o1 : list effect) :
  initial_delay_complete s = true ->
  is_blank line = false ->
  parse_fields (split_tab line) = Ok vs ->
  length vs = num_channels s ->
  filter_loop (seq 0 (num_channels s)) vs [] s = (Ok fv, s1, o1) ->
  signal_only s s1 /\ forallb is_quiet o1 = true
  /\ update now line sink s
     = after_filters o1
         ((if ready_for_operation s1 then ready_detect now vs fv sink
           else countdown_detect now vs fv) s1).
Proof.
  intros Hidc Hblank Hp Hlen Hloop.
  pose proof (filter_loop_frame (seq 0 (num_channels s)) vs [] s) as F.
  rewrite Hloop in F. destruct F as [F Hq].
  split; [exact F|]. split; [exact Hq|].
  unfold update. rewrite bind_gets, Hidc. cbn [negb]. rewrite Hblank. cbn [negb].
  unfold try_except_ValueError, process_record.
  rewrite Hp, bind_lift_ok, bind_gets.
  apply Nat.eqb_eq in Hlen. rewrite Hlen. cbn [negb].
  rewrite bind_ret, bind_gets, bind_unfold, Hloop, bind_gets.
  unfold after_filters.
  destruct (ready_for_operation s1); simpl.
  - destruct (ready_detect now vs fv sink s1) as [[r2 s2] o2].
    destruct r2 as [[]|e]; [reflexivity|].
    destruct e; simpl; rewrite <- ?app_assoc; reflexivity.
  - destruct (countdown_detect now vs fv s1) as [[r2 s2] o2].
    destruct r2 as [[]|e]; [reflexivity|].
    destruct e; simpl; rewrite <- ?app_assoc; reflexivity.
Qed.

(** ** The order of the two gesture rules *)

Lemma quiet_not_fired (c : command) (o : list effect) :
  forallb is_quiet o = true -> fired c o = false.
Proof.
  unfold fired. induction o as [|e o IH]; simpl; [reflexivity|].
  intros Hq. apply andb_prop in Hq as [He Ho]. rewrite (IH Ho).
  destruct c, e as [[]| | | |]; simpl in *; try discriminate; reflexivity.
Qed.

Lemma fired_app (c : command) (o1 o2 : list effect) :
  fired c (o1 ++ o2) = fired c o1 || fired c o2.
Proof. unfold fired. apply existsb_app. Qed.

Ltac fired_facts :=
  cbv beta; simpl;
  rewrite ?fired_app;
  repeat match goal with
    | Q : forallb is_quiet ?o = true |- context [fired ?c ?o] =>
        rewrite (quiet_not_fired c o Q)
    end;
  unfold fired; simpl;
  repeat match goal with
    | |- _ /\ _ => split
    | |- _ -> _ => intro
    end;
  try discriminate; try congruence; try reflexivity;
  try (left; reflexivity); try (right; reflexivity).

(** C3 (amended): for a record handled in Ready, the open-gesture test
    comes first and the blink rule is looked at only when that test fails:
    no record fires both a select and a move-next event; a select event
    needs every filtered value in the neutral band; when every filtered
    value is in the neutral band the blink rule is not evaluated (no
    move-next event, no failed trigger selection: a [StopIteration] can
    then only be one that the body of [send_command] raised), whether or
    not the open-gesture rule itself fires; and when the rate limiter has elapsed,
    not every filtered value is in the neutral band and some raw value lies
    in an excursion band, the blink rule is evaluated: a move-next event
    fires or the trigger selection fails. *)
Theorem gesture_rules_priority `{Externals} (now : Q) (line : string) (sink : res unit)
    (s : SignalVisualizer) (vs fv : list float) (s1 : SignalVisualizer)
    (o1 : list effect) :
  initial_delay_complete s = true ->
  ready_for_operation s = true ->
  is_blank line = false ->
  parse_fields (split_tab line) = Ok vs ->
  length vs = num_channels s ->
  filter_loop (seq 0 (num_channels s)) vs [] s = (Ok fv, s1, o1) ->
  let '(r, s', o) := update now line sink s in
  fired select o && fired right o = false
  /\ (fired select o = true -> forallb in_eye_open fv = true)
  /\ (forallb in_eye_open fv = true ->
      fired right o = false
      /\ (r = Raise StopIteration -> sink = Raise StopIteration))
  /\ (Qle_bool print_delay (now - last_print_time s) = true ->
      forallb in_eye_open fv = false ->
      existsb in_eye_blink vs = true ->
      fired right o = true \/ r = Raise StopIteration).
Proof.
  intros Hidc Hready Hblank Hp Hlen Hloop.
  destruct (update_detect now line sink s vs fv s1 o1 Hidc Hblank Hp Hlen Hloop)
    as (F & Q & ->).
  revert Hready. signal_to_new F. intros Hready. rewrite Hready.
  unfold after_filters. detect_cases; fired_facts.
Qed.

(** Witness of C3 (amended): the record "250" in Ready, filtered to 125. *)
Lemma gesture_rules_priority_witness :
  let '(r, s', o) := update 10%Q "250" returns (Demo.armed 1 0 0 2) in
  fired select o && fired right o = false
  /\ (fired select o = true -> forallb in_eye_open [125%float] = true)
  /\ (forallb in_eye_open [125%float] = true ->
      fired right o = false
      /\ (r = Raise StopIteration -> returns = Raise StopIteration))
  /\ (Qle_bool print_delay (10 - last_print_time (Demo.armed 1 0 0 2)) = true ->
      forallb in_eye_open [125%float] = false ->
      existsb in_eye_blink [250%float] = true ->
      fired right o = true \/ r = Raise StopIteration).
Proof.
  apply (gesture_rules_priority 10%Q "250" returns (Demo.armed 1 0 0 2)
           [250%float] [125%float]
           (filter_loop (seq 0 1) [250%float] [] (Demo.armed 1 0 0 2)).1.2
           (filter_loop (seq 0 1) [250%float] [] (Demo.armed 1 0 0 2)).2);
    try reflexivity.
Defined.

(** ** The rate limiter *)

Lemma quiet_no_log (o : list effect) :
  forallb is_quiet o = true -> existsb is_log o = false.
Proof.
  induction o as [|e o IH]; simpl; [reflexivity|].
  intros Hq. apply andb_prop in Hq as [He Ho].
  destruct e as [[]| | | |]; simpl in *; try discriminate; auto.
Qed.

Ltac rate_facts :=
  cbv beta; simpl;
  rewrite ?existsb_app;
  repeat match goal with
    | Q : forallb is_quiet ?o = true |- context [existsb is_log ?o] =>
        rewrite (quiet_no_log o Q)
    end;
  simpl;
  repeat match goal with
    | |- _ /\ _ => split
    | |- _ -> _ => intro
    end;
  try discriminate; try congruence; try reflexivity; try assumption;
  try (rewrite ?forallb_app; simpl; rewrite ?andb_true_r; assumption).

(** C4 (amended): in Ready, a record that arrives less than [print_delay]
    seconds after [last_print_time] is not classified (only the signal path
    changes, only quiet effects occur); and [last_print_time] becomes the
    clock reading exactly when an event fires (its log line is written),
    whether or not its command is sent, and is unchanged otherwise. *)
Theorem rate_limit_restarts_on_fired_event `{Externals} (now : Q) (line : string) (sink : res unit)
    (s : SignalVisualizer) :
  initial_delay_complete s = true ->
  ready_for_operation s = true ->
  let '(r, s', o) := update now line sink s in
  (Qle_bool print_delay (now - last_print_time s) = false ->
   signal_only s s' /\ forallb is_quiet o = true)
  /\ (existsb is_log o = true -> last_print_time s' = now)
  /\ (existsb is_log o = false -> last_print_time s' = last_print_time s).
Proof.
  intros Hidc Hready.
  destruct (update_shape now line sink s Hidc)
    as [(r & s1 & o & -> & F & Q) | (vs & fv & s1 & o1 & _ & _ & _ & F & Q & ->)].
  - rewrite (quiet_no_log o Q).
    destruct (signal_only_fields _ _ F) as (_ & E & _). rewrite E. rate_facts.
  - revert Hready. signal_to_new F. intros Hready. rewrite Hready.
    unfold after_filters. detect_cases; rate_facts.
Qed.

(** Witness of C4 (amended): the record "5" read at 10 s in Ready. *)
Lemma rate_limit_restarts_on_fired_event_witness :
  let '(r, s', o) := update 10%Q "5" returns (Demo.armed 1 0 0 0) in
  (Qle_bool print_delay (10 - last_print_time (Demo.armed 1 0 0 0)) = false ->
   signal_only (Demo.armed 1 0 0 0) s' /\ forallb is_quiet o = true)
  /\ (existsb is_log o = true -> last_print_time s' = 10%Q)
  /\ (existsb is_log o = false ->
      last_print_time s' = last_print_time (Demo.armed 1 0 0 0)).
Proof.
  apply (rate_limit_restarts_on_fired_event 10%Q "5" returns (Demo.armed 1 0 0 0));
    reflexivity.
Defined.

(** ** Comparisons of floats and NaN *)

Lemma SFcompare_antisym (f1 f2 : spec_float) :
  SFcompare f2 f1 = option_map CompOpp (SFcompare f1 f2).
Proof.
  destruct f1 as [s1|s1| |s1 m1 e1], f2 as [s2|s2| |s2 m2 e2]; simpl;
    try reflexivity; try (destruct s1; reflexivity);
    try (destruct s2; reflexivity);
    try (destruct s1, s2; reflexivity).
  destruct s1, s2; simpl; try reflexivity;
    rewrite (Z.compare_antisym e1 e2);
    destruct (e1 ?= e2)%Z; simpl; try reflexivity;
    fold (Pos.compare m1 m2); fold (Pos.compare m2 m1);
    rewrite (Pos.compare_antisym m1 m2);
    destruct (m1 ?= m2)%positive; reflexivity.
Qed.

Lemma SFcompare_Gt_Lt (f1 f2 : spec_float) :
  SFcompare f1 f2 = Some Gt -> SFcompare f2 f1 = Some Lt.
Proof. intros C. rewrite SFcompare_antisym, C. reflexivity. Qed.

Lemma SFcompare_None (f1 f2 : spec_float) :
  SFcompare f1 f2 = None -> f1 = S754_nan \/ f2 = S754_nan.
Proof.
  destruct f1 as [s1|s1| |s1 m1 e1], f2 as [s2|s2| |s2 m2 e2]; simpl;
    auto; discriminate.
Qed.

Lemma is_nan_Prim2SF (x : float) :
  Prim2SF x = S754_nan -> PrimFloat.is_nan x = true.
Proof.
  intros E. unfold PrimFloat.is_nan. rewrite FloatAxioms.eqb_spec, E. reflexivity.
Qed.

Lemma Prim2SF_is_nan (x : float) :
  PrimFloat.is_nan x = true -> Prim2SF x = S754_nan.
Proof.
  unfold PrimFloat.is_nan. rewrite FloatAxioms.eqb_spec. unfold SFeqb.
  destruct (Prim2SF x) as [s|s| |s m e]; simpl; try reflexivity;
    try (destruct s; discriminate).
  destruct s; rewrite Z.compare_refl; fold (Pos.compare m m);
    rewrite Pos.compare_refl; discriminate.
Qed.

(** Of two floats neither of which is a NaN, one is below or equal to the
    other, or the other is strictly below it. *)
Lemma leb_ltb_nan (x y : float) :
  PrimFloat.leb x y = false -> PrimFloat.ltb y x = false ->
  PrimFloat.is_nan x = true \/ PrimFloat.is_nan y = true.
Proof.
  rewrite FloatAxioms.leb_spec, ltb_spec. unfold SFleb, SFltb.
  destruct (SFcompare (Prim2SF x) (Prim2SF y)) as [[| |]|] eqn:C; try discriminate.
  - rewrite (SFcompare_Gt_Lt _ _ C). discriminate.
  - intros _ _. destruct (SFcompare_None _ _ C); auto using is_nan_Prim2SF.
Qed.

Lemma nan_leb_l (x y : float) : PrimFloat.is_nan x = true -> PrimFloat.leb x y = false.
Proof. intros N. rewrite FloatAxioms.leb_spec, (Prim2SF_is_nan x N). reflexivity. Qed.

Lemma nan_leb_r (x y : float) : PrimFloat.is_nan y = true -> PrimFloat.leb x y = false.
Proof.
  intros N. rewrite FloatAxioms.leb_spec, (Prim2SF_is_nan y N). unfold SFleb.
  destruct (Prim2SF x); reflexivity.
Qed.

Lemma nan_ltb_l (x y : float) : PrimFloat.is_nan x = true -> PrimFloat.ltb x y = false.
Proof. intros N. rewrite FloatAxioms.ltb_spec, (Prim2SF_is_nan x N). reflexivity. Qed.

Lemma nan_ltb_r (x y : float) : PrimFloat.is_nan y = true -> PrimFloat.ltb x y = false.
Proof.
  intros N. rewrite FloatAxioms.ltb_spec, (Prim2SF_is_nan y N). unfold SFltb.
  destruct (Prim2SF x); reflexivity.
Qed.

(** A value that fails the neutral-band test without being above or below
    the band is a NaN, and a NaN is in no band. *)
Lemma neither_in_nor_outside_is_nan (v : float) :
  in_eye_open v = false -> outside_eye_open v = false -> np_isnan v = true.
Proof.
  unfold in_eye_open, outside_eye_open, np_isnan.
  intros Hin Hout. apply orb_false_elim in Hout as [Hhi Hlo].
  apply andb_false_iff in Hin as [Hin|Hin].
  - destruct (leb_ltb_nan _ _ Hin Hlo) as [N|N]; [discriminate N|exact N].
  - destruct (leb_ltb_nan _ _ Hin Hhi) as [N|N]; [exact N|discriminate N].
Qed.

Lemma nan_in_no_band (v : float) :
  np_isnan v = true ->
  in_eye_open v = false /\ outside_eye_open v = false /\ in_eye_blink v = false.
Proof.
  unfold np_isnan, in_eye_open, outside_eye_open, in_eye_blink. intros N.
  rewrite !(nan_leb_l v), !(nan_leb_r _ v), (nan_ltb_l v), (nan_ltb_r _ v) by exact N.
  repeat split; reflexivity.
Qed.

Lemma in_eye_open_not_outside (v : float) :
  in_eye_open v = true -> outside_eye_open v = false.
Proof.
  unfold in_eye_open, outside_eye_open. intros Hin.
  apply andb_prop in Hin as [Hlo Hhi].
  rewrite FloatAxioms.leb_spec in Hlo, Hhi. rewrite !FloatAxioms.ltb_spec.
  unfold SFleb in Hlo, Hhi. unfold SFltb.
  rewrite (SFcompare_antisym (Prim2SF v) (Prim2SF eye_open_max)).
  rewrite (SFcompare_antisym (Prim2SF eye_open_min) (Prim2SF v)).
  destruct (SFcompare (Prim2SF eye_open_min) (Prim2SF v)) as [[| |]|];
    try discriminate;
    destruct (SFcompare (Prim2SF v) (Prim2SF eye_open_max)) as [[| |]|];
    try discriminate; reflexivity.
Qed.

(** ** The trigger value of the blink rule *)

Lemma find_none_forallb {A : Type} (f : A -> bool) (l : list A) :
  forallb (fun x => negb (f x)) l = true -> List.find f l = None.
Proof.
  induction l as [|x l IH]; simpl; [reflexivity|].
  intros Hall. apply andb_prop in Hall as [Hx Hl].
  destruct (f x); [discriminate|auto].
Qed.

(** When every filtered value passes the neutral-band test the detection
    step takes the open-gesture branch and never looks for a trigger value
    of the blink rule: a [StopIteration] could only be one raised by the
    body of [send_command]. *)
Lemma detect_neutral_no_stop (now : Q) (vs fv : list float) (sink : res unit)
    (s1 : SignalVisualizer) (o1 : list effect) :
  sink <> Raise StopIteration ->
  forallb in_eye_open fv = true ->
  (after_filters o1
     ((if ready_for_operation s1 then ready_detect now vs fv sink
       else countdown_detect now vs fv) s1)).1.1 <> Raise StopIteration.
Proof.
  intros Hsink Hall. unfold after_filters.
  destruct (ready_for_operation s1); detect_cases; try discriminate; congruence.
Qed.

(** When the neutral-band test fails, some raw value is in an excursion
    band and no filtered value is outside the neutral band, the search for
    the trigger value raises [StopIteration], which leaves [update]. *)
Lemma detect_no_candidate (now : Q) (vs fv : list float) (sink : res unit)
    (s1 : SignalVisualizer) (o1 : list effect) :
  classification_runs now s1 = true ->
  existsb in_eye_blink vs = true ->
  forallb in_eye_open fv = false ->
  forallb (fun v => negb (outside_eye_open v)) fv = true ->
  after_filters o1
    ((if ready_for_operation s1 then ready_detect now vs fv sink
      else countdown_detect now vs fv) s1)
  = (Raise StopIteration, s1, o1).
Proof.
  unfold classification_runs, after_filters.
  intros Hruns Hblink Hall Hnone. apply find_none_forallb in Hnone.
  destruct (ready_for_operation s1); detect_unfold; simpl.
  - rewrite Hruns, Hall, Hblink, Hnone. simpl. rewrite app_nil_r. reflexivity.
  - destruct (potential_command s1); [discriminate|].
    rewrite Hall, Hblink, Hnone. simpl. rewrite app_nil_r. reflexivity.
Qed.

(** A failed neutral-band test with no candidate outside the band means
    a NaN among the filtered values. *)
Lemma no_candidate_has_nan (fv : list float) :
  forallb in_eye_open fv = false ->
  List.find outside_eye_open fv = None ->
  existsb np_isnan fv = true.
Proof.
  induction fv as [|v fv IH]; simpl; [discriminate|].
  destruct (outside_eye_open v) eqn:Hout; [discriminate|].
  destruct (in_eye_open v) eqn:Hin; simpl.
  - intros Hall Hnone. rewrite (IH Hall Hnone). apply orb_true_r.
  - intros _ _. rewrite (neither_in_nor_outside_is_nan v Hin Hout). reflexivity.
Qed.

(** Values that are each in the neutral band or a NaN offer no candidate,
    and a NaN among them makes the neutral-band test fail. *)
Lemma neutral_or_nan_no_candidate (fv : list float) :
  forallb (fun v => in_eye_open v || np_isnan v) fv = true ->
  forallb (fun v => negb (outside_eye_open v)) fv = true
  /\ (existsb np_isnan fv = true -> forallb in_eye_open fv = false).
Proof.
  induction fv as [|v fv IH]; simpl; [split; [reflexivity|discriminate]|].
  intros Hall. apply andb_prop in Hall as [Hv Hfv].
  destruct (IH Hfv) as [IHout IHnan]. rewrite IHout.
  destruct (np_isnan v) eqn:Hnan.
  - destruct (nan_in_no_band v Hnan) as (Hin & Hout & _). rewrite Hin, Hout.
    split; [reflexivity|]. reflexivity.
  - rewrite orb_false_r in Hv. rewrite Hv, (in_eye_open_not_outside v Hv).
    split; [reflexivity|]. simpl. exact IHnan.
Qed.

Lemma detect_stop_iteration_has_nan (now : Q) (vs fv : list float) (sink : res unit)
    (s1 : SignalVisualizer) (o1 : list effect) :
  sink <> Raise StopIteration ->
  (after_filters o1
     ((if ready_for_operation s1 then ready_detect now vs fv sink
       else countdown_detect now vs fv) s1)).1.1 = Raise StopIteration ->
  existsb np_isnan fv = true
  /\ forallb in_eye_open fv = false
  /\ existsb in_eye_blink vs = true.
Proof.
  intros Hsink. unfold after_filters.
  destruct (ready_for_operation s1); detect_cases; try discriminate;
    try congruence; intros _; auto using no_candidate_has_nan.
Qed.

(** C10 (amended): for a valid record handled after warm-up, [update]
    raises [StopIteration] only if some raw value lies in an excursion band,
    the neutral-band test fails and some filtered value is a NaN (a
    [StopIteration] that the body of [send_command] raised apart); when
    every filtered value lies in the neutral band it is not raised.  And it is
    raised, uncaught, whenever classification runs, some raw value lies in an
    excursion band, and the filtered values are each in the neutral band or
    a NaN with at least one NaN: the blink rule is evaluated, the trigger
    selection has no candidate, and the exception leaves [update] after the
    filters and display buffers were advanced and before anything is logged
    or sent. *)
Theorem blink_trigger_selection_partial `{Externals} (now : Q) (line : string) (sink : res unit)
    (s : SignalVisualizer) (vs fv : list float) (s1 : SignalVisualizer)
    (o1 : list effect) :
  initial_delay_complete s = true ->
  is_blank line = false ->
  parse_fields (split_tab line) = Ok vs ->
  length vs = num_channels s ->
  filter_loop (seq 0 (num_channels s)) vs [] s = (Ok fv, s1, o1) ->
  (sink <> Raise StopIteration ->
   (update now line sink s).1.1 = Raise StopIteration ->
   existsb np_isnan fv = true
   /\ forallb in_eye_open fv = false
   /\ existsb in_eye_blink vs = true)
  /\ (classification_runs now s = true ->
      existsb in_eye_blink vs = true ->
      existsb np_isnan fv = true ->
      forallb (fun v => in_eye_open v || np_isnan v) fv = true ->
      update now line sink s = (Raise StopIteration, s1, o1)).
Proof.
  intros Hidc Hblank Hp Hlen Hloop.
  destruct (update_detect now line sink s vs fv s1 o1 Hidc Hblank Hp Hlen Hloop)
    as (F & Q & ->).
  split.
  - intros Hsink. apply detect_stop_iteration_has_nan. exact Hsink.
  - intros Hruns Hblink Hnan Hall.
    destruct (neutral_or_nan_no_candidate fv Hall) as [Hnone Hfail].
    apply detect_no_candidate; auto.
    unfold classification_runs in *. revert Hruns. signal_to_new F. auto.
Qed.

(** Witness of C10 (amended): two channels, the record "nan<TAB>200": the
    filtered values are NaN and 100. *)
Lemma blink_trigger_selection_partial_witness :
  let s := Demo.armed 2 0 0 0 in
  let line := Demo.tabbed "nan" "200" in
  let vs := [PrimFloat.nan; 200%float] in
  let fv := [PrimFloat.nan; 100%float] in
  parse_fields (split_tab line) = Ok vs
  /\ update 10%Q line returns s
     = (Raise StopIteration,
        (filter_loop (seq 0 2) vs [] s).1.2, (filter_loop (seq 0 2) vs [] s).2).
Proof.
  intros s line vs fv.
  assert (Hp : parse_fields (split_tab line) = Ok vs) by (vm_compute; reflexivity).
  assert (Hloop : filter_loop (seq 0 (num_channels s)) vs [] s
                  = (Ok fv, (filter_loop (seq 0 2) vs [] s).1.2,
                     (filter_loop (seq 0 2) vs [] s).2))
    by (vm_compute; reflexivity).
  split; [exact Hp|].
  apply (blink_trigger_selection_partial 10%Q line returns s vs fv _ _
           eq_refl eq_refl Hp eq_refl Hloop);
    vm_compute; reflexivity.
Defined.

(** ** Where the code departs from the claims as stated *)

(** C3, counterexample: one channel in Ready, last event at 1000 s; the
    record "200" read at 1004 s.  The rate limiter has elapsed, the raw value
    200 lies in the positive excursion band and the open-gesture rule does
    not fire (the filtered value 100 is in the neutral band, but only 4 s of
    the 5 s have passed); yet the blink rule is not evaluated: no move-next
    event fires and no trigger selection fails. *)
Lemma blink_rule_not_evaluated_after_open_test :
  let s := Demo.armed 1 1000 0 2 in
  let '(r, s', o) := update 1004%Q "200" returns s in
  parse_fields (split_tab "200") = Ok [200%float]
  /\ existsb in_eye_blink [200%float] = true
  /\ Qle_bool print_delay (1004 - last_print_time s) = true
  /\ fired select o = false
  /\ fired right o = false
  /\ r = Ok tt.
Proof. vm_compute. repeat split. Qed.

(** C4, counterexample: one channel in Ready, no event suppressed yet;
    the record "5" read at 10 s.  A select event fires and is suppressed
    (first of the two skipped events: [send_command] is not called), and yet
    [last_print_time] advances from 0 to 10. *)
Lemma suppressed_event_restarts_rate_limit :
  let s := Demo.armed 1 0 0 0 in
  let '(r, s', o) := update 10%Q "5" returns s in
  fired select o = true
  /\ existsb is_send o = false
  /\ last_print_time s = 0%Q
  /\ last_print_time s' = 10%Q.
Proof. vm_compute. repeat split. Qed.

(** C10, counterexample: the record described by the claim does not
    exist.  Whenever every filtered value of a valid record lies in the
    neutral band, [update] does not raise [StopIteration], whatever the raw
    values are (the body of [send_command] not raising one). *)
Lemma no_stop_iteration_when_filtered_values_neutral :
  ~ (exists (E : Externals) (now : Q) (line : string) (sink : res unit) (s : SignalVisualizer)
            (vs fv : list float) (s1 : SignalVisualizer) (o1 : list effect),
        initial_delay_complete s = true
        /\ is_blank line = false
        /\ parse_fields (split_tab line) = Ok vs
        /\ length vs = num_channels s
        /\ filter_loop (seq 0 (num_channels s)) vs [] s = (Ok fv, s1, o1)
        /\ existsb in_eye_blink vs = true
        /\ forallb in_eye_open fv = true
        /\ sink <> Raise StopIteration
        /\ (update now line sink s).1.1 = Raise StopIteration).
Proof.
  intros (E & now & line & sink & s & vs & fv & s1 & o1
          & Hidc & Hblank & Hp & Hlen & Hloop & _ & Hall & Hsink & Hstop).
  destruct (update_detect now line sink s vs fv s1 o1 Hidc Hblank Hp Hlen Hloop)
    as (_ & _ & Hupd).
  rewrite Hupd in Hstop.
  exact (detect_neutral_no_stop now vs fv sink s1 o1 Hsink Hall Hstop).
Qed.

(** * Further properties of the detector *)

Lemma quiet_filter_send (o : list effect) :
  forallb is_quiet o = true -> List.filter is_send o = [].
Proof.
  induction o as [|e o IH]; simpl; [reflexivity|].
  intros Hq. apply andb_prop in Hq as [He Ho].
  destruct e as [[]| | | |]; simpl in *; try discriminate; auto.
Qed.

(** Closes goals of the form [exists pre post, o = pre ++ e :: post /\ ...]
    for an explicit list [o1 ++ [...]]. *)
Ltac split_at_send :=
  match goal with
  | |- exists pre post, ?o1 ++ ?l = pre ++ SendCommand ?c :: post /\ _ =>
      match l with
      | [?a; ?b; SendCommand c; ?d] =>
          exists (o1 ++ [a; b]), [d]; split;
          [rewrite <- app_assoc; reflexivity|]
      | [?a; ?b; SendCommand c] =>
          exists (o1 ++ [a; b]), []; split;
          [rewrite <- app_assoc; reflexivity|]
      end
  end.

Ltac command_facts :=
  cbv beta; simpl;
  rewrite ?List.filter_app;
  repeat match goal with
    | Q : forallb is_quiet ?o = true |- context [List.filter is_send ?o] =>
        rewrite (quiet_filter_send o Q)
    end;
  simpl;
  repeat match goal with
    | |- _ /\ _ => split
    | |- forall _, _ => intro
    end;
  in_effects; try discriminate; try lia;
  repeat match goal with
    | Hc : SendCommand _ = SendCommand _ |- _ => injection Hc as <-
    end.

(** X1: one call of a slot passes at most one command to [send_command].
    A command is passed only by a record (never by a timer tick), only when
    the object was in Ready before the call, only after the log line of an
    event of that very command has been appended in the same call, and no
    further command follows it in that call. *)
Theorem one_command_after_its_log_line `{Externals} (i : input) (s : SignalVisualizer) :
  let '(r, s', o) := deliver i s in
  length (List.filter is_send o) <= 1
  /\ forall c, In (SendCommand c) o ->
       ready_for_operation s = true
       /\ (exists now line sink, i = DataReady now line sink)
       /\ exists pre post, o = pre ++ SendCommand c :: post
                           /\ fired c pre = true
                           /\ forallb (fun e => negb (is_send e)) post = true.
Proof.
  pattern i, s, (deliver i s). revert i s.
  apply deliver_cases.
  - intros s. unfold deliver, update_countdown. detect_cases; command_facts.
  - intros s. unfold deliver, update_initial_countdown. detect_cases; command_facts.
  - intros now line sink s Hidc. unfold update, start_initial_countdown.
    unfold_monad. simpl. rewrite Hidc. simpl.
    destruct (Qle_bool initial_delay (now - start_time s)); simpl; command_facts.
  - intros now line sink s r s1 o Hidc F Q. command_facts.
  - intros now line sink s vs fv s1 o1 Hidc F Q. signal_to_new F.
    unfold after_filters.
    destruct (ready_for_operation s1) eqn:Hr; detect_cases; command_facts.
    all: try (do 3 eexists; reflexivity).
    all: split_at_send.
    all: rewrite fired_app, (quiet_not_fired _ o1 Q); split; reflexivity.
Qed.

(** Witness of X1: a blink record in Ready, after two skipped events. *)
Lemma one_command_after_its_log_line_witness :
  let '(r, s', o) := deliver (DataReady 10 "250" returns) (Demo.armed 1 0 0 2) in
  In (SendCommand right) o
  /\ length (List.filter is_send o) <= 1
  /\ forall c, In (SendCommand c) o ->
       ready_for_operation (Demo.armed 1 0 0 2) = true
       /\ (exists now line sink, DataReady 10 "250" returns = DataReady now line sink)
       /\ exists pre post, o = pre ++ SendCommand c :: post
                           /\ fired c pre = true
                           /\ forallb (fun e => negb (is_send e)) post = true.
Proof.
  generalize (one_command_after_its_log_line (DataReady 10 "250" returns) (Demo.armed 1 0 0 2)).
  vm_compute. intros W. split; [auto 10|exact W].
Defined.

Lemma quiet_logs_of (o : list effect) :
  forallb is_quiet o = true -> logs_of o = [].
Proof.
  induction o as [|e o IH]; simpl; [reflexivity|].
  intros Hq. apply andb_prop in Hq as [He Ho].
  destruct e as [[]| | | |]; simpl in *; try discriminate; auto.
Qed.

Lemma logs_of_app (o1 o2 : list effect) : logs_of (o1 ++ o2) = logs_of o1 ++ logs_of o2.
Proof. unfold logs_of. apply flat_map_app. Qed.

Ltac log_facts :=
  cbv beta; simpl;
  rewrite ?logs_of_app;
  repeat match goal with
    | Q : forallb is_quiet ?o = true |- context [logs_of ?o] =>
        rewrite (quiet_logs_of o Q)
    end;
  simpl;
  repeat match goal with
    | Hle : Qle_bool _ _ = true |- _ => apply Qle_bool_iff in Hle
    end;
  unfold gap_after; simpl;
  try reflexivity; try (split; [assumption | reflexivity]).

(** A delivery writes at most one log line; if it writes one, the gap
    required for that kind of event has passed since [last_print_time],
    which becomes the clock reading of the delivery; otherwise
    [last_print_time] is unchanged. *)
Lemma deliver_log `{Externals} (i : input) (s : SignalVisualizer) :
  let '(r, s', o) := deliver i s in
  match logs_of o with
  | [] => last_print_time s' = last_print_time s
  | [f] => gap_after (last_print_time s) (clock_of i, f)
           /\ clock_of i = Some (last_print_time s')
  | _ => False
  end.
Proof.
  pattern i, s, (deliver i s). revert i s.
  apply deliver_cases.
  - intros s. unfold deliver, update_countdown. detect_cases; log_facts.
  - intros s. unfold deliver, update_initial_countdown. detect_cases; log_facts.
  - intros now line sink s Hidc. unfold update, start_initial_countdown.
    unfold_monad. simpl. rewrite Hidc. simpl.
    destruct (Qle_bool initial_delay (now - start_time s)); simpl; log_facts.
  - intros now line sink s r s1 o Hidc F Q. signal_to_old F. log_facts.
  - intros now line sink s vs fv s1 o1 Hidc F Q. signal_to_new F.
    unfold after_filters.
    destruct (ready_for_operation s1) eqn:Hr; detect_cases; log_facts.
Qed.

Lemma gap_after_later (t t' : Q) (y : option Q * log_file) :
  (0 <= t' - t)%Q -> gap_after t' y -> gap_after t y.
Proof.
  unfold gap_after. destruct y as [[tj|] f]; simpl; [|tauto].
  intros H1 H2. lra.
Qed.

Lemma min_gap_print_delay (f : log_file) : (print_delay <= min_gap f)%Q.
Proof. destruct f; unfold min_gap, print_delay, eye_open_duration; lra. Qed.

Lemma log_times_cons (d : delivery) (ds : list delivery) :
  log_times (d :: ds)
  = map (fun f => (clock_of (dl_input d), f)) (logs_of (dl_effects d)) ++ log_times ds.
Proof. reflexivity. Qed.

Lemma run_log `{Externals} (halt : bool) (ins : list input) :
  forall s : SignalVisualizer,
  ForallOrdPairs gap_apart (log_times (run halt ins s).1)
  /\ Forall (gap_after (last_print_time s)) (log_times (run halt ins s).1).
Proof.
  induction ins as [|i ins IH]; intros s; simpl.
  - split; constructor.
  - pose proof (deliver_log i s) as D.
    destruct (deliver i s) as [[r s1] o].
    assert (Hhere :
      forall ds, ForallOrdPairs gap_apart (log_times ds) ->
                 Forall (gap_after (last_print_time s1)) (log_times ds) ->
      ForallOrdPairs gap_apart (log_times (MkDelivery i r o :: ds))
      /\ Forall (gap_after (last_print_time s)) (log_times (MkDelivery i r o :: ds))).
    { intros ds Hpairs Hafter. rewrite log_times_cons. simpl.
      destruct (logs_of o) as [|f [|f' l]]; simpl.
      - rewrite <- D. split; assumption.
      - destruct D as [Dafter Dclock]. rewrite Dclock in *.
        assert (Hpos : (0 <= last_print_time s1 - last_print_time s)%Q).
        { unfold gap_after in Dafter. simpl in Dafter.
          pose proof (min_gap_print_delay f). unfold print_delay in *. lra. }
        split.
        + constructor; [|exact Hpairs]. exact Hafter.
        + constructor; [exact Dafter|].
          eapply Forall_impl; [exact Hafter|].
          intros x Hx. eapply gap_after_later; [exact Hpos|exact Hx].
      - destruct D. }
    destruct (halt && is_raise r).
    + apply (Hhere []); constructor.
    + specialize (IH s1). destruct (run halt ins s1) as [ds s2]. simpl in *.
      destruct IH as [IHp IHa]. apply Hhere; assumption.
Qed.

(** X2: any two fired events of a session (log lines appended, whether
    or not their commands were sent) were read at least [print_delay]
    seconds apart, and at least [eye_open_duration] seconds apart when the
    later one is a select. *)
Theorem fired_events_rate_limited `{Externals} (halt : bool) (ins : list input)
    (s : SignalVisualizer) (i j : nat) (x y : option Q * log_file) :
  i < j ->
  log_times (run halt ins s).1 !! i = Some x ->
  log_times (run halt ins s).1 !! j = Some y ->
  exists ti tj, x.1 = Some ti /\ y.1 = Some tj
    /\ (print_delay <= tj - ti)%Q
    /\ (y.2 = enter_txt -> (eye_open_duration <= tj - ti)%Q).
Proof.
  intros Hij Hi Hj.
  pose proof (ForallOrdPairs_lookup _ _ (proj1 (run_log halt ins s)) i j x y Hij Hi Hj)
    as Hxy.
  unfold gap_apart, gap_after in Hxy.
  destruct x as [[ti|] fx]; simpl in *; [|contradiction].
  destruct y as [[tj|] fy]; simpl in *; [|contradiction].
  exists ti, tj. split; [reflexivity|]. split; [reflexivity|]. split.
  - pose proof (min_gap_print_delay fy). lra.
  - intros ->. exact Hxy.
Qed.

(** Witness of X2: the events of the demonstration session fire at 12 s,
    16 s, 19.5 s and 29 s. *)
Lemma fired_events_rate_limited_witness :
  log_times (run true Demo.session_inputs (Demo.fresh 1)).1
  = [(Some 12%Q, right_txt); (Some 16%Q, right_txt); (Some 19.5%Q, right_txt);
     (Some 29%Q, right_txt)]
  /\ exists ti tj, Some 12%Q = Some ti /\ Some 19.5%Q = Some tj
       /\ (print_delay <= tj - ti)%Q
       /\ (right_txt = enter_txt -> (eye_open_duration <= tj - ti)%Q).
Proof.
  assert (E : log_times (run true Demo.session_inputs (Demo.fresh 1)).1
              = [(Some 12%Q, right_txt); (Some 16%Q, right_txt);
                 (Some 19.5%Q, right_txt); (Some 29%Q, right_txt)]).
  { vm_compute. reflexivity. }
  split; [exact E|].
  apply (fired_events_rate_limited true Demo.session_inputs (Demo.fresh 1) 0 2
           (Some 12%Q, right_txt) (Some 19.5%Q, right_txt)).
  - lia.
  - rewrite E. reflexivity.
  - rewrite E. reflexivity.
Defined.

Ltac inv_atoms :=
  repeat match goal with
    | |- _ /\ _ => split
    | |- exists _, _ => eexists
    | |- _ -> _ => intro
    end;
  repeat match goal with
    | Hp : ?A -> _, Ha : ?A |- _ => specialize (Hp Ha)
    | Hp : ?x = ?x -> _ |- _ => specialize (Hp eq_refl)
    end;
  simpl in *; try eassumption; try reflexivity; try congruence; try lia.

Ltac inv_goal :=
  lazymatch goal with
  | |- context [_ \/ _] =>
      try first [ solve [repeat match goal with |- _ /\ _ => split end;
                     try (left; inv_atoms); inv_atoms]
            | solve [repeat match goal with |- _ /\ _ => split end;
                     try (right; inv_atoms); inv_atoms] ]
  | |- _ => inv_atoms
  end.

Ltac inv_facts :=
  cbv beta; simpl;
  let m := fresh "m" in let K := fresh "K" in
  intros m K;
  rewrite ?count_matches_app;
  repeat match goal with
    | Q : forallb is_quiet ?o = true |- context [count_matches ?o] =>
        rewrite (quiet_count_matches o Q)
    end;
  unfold count_matches; simpl;
  unfold arming_inv in *; simpl in *;
  repeat match goal with
    | Hx : context [if ?b then _ else _] |- _ => 
        match type of Hx with
        | _ = _ => fail 1
        | _ => destruct b eqn:?
        end
    end;
  simpl in *;
  repeat match goal with
    | Hx : _ /\ _ |- _ => destruct Hx
    | Hx : exists _, _ |- _ => destruct Hx
    | Hx : _ \/ _ |- _ => destruct Hx
    end;
  simplify_eq;
  repeat match goal with
    | Hlt : (_ <? _) = false |- _ => apply Nat.ltb_ge in Hlt
    | Hlt : (_ <? _) = true |- _ => apply Nat.ltb_lt in Hlt
    | Hlt : (_ <? _)%Z = false |- _ => apply Z.ltb_ge in Hlt
    | Hlt : (_ <? _)%Z = true |- _ => apply Z.ltb_lt in Hlt
    end;
  repeat match goal with
    | Hb : ?b = _ |- context [if ?b then _ else _] => rewrite Hb
    end;
  repeat match goal with
    | |- context [if ?b then _ else _] => destruct b eqn:?
    end;
  try congruence; try lia;
  inv_goal.

Lemma deliver_arming_inv `{Externals} (i : input) (s : SignalVisualizer) :
  let '(r, s', o) := deliver i s in
  forall m, arming_inv s m -> arming_inv s' (m + count_matches o).
Proof.
  pattern i, s, (deliver i s). revert i s.
  apply deliver_cases.
  - intros s. unfold deliver, update_countdown. detect_cases; inv_facts.
  - intros s. unfold deliver, update_initial_countdown. detect_cases; inv_facts.
  - intros now line sink s Hidc. unfold update, start_initial_countdown.
    unfold_monad. simpl. rewrite Hidc. simpl.
    destruct (Qle_bool initial_delay (now - start_time s)); simpl; inv_facts.
  - intros now line sink s r s1 o Hidc F Q. unfold arming_inv. signal_to_old F.
    fold (arming_inv s). inv_facts.
  - intros now line sink s vs fv s1 o1 Hidc F Q.
    assert (Hidc1 : initial_delay_complete s1 = true).
    { destruct (signal_only_fields _ _ F) as (_ & _ & _ & _ & E & _). congruence. }
    unfold arming_inv. signal_to_new F.
    fold (arming_inv s1). unfold after_filters.
    destruct (ready_for_operation s1) eqn:Hr; detect_cases; inv_facts.
Qed.

Lemma run_arming_inv `{Externals} (halt : bool) (ins : list input) :
  forall (s : SignalVisualizer) (m : nat),
  arming_inv s m ->
  arming_inv (run halt ins s).2 (m + count_matches (effects_of (run halt ins s).1)).
Proof.
  induction ins as [|i ins IH]; intros s m K; simpl.
  - unfold effects_of, count_matches. simpl. rewrite Nat.add_0_r. exact K.
  - pose proof (deliver_arming_inv i s) as D.
    destruct (deliver i s) as [[r s1] o]. specialize (D m K).
    destruct (halt && is_raise r); simpl.
    + rewrite effects_of_cons. simpl. rewrite app_nil_r. exact D.
    + specialize (IH s1 _ D). destruct (run halt ins s1) as [ds s2]. simpl in *.
      rewrite effects_of_cons, count_matches_app. simpl.
      rewrite Nat.add_assoc. exact IH.
Qed.

Lemma init_arming_inv `{Externals} (channels data_length : nat) (t0 : Q)
    (s0 : SignalVisualizer) :
  SignalVisualizer_init channels data_length t0 = Ok s0 -> arming_inv s0 0.
Proof.
  unfold SignalVisualizer_init. destruct (create_all_filters channels); [|discriminate].
  intros [= <-]. unfold arming_inv. simpl. repeat split.
Qed.

(** X3: in every state a session reaches from [__init__], the timer of
    the Initial countdown runs exactly between the end of warm-up and Ready,
    with 1 to 3 seconds remaining; Ready is only reached after warm-up; the
    countdown timer only runs in Ready, with 1 to 3 seconds remaining; and
    in Ready no provisional command is stored. *)
Theorem session_phases `{Externals} (halt : bool) (channels data_length : nat)
    (t0 : Q) (s0 : SignalVisualizer) (ins : list input) :
  SignalVisualizer_init channels data_length t0 = Ok s0 ->
  let s := (run halt ins s0).2 in
  (initial_countdown_timer s = true
   <-> initial_delay_complete s = true /\ ready_for_operation s = false)
  /\ (initial_countdown_timer s = true -> (1 <= initial_countdown_remaining s <= 3)%Z)
  /\ (ready_for_operation s = true -> initial_delay_complete s = true)
  /\ (countdown_timer s = true ->
      ready_for_operation s = true /\ (1 <= countdown_remaining s <= 3)%Z)
  /\ (ready_for_operation s = true ->
      potential_command s = None /\ potential_value s = None).
Proof.
  intros Hinit s.
  pose proof (run_arming_inv halt ins s0 0 (init_arming_inv _ _ _ _ Hinit)) as K.
  fold s in K. revert K. generalize (0 + count_matches (effects_of (run halt ins s0).1)).
  intros m K. unfold arming_inv in K.
  destruct (initial_delay_complete s), (ready_for_operation s);
    destruct K as (K1 & K2 & K3 & K4 & K5); try destruct K5 as [K5 K6];
    repeat split; intros; try congruence; try tauto;
    repeat match goal with Hx : _ /\ _ |- _ => destruct Hx end;
    try congruence; try lia; auto.
Qed.

(** Witness of X3: the state at the end of the demonstration session. *)
Lemma session_phases_witness :
  let s := (run true Demo.session_inputs (Demo.fresh 1)).2 in
  ready_for_operation s = true
  /\ (initial_countdown_timer s = true
      <-> initial_delay_complete s = true /\ ready_for_operation s = false)
  /\ (initial_countdown_timer s = true -> (1 <= initial_countdown_remaining s <= 3)%Z)
  /\ (ready_for_operation s = true -> initial_delay_complete s = true)
  /\ (countdown_timer s = true ->
      ready_for_operation s = true /\ (1 <= countdown_remaining s <= 3)%Z)
  /\ (ready_for_operation s = true ->
      potential_command s = None /\ potential_value s = None).
Proof.
  split; [vm_compute; reflexivity|].
  exact (session_phases true 1 3 0%Q (Demo.fresh 1) Demo.session_inputs eq_refl).
Defined.

(** X4: once warm-up is over, both counters are set, at most one event
    was skipped during the Initial countdown ([countdown_signals_skipped]),
    and the two counters together count the events of the session up to two:
    their sum is the number of events seen so far, capped at 2.  Before Ready
    [null_operation_counter] is 0. *)
Theorem session_counters `{Externals} (halt : bool) (channels data_length : nat)
    (t0 : Q) (s0 : SignalVisualizer) (ins : list input) :
  SignalVisualizer_init channels data_length t0 = Ok s0 ->
  let '(ds, s) := run halt ins s0 in
  initial_delay_complete s = true ->
  exists c n,
    countdown_signals_skipped s = Some c
    /\ null_operation_counter s = Some n
    /\ c <= 1
    /\ c + n = Nat.min (count_matches (effects_of ds)) 2
    /\ (ready_for_operation s = false -> n = 0 /\ count_matches (effects_of ds) = c).
Proof.
  intros Hinit.
  pose proof (run_arming_inv halt ins s0 0 (init_arming_inv _ _ _ _ Hinit)) as K.
  destruct (run halt ins s0) as [ds s]. simpl in K. intros Hidc.
  unfold arming_inv in K. rewrite Hidc in K.
  destruct (ready_for_operation s).
  - destruct K as (_ & _ & _ & _ & c & n & Hc & Hn & Hle & Hsum).
    exists c, n. repeat split; auto; discriminate.
  - destruct K as (_ & _ & _ & Hn & [(Hm & Hc & _) | (Hm & Hc & _)]).
    + exists 0, 0. rewrite Hm. repeat split; auto.
    + exists 1, 0. rewrite Hm. repeat split; auto.
Qed.

(** Witness of X4: the counters at the end of the demonstration session. *)
Lemma session_counters_witness :
  let '(ds, s) := run true Demo.session_inputs (Demo.fresh 1) in
  initial_delay_complete s = true
  /\ exists c n,
       countdown_signals_skipped s = Some c
       /\ null_operation_counter s = Some n
       /\ c <= 1
       /\ c + n = Nat.min (count_matches (effects_of ds)) 2
       /\ (ready_for_operation s = false -> n = 0 /\ count_matches (effects_of ds) = c).
Proof.
  generalize (session_counters true 1 3 0%Q (Demo.fresh 1) Demo.session_inputs).
  vm_compute. intros W. split; [reflexivity|]. exact (W eq_refl eq_refl).
Defined.

(** Opens the invariant of the state before the call in every case. *)
Ltac inv_open :=
  cbv beta; simpl;
  let m := fresh "m" in let K := fresh "K" in
  intros m K;
  unfold arming_inv in K; simpl in K;
  repeat match goal with
    | Hb : ?b = _, Hx : context [if ?b then _ else _] |- _ => rewrite Hb in Hx
    end;
  repeat match goal with
    | Hx : context [if ?b then _ else _] |- _ =>
        match type of Hx with
        | _ = _ => fail 1
        | _ => destruct b eqn:?
        end
    end;
  simpl in *;
  repeat match goal with
    | Hx : _ /\ _ |- _ => destruct Hx
    | Hx : exists _, _ |- _ => destruct Hx
    | Hx : _ \/ _ |- _ => destruct Hx
    end;
  simplify_eq;
  repeat match goal with
    | Hlt : (_ <? _) = false |- _ => apply Nat.ltb_ge in Hlt
    | Hlt : (_ <? _) = true |- _ => apply Nat.ltb_lt in Hlt
    | Hle : Qle_bool _ _ = true |- _ => apply Qle_bool_iff in Hle
    | Hle : Qle_bool ?a ?b = false |- _ =>
        assert (~ (a <= b)%Q) by (rewrite <- Qle_bool_iff; congruence); clear Hle
    end;
  try congruence.

Ltac send_facts :=
  inv_open;
  rewrite ?fired_app;
  repeat match goal with
    | Q : forallb is_quiet ?o = true |- context [fired ?c ?o] =>
        rewrite (quiet_not_fired c o Q)
    end;
  unfold fired, cooldown_after; simpl;
  repeat match goal with
    | |- _ /\ _ => split
    | |- _ <-> _ => split
    | |- _ -> _ => intro
    end;
  try discriminate; try lia; try contradiction; try assumption;
  in_effects; try discriminate;
  try (apply in_or_app; right; simpl; auto 10; fail).

(** After the first two events of a session nothing is skipped any more. *)
Lemma deliver_sends `{Externals} (i : input) (s : SignalVisualizer) :
  let '(r, s', o) := deliver i s in
  forall m, arming_inv s m -> 2 <= m ->
    (fired select o = true -> In (SendCommand select) o)
    /\ (fired right o = true ->
        (In (SendCommand right) o <-> cooldown_after (last_blink_time s) (clock_of i))).
Proof.
  pattern i, s, (deliver i s). revert i s.
  apply deliver_cases.
  - intros s. unfold deliver, update_countdown. detect_cases; send_facts.
  - intros s. unfold deliver, update_initial_countdown. detect_cases; send_facts.
  - intros now line sink s Hidc. unfold update, start_initial_countdown.
    unfold_monad. simpl. rewrite Hidc. simpl.
    destruct (Qle_bool initial_delay (now - start_time s)); simpl; send_facts.
  - intros now line sink s r s1 o Hidc F Q. rewrite !(quiet_not_fired _ o Q).
    intros m K Hm. split; discriminate.
  - intros now line sink s vs fv s1 o1 Hidc F Q.
    assert (Hidc1 : initial_delay_complete s1 = true).
    { destruct (signal_only_fields _ _ F) as (_ & _ & _ & _ & E & _). congruence. }
    unfold arming_inv. signal_to_new F.
    fold (arming_inv s1). unfold after_filters.
    destruct (ready_for_operation s1) eqn:Hr; detect_cases; send_facts.
Qed.

(** X5: once two events have been seen in a session, nothing is skipped
    any more: a select that fires is always passed to [send_command], and a
    move-next that fires is passed exactly when the record was read at least
    [blink_cooldown] seconds after [last_blink_time]. *)
Theorem later_events_are_sent `{Externals} (halt : bool)
    (channels data_length : nat) (t0 : Q) (s0 : SignalVisualizer)
    (ins : list input) (i : input) :
  SignalVisualizer_init channels data_length t0 = Ok s0 ->
  let '(ds, s) := run halt ins s0 in
  let '(r, s', o) := deliver i s in
  2 <= count_matches (effects_of ds) ->
  (fired select o = true -> In (SendCommand select) o)
  /\ (fired right o = true ->
      (In (SendCommand right) o <-> cooldown_after (last_blink_time s) (clock_of i))).
Proof.
  intros Hinit.
  pose proof (run_arming_inv halt ins s0 0 (init_arming_inv _ _ _ _ Hinit)) as K.
  destruct (run halt ins s0) as [ds s]. simpl in K.
  pose proof (deliver_sends i s) as D.
  destruct (deliver i s) as [[r s'] o]. intros Hm. exact (D _ K Hm).
Qed.

(** Witness of X5: the record read at 16 s is the third event of the
    demonstration session. *)
Lemma later_events_are_sent_witness :
  let '(ds, s) := run true Sessions.first_event_inputs (Demo.fresh 1) in
  let '(r, s', o) := deliver (DataReady 16 "250" returns) s in
  2 <= count_matches (effects_of ds)
  /\ fired right o = true
  /\ (fired select o = true -> In (SendCommand select) o)
  /\ (fired right o = true ->
      (In (SendCommand right) o
       <-> cooldown_after (last_blink_time s) (clock_of (DataReady 16 "250" returns)))).
Proof.
  generalize (later_events_are_sent true 1 3 0%Q (Demo.fresh 1)
                Sessions.first_event_inputs (DataReady 16 "250" returns)).
  vm_compute. intros W. split; [lia|]. split; [reflexivity|].
  apply (W eq_refl). lia.
Defined.

(** ** The ticks of the Initial countdown *)

Ltac tick_facts :=
  inv_open;
  repeat match goal with
    | |- _ -> _ => intro
    end;
  try discriminate; try congruence;
  repeat match goal with
    | |- context [(?a =? ?b)%Z] => destruct (Z.eqb_spec a b)
    end;
  repeat match goal with
    | |- _ /\ _ => split
    end;
  simpl in *;
  repeat match goal with
    | Hlt : (_ <? _)%Z = false |- _ => apply Z.ltb_ge in Hlt
    | Hlt : (_ <? _)%Z = true |- _ => apply Z.ltb_lt in Hlt
    end;
  try reflexivity; try congruence; try lia.

Lemma deliver_tick `{Externals} (i : input) (s : SignalVisualizer) :
  let '(r, s', o) := deliver i s in
  forall m, arming_inv s m ->
  initial_delay_complete s = true ->
  ready_for_operation s = false ->
  match i with
  | InitialCountdownTimeout =>
      if (initial_countdown_remaining s =? 1)%Z
      then ready_for_operation s' = true
      else ready_for_operation s' = false
           /\ initial_countdown_remaining s' = (initial_countdown_remaining s - 1)%Z
  | _ => ready_for_operation s' = false
         /\ initial_countdown_remaining s' = initial_countdown_remaining s
  end.
Proof.
  pattern i, s, (deliver i s). revert i s.
  apply deliver_cases.
  - intros s. unfold deliver, update_countdown. detect_cases; tick_facts.
  - intros s. unfold deliver, update_initial_countdown. detect_cases; tick_facts.
  - intros now line sink s Hidc. unfold update, start_initial_countdown.
    unfold_monad. simpl. rewrite Hidc. simpl.
    destruct (Qle_bool initial_delay (now - start_time s)); simpl; tick_facts.
  - intros now line sink s r s1 o Hidc F Q. signal_to_old F. tick_facts.
  - intros now line sink s vs fv s1 o1 Hidc F Q.
    assert (Hidc1 : initial_delay_complete s1 = true).
    { destruct (signal_only_fields _ _ F) as (_ & _ & _ & _ & E & _). congruence. }
    unfold arming_inv. signal_to_new F.
    fold (arming_inv s1). unfold after_filters.
    destruct (ready_for_operation s1) eqn:Hr; detect_cases; tick_facts.
Qed.

Lemma deliver_one_way `{Externals} (i : input) (s : SignalVisualizer) :
  let '(r, s', o) := deliver i s in
  (initial_delay_complete s = true -> initial_delay_complete s' = true)
  /\ (ready_for_operation s = true -> ready_for_operation s' = true)
  /\ start_time s' = start_time s
  /\ num_channels s' = num_channels s.
Proof.
  pattern i, s, (deliver i s). revert i s.
  apply deliver_cases.
  - intros s. unfold deliver, update_countdown. detect_cases; arming_facts.
  - intros s. unfold deliver, update_initial_countdown. detect_cases; arming_facts.
  - intros now line sink s Hidc. unfold update, start_initial_countdown.
    unfold_monad. simpl. rewrite Hidc. simpl.
    destruct (Qle_bool initial_delay (now - start_time s)); simpl; arming_facts.
  - intros now line sink s r s1 o Hidc F Q. signal_to_old F. arming_facts.
  - intros now line sink s vs fv s1 o1 Hidc F Q. signal_to_new F.
    unfold after_filters.
    destruct (ready_for_operation s1) eqn:Hr; detect_cases; arming_facts.
Qed.

Lemma run_one_way `{Externals} (halt : bool) (ins : list input) :
  forall s : SignalVisualizer,
  (initial_delay_complete s = true -> initial_delay_complete (run halt ins s).2 = true)
  /\ (ready_for_operation s = true -> ready_for_operation (run halt ins s).2 = true)
  /\ start_time (run halt ins s).2 = start_time s
  /\ num_channels (run halt ins s).2 = num_channels s.
Proof.
  induction ins as [|i ins IH]; intros s; simpl; [auto|].
  pose proof (deliver_one_way i s) as D.
  destruct (deliver i s) as [[r s1] o]. destruct D as (D1 & D2 & D3 & D4).
  destruct (halt && is_raise r); simpl; [auto|].
  specialize (IH s1). destruct (run halt ins s1) as [ds s2]. simpl in *.
  destruct IH as (I1 & I2 & I3 & I4). repeat split; auto; congruence.
Qed.

Lemma count_initial_ticks_cons (d : delivery) (ds : list delivery) :
  count_initial_ticks (d :: ds)
  = (if is_initial_tick d then 1 else 0) + count_initial_ticks ds.
Proof. unfold count_initial_ticks. simpl. destruct (is_initial_tick d); reflexivity. Qed.

Lemma run_ticks `{Externals} (halt : bool) (ins : list input) :
  forall (s : SignalVisualizer) (m : nat),
  arming_inv s m ->
  initial_delay_complete s = true ->
  ready_for_operation s = false ->
  ready_for_operation (run halt ins s).2
  = (Z.to_nat (initial_countdown_remaining s) <=? count_initial_ticks (run halt ins s).1).
Proof.
  induction ins as [|i ins IH]; intros s m K Hidc Hr; simpl.
  - assert (Hk : (1 <= initial_countdown_remaining s <= 3)%Z).
    { unfold arming_inv in K. rewrite Hidc, Hr in K. tauto. }
    rewrite Hr. symmetry. apply Nat.leb_gt. unfold count_initial_ticks. simpl. lia.
  - assert (Hk : (1 <= initial_countdown_remaining s <= 3)%Z).
    { unfold arming_inv in K. rewrite Hidc, Hr in K. tauto. }
    pose proof (deliver_tick i s) as D. pose proof (deliver_arming_inv i s) as A.
    pose proof (deliver_one_way i s) as W.
    destruct (deliver i s) as [[r s1] o].
    specialize (D m K Hidc Hr). specialize (A m K). destruct W as (W1 & _).
    specialize (W1 Hidc).
    assert (Htick : is_initial_tick (MkDelivery i r o)
                    = match i with InitialCountdownTimeout => true | _ => false end)
      by reflexivity.
    destruct (halt && is_raise r); simpl.
    + rewrite count_initial_ticks_cons, Htick. unfold count_initial_ticks. simpl.
      destruct i; try (destruct D as [D1 D2]; rewrite D1; symmetry; apply Nat.leb_gt; lia).
      destruct (Z.eqb_spec (initial_countdown_remaining s) 1) as [E|E].
      * rewrite D, E. reflexivity.
      * destruct D as [D1 D2]. rewrite D1. symmetry. apply Nat.leb_gt. lia.
    + pose proof (run_one_way halt ins s1) as (_ & M & _).
      specialize (IH s1 _ A W1).
      destruct (run halt ins s1) as [ds s2]. simpl in *.
      rewrite count_initial_ticks_cons, Htick.
      destruct i.
      * destruct D as [D1 D2]. rewrite (IH D1), D2. reflexivity.
      * destruct (Z.eqb_spec (initial_countdown_remaining s) 1) as [E|E].
        -- rewrite (M D), E. reflexivity.
        -- destruct D as [D1 D2]. rewrite (IH D1), D2.
           destruct (count_initial_ticks ds) as [|t] eqn:Et.
           ++ transitivity false; [apply Nat.leb_gt; lia|symmetry; apply Nat.leb_gt; lia].
           ++ destruct (Nat.leb_spec (Z.to_nat (initial_countdown_remaining s - 1)) (S t));
                symmetry; [apply Nat.leb_le | apply Nat.leb_gt]; lia.
      * destruct D as [D1 D2]. rewrite (IH D1), D2. reflexivity.
Qed.

(** X6: from a state of the Initial countdown, the object is in Ready
    after a run of deliveries exactly when that run has at least
    [initial_countdown_remaining] ticks of the Initial countdown timer;
    records, and ticks of the other timer, neither advance nor delay it. *)
Theorem ready_after_remaining_ticks `{Externals} (halt : bool)
    (channels data_length : nat) (t0 : Q) (s0 : SignalVisualizer)
    (before after : list input) :
  SignalVisualizer_init channels data_length t0 = Ok s0 ->
  let s := (run halt before s0).2 in
  initial_delay_complete s = true ->
  ready_for_operation s = false ->
  ready_for_operation (run halt after s).2
  = (Z.to_nat (initial_countdown_remaining s) <=? count_initial_ticks (run halt after s).1).
Proof.
  intros Hinit s Hidc Hr.
  pose proof (run_arming_inv halt before s0 0 (init_arming_inv _ _ _ _ Hinit)) as K.
  exact (run_ticks halt after s _ K Hidc Hr).
Qed.

(** Witness of X6: three ticks after warm-up. *)
Lemma ready_after_remaining_ticks_witness :
  let s := (run true Sessions.warm_up_inputs (Demo.fresh 1)).2 in
  initial_countdown_remaining s = 3%Z
  /\ ready_for_operation (run true Sessions.three_ticks s).2 = true
  /\ ready_for_operation (run true Sessions.three_ticks s).2
     = (Z.to_nat (initial_countdown_remaining s)
        <=? count_initial_ticks (run true Sessions.three_ticks s).1).
Proof.
  split; [vm_compute; reflexivity|]. split; [vm_compute; reflexivity|].
  apply (ready_after_remaining_ticks (H := Demo.externals) true 1 3 0%Q (Demo.fresh 1)
           Sessions.warm_up_inputs Sessions.three_ticks eq_refl);
    vm_compute; reflexivity.
Defined.

(** X7: no delivery ever takes the object back: once warm-up is over it
    stays over, and once the object is in Ready it stays in Ready, whatever
    is delivered, exceptions included. *)
Theorem phases_are_one_way `{Externals} (halt : bool) (ins : list input)
    (s : SignalVisualizer) :
  (initial_delay_complete s = true -> initial_delay_complete (run halt ins s).2 = true)
  /\ (ready_for_operation s = true -> ready_for_operation (run halt ins s).2 = true).
Proof.
  pose proof (run_one_way halt ins s) as (H1 & H2 & _). split; assumption.
Qed.

(** Witness of X7: the demonstration session delivered to an object in Ready. *)
Lemma phases_are_one_way_witness :
  ready_for_operation (Demo.armed 1 0 0 0) = true
  /\ ready_for_operation (run true Demo.session_inputs (Demo.armed 1 0 0 0)).2 = true.
Proof.
  split; [reflexivity|].
  exact (proj2 (phases_are_one_way true Demo.session_inputs (Demo.armed 1 0 0 0)) eq_refl).
Defined.

(** ** The signal path *)

Lemma process_wf_ok (f : LiveLFilter) (x : float) :
  filter_wf f -> exists y f', process x f = (Ok y, f') /\ filter_wf f'.
Proof.
  intros Hwf. pose proof (process_preserves_wf f x Hwf) as P.
  unfold process in *. destruct (np_isnan x); [eauto|].
  simpl in *. rewrite (LiveLFilter_process_spec_step f x Hwf) in *. eauto.
Qed.

Lemma chain_call_wf (p : LiveLFilter * LiveLFilter) (x : float) :
  filter_wf (fst p) -> filter_wf (snd p) ->
  exists z p', chain_call p x = (Ok z, p') /\ filter_wf (fst p') /\ filter_wf (snd p').
Proof.
  intros H1 H2. unfold chain_call.
  destruct (process_wf_ok (fst p) x H1) as (y & f1 & -> & W1).
  destruct (process_wf_ok (snd p) y H2) as (z & f2 & -> & W2).
  eauto.
Qed.

Lemma call_filter_eq (i : nat) (second : bool) (x : float) (s : SignalVisualizer)
    (p : LiveLFilter * LiveLFilter) :
  filters s !! i = Some p ->
  call_filter i second x s
  = (fst (process x (if second then snd p else fst p)),
     set_filters (<[i := if second
                         then (fst p, snd (process x (snd p)))
                         else (snd (process x (fst p)), snd p)]> (filters s)) s,
     []).
Proof.
  intros Hp. unfold call_filter. unfold_monad. simpl. rewrite Hp. simpl.
  destruct second; simpl.
  - destruct (process x (snd p)) as [r f']. simpl. destruct r; reflexivity.
  - destruct (process x (fst p)) as [r f']. simpl. destruct r; reflexivity.
Qed.

Lemma set_last_roll (z : float) (buf : list float) :
  buf <> [] -> set_last z (np_roll_left buf) = Ok (drop 1 buf ++ [z]).
Proof.
  destruct buf as [|x rest]; [contradiction|]. intros _. simpl.
  unfold set_last. destruct (rest ++ [x]) eqn:E.
  - destruct rest; discriminate.
  - rewrite <- E, removelast_last. rewrite drop_0. reflexivity.
Qed.

Lemma condition_channel_eq (vs : list float) (i : nat) (s : SignalVisualizer)
    (x z : float) (p p' : LiveLFilter * LiveLFilter) (buf : list float) :
  vs !! i = Some x ->
  filters s !! i = Some p ->
  data s !! i = Some buf ->
  buf <> [] ->
  chain_call p x = (Ok z, p') ->
  condition_channel vs i s
  = (Ok z,
     set_data (<[i := drop 1 buf ++ [z]]> (data s))
       (set_filters (<[i := p']> (filters s)) s),
     [SetData i (drop 1 buf ++ [z])]).
Proof.
  intros Hx Hp Hb Hne Hc. unfold chain_call in Hc.
  destruct (process x (fst p)) as [r1 f1] eqn:P1.
  destruct r1 as [y|e]; [|discriminate].
  destruct (process y (snd p)) as [r2 f2] eqn:P2.
  injection Hc as -> <-.
  assert (Hi : i < length (filters s)) by (eapply lookup_lt_Some; eassumption).
  assert (Hd : i < length (data s)) by (eapply lookup_lt_Some; eassumption).
  unfold condition_channel.
  unfold bind at 1. unfold index at 1. rewrite Hx. simpl.
  unfold bind at 1. rewrite (call_filter_eq i false x s p Hp). rewrite P1. simpl.
  unfold bind at 1.
  rewrite (call_filter_eq i true y _ (f1, snd p))
    by (simpl; apply list_lookup_insert_eq; exact Hi).
  simpl. rewrite P2. simpl.
  unfold_monad. simpl.
  rewrite list_insert_insert_eq.
  rewrite Hb. simpl.
  rewrite list_lookup_insert_eq by exact Hd. simpl.
  rewrite (set_last_roll z buf Hne). simpl.
  rewrite list_insert_insert_eq.
  destruct s; reflexivity.
Qed.

Lemma signal_wf_kept (n L : nat) (s s' : SignalVisualizer) :
  signal_wf n L s ->
  num_channels s' = num_channels s -> data s' = data s -> filters s' = filters s ->
  signal_wf n L s'.
Proof.
  intros [W1 W2 W3 W4 W5] E1 E2 E3. constructor; rewrite ?E1, ?E2, ?E3; assumption.
Qed.

Lemma signal_wf_set_filters (n L : nat) (s : SignalVisualizer) (i : nat)
    (p : LiveLFilter * LiveLFilter) :
  signal_wf n L s -> filter_wf (fst p) -> filter_wf (snd p) ->
  signal_wf n L (set_filters (<[i := p]> (filters s)) s).
Proof.
  intros [W1 W2 W3 W4 W5] P1 P2. constructor; simpl; try assumption.
  - rewrite length_insert. exact W4.
  - apply Forall_insert; [exact W5 | split; assumption].
Qed.

Lemma signal_wf_set_data (n L : nat) (s : SignalVisualizer) (i : nat) (buf : list float) :
  signal_wf n L s -> length buf = L ->
  signal_wf n L (set_data (<[i := buf]> (data s)) s).
Proof.
  intros [W1 W2 W3 W4 W5] Hb. constructor; simpl; try assumption.
  - rewrite length_insert. exact W2.
  - apply Forall_insert; assumption.
Qed.

Lemma signal_wf_filter (n L : nat) (s : SignalVisualizer) (i : nat)
    (p : LiveLFilter * LiveLFilter) :
  signal_wf n L s -> filters s !! i = Some p -> filter_wf (fst p) /\ filter_wf (snd p).
Proof.
  intros W Hp. exact (proj1 (Forall_lookup _ _) (swf_filters _ _ _ W) i p Hp).
Qed.

Lemma signal_wf_buffer (n L : nat) (s : SignalVisualizer) (i : nat) (buf : list float) :
  signal_wf n L s -> data s !! i = Some buf -> length buf = L.
Proof.
  intros W Hb. exact (proj1 (Forall_lookup _ _) (swf_bufs _ _ _ W) i buf Hb).
Qed.

Lemma call_filter_wf (n L : nat) (i : nat) (second : bool) (x : float)
    (s : SignalVisualizer) :
  signal_wf n L s -> signal_wf n L (call_filter i second x s).1.2.
Proof.
  intros W. destruct (filters s !! i) as [p|] eqn:Hp.
  - rewrite (call_filter_eq i second x s p Hp). simpl.
    destruct (signal_wf_filter _ _ _ _ _ W Hp) as [P1 P2].
    destruct second; apply signal_wf_set_filters; simpl;
      auto using process_preserves_wf.
  - unfold call_filter. unfold_monad. simpl. rewrite Hp. simpl. exact W.
Qed.

Lemma length_np_roll_left (buf : list float) : length (np_roll_left buf) = length buf.
Proof. destruct buf; simpl; [reflexivity|]. rewrite length_app. simpl. lia. Qed.

Lemma length_set_last (z : float) (buf buf' : list float) :
  set_last z buf = Ok buf' -> length buf' = length buf.
Proof.
  destruct buf as [|x rest]; [discriminate|].
  destruct (exists_last (l := x :: rest) ltac:(discriminate)) as (l & y & E).
  rewrite E. unfold set_last.
  destruct (l ++ [y]) eqn:E2; [destruct l; discriminate|]. rewrite <- E2.
  intros [= <-]. rewrite removelast_last, !length_app. reflexivity.
Qed.

Lemma condition_channel_wf (n L : nat) (vs : list float) (i : nat) (s : SignalVisualizer) :
  signal_wf n L s -> signal_wf n L (condition_channel vs i s).1.2.
Proof.
  intros W. unfold condition_channel.
  unfold bind at 1. unfold index at 1.
  destruct (vs !! i) as [x|]; simpl; [|exact W].
  unfold bind at 1.
  pose proof (call_filter_wf n L i false x s W) as W1.
  destruct (call_filter i false x s) as [[r1 s1] o1]. simpl in W1.
  destruct r1 as [y|e]; [|exact W1].
  unfold bind at 1.
  pose proof (call_filter_wf n L i true y s1 W1) as W2.
  destruct (call_filter i true y s1) as [[r2 s2] o2]. simpl in W2.
  destruct r2 as [z|e]; [|exact W2].
  unfold_monad. simpl.
  destruct (data s2 !! i) as [buf|] eqn:Hb; simpl; [|exact W2].
  pose proof (signal_wf_buffer _ _ _ _ _ W2 Hb) as Hlen.
  assert (W3 : signal_wf n L (set_data (<[i:=np_roll_left buf]> (data s2)) s2)).
  { apply signal_wf_set_data; [exact W2|]. rewrite length_np_roll_left. exact Hlen. }
  destruct (<[i:=np_roll_left buf]> (data s2) !! i) as [buf2|] eqn:Hb2; simpl; [|exact W3].
  assert (Hlen2 : length buf2 = L).
  { exact (signal_wf_buffer n L _ i buf2 W3 Hb2). }
  destruct (set_last z buf2) as [buf3|e] eqn:Hs; simpl; [|exact W3].
  apply (signal_wf_set_data n L _ i buf3) in W3.
  - simpl in W3. exact W3.
  - rewrite (length_set_last _ _ _ Hs). exact Hlen2.
Qed.

Lemma filter_loop_wf (n L : nat) (rng : list nat) (vs acc : list float)
    (s : SignalVisualizer) :
  signal_wf n L s -> signal_wf n L (filter_loop rng vs acc s).1.2.
Proof.
  revert acc s. induction rng as [|i rng IH]; intros acc s W; simpl; [exact W|].
  unfold bind.
  pose proof (condition_channel_wf n L vs i s W) as W1.
  destruct (condition_channel vs i s) as [[r1 s1] o1]. simpl in W1.
  destruct r1 as [z|e]; [|exact W1].
  specialize (IH (acc ++ [z]) s1 W1).
  destruct (filter_loop rng vs (acc ++ [z]) s1) as [[r2 s2] o2]. exact IH.
Qed.

(** On a well-formed signal path with buffers that are not empty, the
    loop conditions every channel of its range: the filter pair of the
    channel is called on the field of the channel, the result is shifted
    into the buffer of the channel and the curve is redrawn; the channels
    outside the range are left as they were. *)
Lemma filter_loop_channels (n L : nat) (vs : list float) (rng : list nat) :
  forall (acc : list float) (s : SignalVisualizer),
  signal_wf n L s -> 1 <= L -> length vs = n ->
  NoDup rng -> (forall i, In i rng -> i < n) ->
  exists fv s' o,
    filter_loop rng vs acc s = (Ok (acc ++ fv), s', o)
    /\ length fv = length rng
    /\ (forall k i x p buf,
          rng !! k = Some i -> vs !! i = Some x ->
          filters s !! i = Some p -> data s !! i = Some buf ->
          exists z p',
            chain_call p x = (Ok z, p')
            /\ fv !! k = Some z
            /\ filters s' !! i = Some p'
            /\ data s' !! i = Some (drop 1 buf ++ [z])
            /\ In (SetData i (drop 1 buf ++ [z])) o)
    /\ (forall j, ~ In j rng ->
          filters s' !! j = filters s !! j /\ data s' !! j = data s !! j).
Proof.
  intros acc s W HL Hvs Hnd Hrng. revert acc s W Hnd Hrng.
  induction rng as [|i rng IH]; intros acc s W Hnd Hrng.
  - exists [], s, []. simpl. rewrite app_nil_r. repeat split; try reflexivity.
    intros k i x p buf Hk. discriminate.
  - assert (Hi : i < n) by (apply Hrng; left; reflexivity).
    destruct (lookup_lt_is_Some_2 vs i ltac:(lia)) as [x Hx].
    destruct (lookup_lt_is_Some_2 (filters s) i ltac:(rewrite (swf_filters_len _ _ _ W); lia))
      as [p Hp].
    destruct (lookup_lt_is_Some_2 (data s) i ltac:(rewrite (swf_data _ _ _ W); lia))
      as [buf Hb].
    destruct (signal_wf_filter _ _ _ _ _ W Hp) as [P1 P2].
    pose proof (signal_wf_buffer _ _ _ _ _ W Hb) as Hlen.
    assert (Hne : buf <> []) by (intros ->; simpl in Hlen; lia).
    destruct (chain_call_wf p x P1 P2) as (z & p' & Hc & P1' & P2').
    pose proof (condition_channel_eq vs i s x z p p' buf Hx Hp Hb Hne Hc) as E.
    pose proof (condition_channel_wf n L vs i s W) as W1. rewrite E in W1. simpl in W1.
    apply NoDup_cons in Hnd. destruct Hnd as [Hni Hnd].
    destruct (IH (acc ++ [z]) _ W1 Hnd (fun j Hj => Hrng j (or_intror Hj)))
      as (fv & s' & o & El & Hfl & Hch & Hout).
    exists (z :: fv), s', (SetData i (drop 1 buf ++ [z]) :: o).
    split.
    { simpl. unfold bind. rewrite E, El. rewrite <- app_assoc. reflexivity. }
    split; [simpl; congruence|].
    assert (Hni' : ~ In i rng) by (intros Hin; apply Hni, list_elem_of_In; exact Hin).
    split.
    + intros k j x0 p0 buf0 Hk Hx0 Hp0 Hb0. destruct k as [|k]; simpl in Hk.
      * injection Hk as <-. rewrite Hx in Hx0. rewrite Hp in Hp0. rewrite Hb in Hb0.
        injection Hx0 as <-. injection Hp0 as <-. injection Hb0 as <-.
        exists z, p'. split; [exact Hc|]. split; [reflexivity|].
        destruct (Hout i Hni') as [O1 O2]. simpl in O1, O2.
        rewrite O1, O2.
        split; [apply list_lookup_insert_eq; eapply lookup_lt_Some; eassumption|].
        split; [apply list_lookup_insert_eq; eapply lookup_lt_Some; eassumption|].
        left. reflexivity.
      * assert (Hji : i <> j).
        { intros ->. apply Hni'. apply list_elem_of_In.
          eapply list_elem_of_lookup_2. exact Hk. }
        destruct (Hch k j x0 p0 buf0 Hk Hx0) as (z0 & p0' & C1 & C2 & C3 & C4 & C5).
        { simpl. rewrite list_lookup_insert_ne by exact Hji. exact Hp0. }
        { simpl. rewrite list_lookup_insert_ne by exact Hji. exact Hb0. }
        exists z0, p0'. repeat split; try assumption. right. exact C5.
    + intros j Hj.
      assert (Hji : i <> j) by (intros ->; apply Hj; left; reflexivity).
      destruct (Hout j (fun Hin => Hj (or_intror Hin))) as [O1 O2].
      simpl in O1, O2. rewrite O1, O2.
      rewrite !list_lookup_insert_ne by exact Hji. split; reflexivity.
Qed.

(** After warm-up, a record of as many numbers as there are channels goes
    through the filter loop, followed by the detection step when the loop
    did not raise. *)
Lemma update_record `{Externals} (now : Q) (line : string) (sink : res unit) (s : SignalVisualizer)
    (vs : list float) :
  initial_delay_complete s = true ->
  is_blank line = false ->
  parse_fields (split_tab line) = Ok vs ->
  length vs = num_channels s ->
  update now line sink s
  = let '(r1, s1, o1) := filter_loop (seq 0 (num_channels s)) vs [] s in
    match r1 with
    | Raise e => after_filters o1 (Raise e, s1, [])
    | Ok fv =>
        after_filters o1
          ((if ready_for_operation s1 then ready_detect now vs fv sink
            else countdown_detect now vs fv) s1)
    end.
Proof.
  intros Hidc Hblank Hp Hlen. unfold update. rewrite bind_gets, Hidc, Hblank. cbn [negb].
  unfold try_except_ValueError, process_record.
  rewrite Hp, bind_lift_ok, bind_gets, Hlen, Nat.eqb_refl. cbn [negb].
  rewrite bind_ret, bind_gets, bind_unfold.
  destruct (filter_loop (seq 0 (num_channels s)) vs [] s) as [[r1 s1] o1].
  destruct r1 as [fv|e].
  2:{ unfold after_filters. destruct e; simpl; rewrite ?app_nil_r; reflexivity. }
  rewrite bind_gets. unfold after_filters.
  destruct (ready_for_operation s1); simpl.
  - destruct (ready_detect now vs fv sink s1) as [[r2 s2] o2].
    destruct r2 as [[]|e]; [reflexivity|].
    destruct e; simpl; rewrite <- ?app_assoc; reflexivity.
  - destruct (countdown_detect now vs fv s1) as [[r2 s2] o2].
    destruct r2 as [[]|e]; [reflexivity|].
    destruct e; simpl; rewrite <- ?app_assoc; reflexivity.
Qed.

(** After warm-up, [update] either returns at once (blank line, malformed
    record) or handles a record as above. *)
Lemma update_loop `{Externals} (now : Q) (line : string) (sink : res unit) (s : SignalVisualizer) :
  initial_delay_complete s = true ->
  (exists o, update now line sink s = (Ok tt, s, o) /\ forallb is_quiet o = true)
  \/ (exists vs,
        is_blank line = false
        /\ parse_fields (split_tab line) = Ok vs
        /\ length vs = num_channels s).
Proof.
  intros Hidc.
  destruct (is_blank line) eqn:Hblank.
  { left. unfold update. rewrite bind_gets, Hidc, Hblank. cbn [negb].
    eexists. split; reflexivity. }
  destruct (parse_fields (split_tab line)) as [vs|e] eqn:Hp.
  2:{ left. unfold update. rewrite bind_gets, Hidc, Hblank. cbn [negb].
      unfold try_except_ValueError, process_record. rewrite Hp.
      destruct (parse_fields_raise _ _ Hp) as (fld & -> & _).
      rewrite bind_lift_raise. eexists. split; reflexivity. }
  destruct (length vs =? num_channels s) eqn:Hlen.
  2:{ left. unfold update. rewrite bind_gets, Hidc, Hblank. cbn [negb].
      unfold try_except_ValueError, process_record.
      rewrite Hp, bind_lift_ok, bind_gets, Hlen. cbn [negb].
      rewrite bind_raise. eexists. split; reflexivity. }
  apply Nat.eqb_eq in Hlen. right. exists vs. auto.
Qed.

(** The detection step leaves the signal path alone. *)
Lemma detect_keeps_signal (now : Q) (vs fv : list float) (sink : res unit)
    (o1 : list effect)
    (s1 : SignalVisualizer) :
  let '(r, s2, o) :=
    after_filters o1
      ((if ready_for_operation s1 then ready_detect now vs fv sink
        else countdown_detect now vs fv) s1) in
  num_channels s2 = num_channels s1 /\ data s2 = data s1 /\ filters s2 = filters s1
  /\ exists o2, o = o1 ++ o2.
Proof.
  unfold after_filters.
  destruct (ready_for_operation s1) eqn:Hr; detect_cases;
    repeat split; eexists; try reflexivity; rewrite ?app_nil_r; reflexivity.
Qed.

Lemma deliver_signal_wf `{Externals} (n L : nat) (i : input) (s : SignalVisualizer) :
  signal_wf n L s -> signal_wf n L (deliver i s).1.2.
Proof.
  intros W. destruct i as [now line sink| |].
  - simpl. destruct (initial_delay_complete s) eqn:Hidc.
    + destruct (update_loop now line sink s Hidc) as [(o & -> & _)|(vs & Hb & Hp & Hl)];
        [exact W|].
      rewrite (update_record now line sink s vs Hidc Hb Hp Hl).
      pose proof (filter_loop_wf n L (seq 0 (num_channels s)) vs [] s W) as W1.
      destruct (filter_loop (seq 0 (num_channels s)) vs [] s) as [[r1 s1] o1].
      simpl in W1. destruct r1 as [fv|e].
      * pose proof (detect_keeps_signal now vs fv sink o1 s1) as D.
        destruct (after_filters o1 _) as [[r s2] o].
        destruct D as (D1 & D2 & D3 & _). simpl.
        exact (signal_wf_kept n L s1 s2 W1 D1 D2 D3).
      * unfold after_filters. destruct e; exact W1.
    + unfold update, start_initial_countdown. unfold_monad. simpl. rewrite Hidc. simpl.
      destruct (Qle_bool initial_delay (now - start_time s)); simpl;
        (eapply signal_wf_kept; [exact W|reflexivity..]).
  - unfold deliver, update_initial_countdown. detect_cases;
      (eapply signal_wf_kept; [exact W|reflexivity..]).
  - unfold deliver, update_countdown. detect_cases;
      (eapply signal_wf_kept; [exact W|reflexivity..]).
Qed.

Lemma run_signal_wf `{Externals} (n L : nat) (halt : bool) (ins : list input) :
  forall s : SignalVisualizer, signal_wf n L s -> signal_wf n L (run halt ins s).2.
Proof.
  induction ins as [|i ins IH]; intros s W; simpl; [exact W|].
  pose proof (deliver_signal_wf n L i s W) as W1.
  destruct (deliver i s) as [[r s1] o]. simpl in W1.
  destruct (halt && is_raise r); simpl; [exact W1|].
  specialize (IH s1 W1). destruct (run halt ins s1) as [ds s2]. exact IH.
Qed.

Lemma create_filters_wf `{Externals} (p : LiveLFilter * LiveLFilter) :
  create_filters = Ok p -> filter_wf (fst p) /\ filter_wf (snd p).
Proof.
  unfold create_filters.
  destruct (LiveLFilter_init iirfilter_bandpass.1 iirfilter_bandpass.2) as [f1|] eqn:E1;
    [|discriminate].
  destruct (LiveLFilter_init iirfilter_bandstop.1 iirfilter_bandstop.2) as [f2|] eqn:E2;
    [|discriminate].
  intros [= <-]. simpl.
  split; [exact (proj1 (LiveLFilter_init_wf _ _ _ E1))
         | exact (proj1 (LiveLFilter_init_wf _ _ _ E2))].
Qed.

Lemma create_all_filters_wf `{Externals} (n : nat) :
  forall fs, create_all_filters n = Ok fs ->
  length fs = n /\ Forall (fun p => filter_wf (fst p) /\ filter_wf (snd p)) fs.
Proof.
  induction n as [|n IH]; simpl; intros fs.
  - intros [= <-]. split; [reflexivity|constructor].
  - destruct create_filters as [p|] eqn:Ep; [|discriminate].
    destruct (create_all_filters n) as [ps|]; [|discriminate].
    intros [= <-]. destruct (IH ps eq_refl) as [I1 I2].
    split; [simpl; congruence|]. constructor; [|exact I2].
    exact (create_filters_wf p Ep).
Qed.

Lemma init_signal_wf `{Externals} (channels data_length : nat) (t0 : Q)
    (s0 : SignalVisualizer) :
  SignalVisualizer_init channels data_length t0 = Ok s0 ->
  signal_wf channels data_length s0.
Proof.
  unfold SignalVisualizer_init.
  destruct (create_all_filters channels) as [fs|] eqn:E; [|discriminate].
  intros [= <-]. destruct (create_all_filters_wf _ _ E) as [F1 F2].
  constructor; simpl; try assumption; try reflexivity.
  - apply length_replicate.
  - apply Forall_replicate. apply length_replicate.
Qed.

(** X8: throughout a session the signal path keeps the shape [__init__]
    gave it: one display buffer of [data_length] samples and one pair of
    filters per channel, every filter with delay lines of the lengths of its
    coefficient vectors (the precondition of the filter step). *)
Theorem signal_path_well_formed `{Externals} (halt : bool)
    (channels data_length : nat) (t0 : Q) (s0 : SignalVisualizer) (ins : list input) :
  SignalVisualizer_init channels data_length t0 = Ok s0 ->
  signal_wf channels data_length (run halt ins s0).2.
Proof.
  intros Hinit. apply run_signal_wf. exact (init_signal_wf _ _ _ _ Hinit).
Qed.

(** Witness of X8: two channels after the demonstration session. *)
Lemma signal_path_well_formed_witness :
  signal_wf 2 3 (run true Demo.session_inputs (Demo.fresh 2)).2.
Proof.
  exact (signal_path_well_formed true 2 3 0%Q (Demo.fresh 2) Demo.session_inputs eq_refl).
Defined.

(** X9: after warm-up, a record of as many numbers as there are channels
    conditions every channel on its own: the filter pair of channel [i] is
    called on field [i] (band-pass, then band-stop) and does not raise, the
    result is shifted into the display buffer of channel [i], whose oldest
    sample is dropped, and the curve [i] is redrawn with that buffer,
    whatever the detection step does afterwards. *)
Theorem update_conditions_channels `{Externals} (n L : nat) (now : Q) (line : string)
    (sink : res unit)
    (s : SignalVisualizer) (vs : list float) :
  signal_wf n L s -> 1 <= L ->
  initial_delay_complete s = true ->
  is_blank line = false ->
  parse_fields (split_tab line) = Ok vs ->
  length vs = n ->
  let '(r, s', o) := update now line sink s in
  forall i x p buf,
    vs !! i = Some x -> filters s !! i = Some p -> data s !! i = Some buf ->
    exists z p',
      chain_call p x = (Ok z, p')
      /\ filters s' !! i = Some p'
      /\ data s' !! i = Some (drop 1 buf ++ [z])
      /\ In (SetData i (drop 1 buf ++ [z])) o.
Proof.
  intros W HL Hidc Hblank Hp Hlen.
  pose proof (swf_channels _ _ _ W) as Hn.
  rewrite (update_record now line sink s vs Hidc Hblank Hp) by congruence.
  rewrite Hn.
  destruct (filter_loop_channels n L vs (seq 0 n) [] s W HL Hlen (NoDup_seq 0 n))
    as (fv & s1 & o1 & -> & _ & Hch & _).
  { intros i Hi. apply in_seq in Hi. lia. }
  simpl.
  pose proof (detect_keeps_signal now vs fv sink o1 s1) as D.
  destruct (after_filters o1 _) as [[r s2] o].
  destruct D as (_ & D2 & D3 & o2 & ->).
  intros i x p buf Hx Hp0 Hb.
  destruct (Hch i i x p buf) as (z & p' & C1 & _ & C3 & C4 & C5); try assumption.
  { apply lookup_seq. split; [reflexivity|]. apply lookup_lt_Some in Hx. lia. }
  exists z, p'. rewrite D2, D3. repeat split; try assumption.
  apply in_or_app. left. exact C5.
Qed.

Lemma chain_wf : filter_wf (fst Demo.chain) /\ filter_wf (snd Demo.chain).
Proof. split; constructor; simpl; try reflexivity; discriminate. Qed.

Lemma armed_signal_wf (n : nat) (lpt lbt : Q) (k : nat) :
  signal_wf n 3 (Demo.armed n lpt lbt k).
Proof.
  constructor; simpl.
  - reflexivity.
  - apply length_replicate.
  - apply Forall_replicate. reflexivity.
  - apply length_replicate.
  - apply Forall_replicate. exact chain_wf.
Qed.

(** Witness of X9: two channels in Ready, the record "5<TAB>200". *)
Lemma update_conditions_channels_witness :
  let s := Demo.armed 2 0 0 0 in
  let line := Demo.tabbed "5" "200" in
  let '(r, s', o) := update 10%Q line returns s in
  data s' = [[0; 0; 2.5]; [0; 0; 100]]%float
  /\ forall i x p buf,
       [5%float; 200%float] !! i = Some x ->
       filters s !! i = Some p -> data s !! i = Some buf ->
       exists z p',
         chain_call p x = (Ok z, p')
         /\ filters s' !! i = Some p'
         /\ data s' !! i = Some (drop 1 buf ++ [z])
         /\ In (SetData i (drop 1 buf ++ [z])) o.
Proof.
  intros s line.
  assert (Hp : parse_fields (split_tab line) = Ok [5%float; 200%float])
    by (vm_compute; reflexivity).
  pose proof (update_conditions_channels 2 3 10%Q line returns s [5%float; 200%float]
                (armed_signal_wf 2 0 0 0) ltac:(lia) eq_refl eq_refl Hp eq_refl) as W.
  revert W. destruct (update 10%Q line returns s) as [[r s'] o] eqn:E.
  intros W. split; [|exact W].
  assert (Hd : data (update 10%Q line returns s).1.2 = [[0; 0; 2.5]; [0; 0; 100]]%float)
    by (vm_compute; reflexivity).
  rewrite E in Hd. exact Hd.
Defined.

(** ** Exceptions that leave a slot *)

Ltac outcome_facts :=
  inv_open;
  unfold expected_outcome; simpl;
  try exact I;
  first
    [ solve [ left; split; [reflexivity|]; split; [do 3 eexists; reflexivity|];
              intros ? ?; in_effects ]
    | solve [ right; left; split; reflexivity ]
    | solve [ right; right; do 4 eexists; split; [reflexivity|];
              match goal with
              | |- ?o1 ++ [?a; ?b; ?c] = _ => exact (app_assoc o1 [a; b] [c])
              end ]
    | idtac ].

Lemma detect_outcome (now : Q) (line : string) (sink : res unit) (vs fv : list float)
    (o1 : list effect) (s1 : SignalVisualizer) :
  initial_delay_complete s1 = true ->
  forallb is_quiet o1 = true ->
  let '(r, s2, o) :=
    after_filters o1
      ((if ready_for_operation s1 then ready_detect now vs fv sink
        else countdown_detect now vs fv) s1) in
  forall m, arming_inv s1 m ->
  expected_outcome (MkDelivery (DataReady now line sink) r o).
Proof.
  intros Hidc1 Q. unfold after_filters.
  destruct (ready_for_operation s1) eqn:Hr; detect_cases; outcome_facts.
Qed.

Lemma deliver_outcome `{Externals} (n L : nat) (i : input) (s : SignalVisualizer) :
  signal_wf n L s -> 1 <= L ->
  let '(r, s', o) := deliver i s in
  forall m, arming_inv s m -> expected_outcome (MkDelivery i r o).
Proof.
  intros W HL. destruct i as [now line sink| |].
  - simpl. destruct (initial_delay_complete s) eqn:Hidc.
    + destruct (update_loop now line sink s Hidc) as [(o & -> & _)|(vs & Hb & Hp & Hl)].
      { intros m K. exact I. }
      rewrite (update_record now line sink s vs Hidc Hb Hp Hl).
      pose proof (swf_channels _ _ _ W) as Hn. rewrite Hn in *.
      pose proof (filter_loop_frame (seq 0 n) vs [] s) as F.
      destruct (filter_loop_channels n L vs (seq 0 n) [] s W HL Hl (NoDup_seq 0 n))
        as (fv & s1 & o1 & El & _).
      { intros i Hi. apply in_seq in Hi. lia. }
      rewrite El in *. destruct F as [F Q]. simpl.
      assert (Hidc1 : initial_delay_complete s1 = true).
      { destruct (signal_only_fields _ _ F) as (_ & _ & _ & _ & E & _). congruence. }
      pose proof (detect_outcome now line sink vs fv o1 s1 Hidc1 Q) as D.
      destruct (after_filters o1 _) as [[r s2] o].
      intros m K. apply (D m).
      unfold arming_inv in *. revert K. signal_to_new F. exact (fun K => K).
    + unfold update, start_initial_countdown. unfold_monad. simpl. rewrite Hidc. simpl.
      destruct (Qle_bool initial_delay (now - start_time s)); simpl; intros m K; exact I.
  - unfold deliver, update_initial_countdown. detect_cases; outcome_facts.
  - unfold deliver, update_countdown. detect_cases; outcome_facts.
Qed.

Lemma run_outcome `{Externals} (n L : nat) (halt : bool) (ins : list input) :
  forall (s : SignalVisualizer) (m : nat),
  signal_wf n L s -> 1 <= L -> arming_inv s m ->
  Forall expected_outcome (run halt ins s).1.
Proof.
  induction ins as [|i ins IH]; intros s m W HL K; simpl; [constructor|].
  pose proof (deliver_outcome n L i s W HL) as D.
  pose proof (deliver_signal_wf n L i s W) as W1.
  pose proof (deliver_arming_inv i s) as K1.
  destruct (deliver i s) as [[r s1] o]. simpl in W1.
  specialize (D m K). specialize (K1 m K).
  destruct (halt && is_raise r); simpl; [repeat constructor; exact D|].
  specialize (IH s1 _ W1 HL K1). destruct (run halt ins s1) as [ds s2].
  constructor; assumption.
Qed.

(** X10: in a session of an object with display buffers that are not
    empty, an exception leaves a slot in three ways only: [StopIteration] out
    of the trigger selection of [update], before any command is passed on;
    [TypeError] out of [update_initial_countdown]; and what the body of
    [send_command] raises, out of [update], the call of [send_command] being
    the last thing the slot did.  The code of the slots raises nothing else:
    no [ValueError], [IndexError] or [AttributeError] of its own escapes, and
    a tick of the countdown timer never raises. *)
Theorem slot_exceptions `{Externals} (halt : bool)
    (channels data_length : nat) (t0 : Q) (s0 : SignalVisualizer) (ins : list input)
    (d : delivery) :
  SignalVisualizer_init channels data_length t0 = Ok s0 ->
  1 <= data_length ->
  In d (run halt ins s0).1 ->
  match dl_result d with
  | Ok _ => True
  | Raise e =>
      (e = StopIteration
       /\ (exists now line sink, dl_input d = DataReady now line sink)
       /\ forall c, ~ In (SendCommand c) (dl_effects d))
      \/ (e = TypeError /\ dl_input d = InitialCountdownTimeout)
      \/ (exists now line c pre,
            dl_input d = DataReady now line (Raise e)
            /\ dl_effects d = pre ++ [SendCommand c])
  end.
Proof.
  intros Hinit HL Hd.
  pose proof (run_outcome channels data_length halt ins s0 0
                (init_signal_wf _ _ _ _ Hinit) HL (init_arming_inv _ _ _ _ Hinit)) as R.
  rewrite List.Forall_forall in R. exact (R d Hd).
Qed.

(** Witness of X10: the third tick of an Initial countdown in which
    nothing was recorded raises [TypeError]; the select that reaches the
    launcher's Exit button leaves [update] with the [TclError] of line
    1897. *)
Lemma slot_exceptions_witness :
  (In Sessions.failed_tick
      (run true (Sessions.warm_up_inputs ++ Sessions.three_ticks) (Demo.fresh 1)).1
   /\ expected_outcome Sessions.failed_tick)
  /\ (In Sessions.exit_select (run false Sessions.exit_inputs (Demo.fresh 1)).1
      /\ dl_result Sessions.exit_select = Raise TclError
      /\ expected_outcome Sessions.exit_select).
Proof.
  assert (Hin : In Sessions.failed_tick
                  (run true (Sessions.warm_up_inputs ++ Sessions.three_ticks)
                     (Demo.fresh 1)).1).
  { vm_compute. auto 10. }
  assert (Hex : In Sessions.exit_select
                  (run false Sessions.exit_inputs (Demo.fresh 1)).1).
  { vm_compute. auto 20. }
  split; [split; [exact Hin|]|split; [exact Hex|split; [reflexivity|]]].
  - exact (slot_exceptions (H := Demo.externals) true 1 3 0%Q (Demo.fresh 1)
             (Sessions.warm_up_inputs ++ Sessions.three_ticks) Sessions.failed_tick
             eq_refl ltac:(lia) Hin).
  - exact (slot_exceptions (H := Demo.externals) false 1 3 0%Q (Demo.fresh 1)
             Sessions.exit_inputs Sessions.exit_select eq_refl ltac:(lia) Hex).
Defined.

(** ** The last tick of the Initial countdown *)

Ltac exit_facts :=
  inv_open;
  repeat match goal with
    | |- _ -> _ => intro
    end;
  simpl in *;
  repeat match goal with
    | Hlt : (_ <? _)%Z = false |- _ => apply Z.ltb_ge in Hlt
    | Hlt : (_ <? _)%Z = true |- _ => apply Z.ltb_lt in Hlt
    end;
  try discriminate; try congruence; try lia;
  repeat match goal with
    | |- _ /\ _ => split
    end;
  simpl; try reflexivity; try congruence; try lia; auto 10.

Lemma deliver_final_tick `{Externals} (s : SignalVisualizer) :
  let '(r, s', o) := deliver InitialCountdownTimeout s in
  forall m, arming_inv s m ->
  initial_delay_complete s = true ->
  ready_for_operation s = false ->
  initial_countdown_remaining s = 1%Z ->
  ready_for_operation s' = true
  /\ initial_countdown_timer s' = false
  /\ In (SetLabel TimerReady) o
  /\ r = (if m =? 0 then Raise TypeError else Ok tt).
Proof.
  unfold deliver, update_initial_countdown. detect_cases; exit_facts.
Qed.

(** X11: the last tick of the Initial countdown stops its timer, shows
    "Timer: Ready" and sets [ready_for_operation]; it then raises [TypeError]
    exactly when no event was recorded during the Initial countdown, and
    returns normally otherwise.  Either way the object is in Ready. *)
Theorem initial_countdown_exit `{Externals} (halt : bool)
    (channels data_length : nat) (t0 : Q) (s0 : SignalVisualizer) (ins : list input) :
  SignalVisualizer_init channels data_length t0 = Ok s0 ->
  let '(ds, s) := run halt ins s0 in
  initial_delay_complete s = true ->
  ready_for_operation s = false ->
  initial_countdown_remaining s = 1%Z ->
  let '(r, s', o) := deliver InitialCountdownTimeout s in
  ready_for_operation s' = true
  /\ initial_countdown_timer s' = false
  /\ In (SetLabel TimerReady) o
  /\ r = (if count_matches (effects_of ds) =? 0 then Raise TypeError else Ok tt).
Proof.
  intros Hinit.
  pose proof (run_arming_inv halt ins s0 0 (init_arming_inv _ _ _ _ Hinit)) as K.
  destruct (run halt ins s0) as [ds s]. simpl in K.
  pose proof (deliver_final_tick s) as D.
  destruct (deliver InitialCountdownTimeout s) as [[r s'] o].
  intros Hidc Hr Hone. exact (D _ K Hidc Hr Hone).
Qed.

(** Witness of X11: one select was recorded during the countdown, so the
    last tick returns. *)
Lemma initial_countdown_exit_witness :
  let '(ds, s) := run true Demo.countdown_inputs (Demo.fresh 1) in
  let '(r, s', o) := deliver InitialCountdownTimeout s in
  initial_delay_complete s = true
  /\ ready_for_operation s = false
  /\ initial_countdown_remaining s = 1%Z
  /\ count_matches (effects_of ds) = 1
  /\ ready_for_operation s' = true
  /\ initial_countdown_timer s' = false
  /\ In (SetLabel TimerReady) o
  /\ r = (if count_matches (effects_of ds) =? 0 then Raise TypeError else Ok tt).
Proof.
  generalize (initial_countdown_exit true 1 3 0%Q (Demo.fresh 1) Demo.countdown_inputs).
  vm_compute. intros W.
  split; [reflexivity|]. split; [reflexivity|]. split; [reflexivity|].
  split; [reflexivity|]. exact (W eq_refl eq_refl eq_refl eq_refl).
Defined.

(** ** A record with a NaN *)

Lemma chain_call_nan (p : LiveLFilter * LiveLFilter) (x : float) :
  np_isnan x = true -> chain_call p x = (Ok x, p).
Proof.
  intros N. unfold chain_call, process. rewrite N. rewrite N. destruct p; reflexivity.
Qed.

Lemma forallb_lookup_false {A : Type} (f : A -> bool) (l : list A) (k : nat) (x : A) :
  l !! k = Some x -> f x = false -> forallb f l = false.
Proof.
  revert k. induction l as [|y l IH]; intros [|k] Hk Hx; simpl in *; try discriminate.
  - injection Hk as ->. rewrite Hx. reflexivity.
  - rewrite (IH k Hk Hx). apply andb_false_r.
Qed.

Ltac nan_facts :=
  cbv beta; simpl;
  rewrite ?fired_app;
  repeat match goal with
    | Q : forallb is_quiet ?o = true |- context [fired ?c ?o] =>
        rewrite (quiet_not_fired c o Q)
    end;
  unfold fired; simpl;
  repeat match goal with
    | |- _ /\ _ => split
    | |- ~ _ => intros ?
    | |- _ -> _ => intro
    end;
  in_effects;
  try discriminate; try congruence; try reflexivity; try assumption.

Lemma detect_not_open (now : Q) (vs fv : list float) (sink : res unit)
    (o1 : list effect)
    (s1 : SignalVisualizer) :
  forallb in_eye_open fv = false ->
  forallb is_quiet o1 = true ->
  let '(r, s2, o) :=
    after_filters o1
      ((if ready_for_operation s1 then ready_detect now vs fv sink
        else countdown_detect now vs fv) s1) in
  fired select o = false
  /\ ~ In (SendCommand select) o
  /\ (forall v, ~ In (Print (DetectedDuringCountdown select v)) o)
  /\ (potential_command s2 = Some select -> potential_command s1 = Some select).
Proof.
  intros Hopen Q. unfold after_filters.
  destruct (ready_for_operation s1) eqn:Hr; detect_unfold; rewrite Hopen;
    detect_split; nan_facts.
Qed.

(** X12: after warm-up, a record of as many numbers as there are channels
    with a NaN in some field is never taken for open eyes: the call neither
    fires nor sends a select, and records none during the Initial countdown
    (a select that is pending afterwards was pending before). *)
Theorem nan_record_never_selects `{Externals} (n L : nat) (now : Q) (line : string)
    (sink : res unit)
    (s : SignalVisualizer) (vs : list float) (i : nat) (x : float) :
  signal_wf n L s -> 1 <= L ->
  initial_delay_complete s = true ->
  is_blank line = false ->
  parse_fields (split_tab line) = Ok vs ->
  length vs = n ->
  vs !! i = Some x ->
  np_isnan x = true ->
  let '(r, s', o) := update now line sink s in
  fired select o = false
  /\ ~ In (SendCommand select) o
  /\ (forall v, ~ In (Print (DetectedDuringCountdown select v)) o)
  /\ (potential_command s' = Some select -> potential_command s = Some select).
Proof.
  intros W HL Hidc Hblank Hp Hlen Hx N.
  pose proof (swf_channels _ _ _ W) as Hn.
  rewrite (update_record now line sink s vs Hidc Hblank Hp) by congruence.
  rewrite Hn.
  pose proof (filter_loop_frame (seq 0 n) vs [] s) as F.
  destruct (filter_loop_channels n L vs (seq 0 n) [] s W HL Hlen (NoDup_seq 0 n))
    as (fv & s1 & o1 & El & _ & Hch & _).
  { intros j Hj. apply in_seq in Hj. lia. }
  rewrite El in *. destruct F as [F Q]. simpl.
  assert (Hi : i < n) by (apply lookup_lt_Some in Hx; lia).
  destruct (lookup_lt_is_Some_2 (filters s) i ltac:(rewrite (swf_filters_len _ _ _ W); lia))
    as [p Hpi].
  destruct (lookup_lt_is_Some_2 (data s) i ltac:(rewrite (swf_data _ _ _ W); lia))
    as [buf Hb].
  destruct (Hch i i x p buf) as (z & p' & C1 & C2 & _); try assumption.
  { apply lookup_seq. split; [reflexivity|exact Hi]. }
  rewrite (chain_call_nan p x N) in C1. injection C1 as <- <-.
  assert (Hopen : forallb in_eye_open fv = false).
  { eapply forallb_lookup_false; [exact C2|]. exact (proj1 (nan_in_no_band x N)). }
  pose proof (detect_not_open now vs fv sink o1 s1 Hopen Q) as D.
  destruct (after_filters o1 _) as [[r s2] o].
  destruct (signal_only_fields _ _ F) as (_ & _ & _ & _ & _ & _ & _ & _ & _ & _ & E & _).
  rewrite <- E. exact D.
Qed.

(** Witness of X12: two channels in Ready, the record "nan<TAB>5". *)
Lemma nan_record_never_selects_witness :
  let s := Demo.armed 2 0 0 2 in
  let line := Demo.tabbed "nan" "5" in
  let '(r, s', o) := update 10%Q line returns s in
  fired select o = false
  /\ ~ In (SendCommand select) o
  /\ (forall v, ~ In (Print (DetectedDuringCountdown select v)) o)
  /\ (potential_command s' = Some select -> potential_command s = Some select).
Proof.
  intros s line.
  assert (Hp : parse_fields (split_tab line) = Ok [PrimFloat.nan; 5%float])
    by (vm_compute; reflexivity).
  exact (nan_record_never_selects 2 3 10%Q line returns s [PrimFloat.nan; 5%float] 0 PrimFloat.nan
           (armed_signal_wf 2 0 0 2) ltac:(lia) eq_refl eq_refl Hp eq_refl eq_refl eq_refl).
Defined.

(** ** The countdown after a fired event *)

Lemma count_countdown_ticks_cons (d : delivery) (ds : list delivery) :
  count_countdown_ticks (d :: ds)
  = (if is_countdown_tick d then 1 else 0) + count_countdown_ticks ds.
Proof. unfold count_countdown_ticks. simpl. destruct (is_countdown_tick d); reflexivity. Qed.

Lemma quiet_no_send_call (o : list effect) :
  forallb is_quiet o = true -> existsb is_send o = false.
Proof.
  induction o as [|e o IH]; simpl; [reflexivity|].
  intros Hq. apply andb_prop in Hq as [He Ho].
  destruct e as [[]| | | |]; simpl in *; try discriminate; auto.
Qed.

Ltac countdown_facts :=
  inv_open;
  unfold countdown_restart, send_raised;
  rewrite ?existsb_app;
  repeat match goal with
    | Q : forallb is_quiet ?o = true |- context [existsb is_send ?o] =>
        rewrite (quiet_no_send_call o Q)
    end;
  simpl;
  repeat match goal with
    | |- _ /\ _ => split
    | |- _ -> _ => intro
    | |- forall _, _ => intro
    | |- ~ _ => intro
    end;
  repeat match goal with
    | Hx : context [existsb is_log (_ ++ _)] |- _ => rewrite existsb_app in Hx
    | Q : forallb is_quiet ?o = true, Hx : context [existsb is_log ?o] |- _ =>
        rewrite (quiet_no_log o Q) in Hx
    end;
  simpl in *; try discriminate;
  repeat match goal with
    | Hp : ?x = ?x -> _ |- _ => specialize (Hp eq_refl)
    | Hp : ?A -> _, Ha : ?A |- _ => specialize (Hp Ha)
    end;
  repeat match goal with
    | |- context [(?a =? ?b)%Z] => destruct (Z.eqb_spec a b)
    end;
  repeat match goal with
    | Hlt : (_ <? _)%Z = false |- _ => apply Z.ltb_ge in Hlt
    | Hlt : (_ <? _)%Z = true |- _ => apply Z.ltb_lt in Hlt
    end;
  repeat match goal with
    | |- _ /\ _ => split
    end;
  try reflexivity; try congruence; try lia;
  try (apply in_or_app; right; simpl; auto 10; fail);
  try (in_effects; fail); auto 10.

(** What one delivery does to the countdown, with and without a fired
    event. *)
Lemma deliver_countdown `{Externals} (i : input) (s : SignalVisualizer) :
  let '(r, s', o) := deliver i s in
  forall m, arming_inv s m ->
  (existsb is_log o = true -> countdown_restart i r s s' o)
  /\ (existsb is_log o = false -> countdown_step i s s' o).
Proof.
  pattern i, s, (deliver i s). revert i s.
  apply deliver_cases.
  - intros s. unfold countdown_step, countdown_restart, send_raised, deliver, update_countdown.
    detect_cases; countdown_facts.
  - intros s. unfold countdown_step, countdown_restart, send_raised,
                deliver, update_initial_countdown.
    detect_cases; countdown_facts.
  - intros now line sink s Hidc. unfold countdown_step, countdown_restart, send_raised,
                                   update, start_initial_countdown.
    unfold_monad. simpl. rewrite Hidc. simpl.
    destruct (Qle_bool initial_delay (now - start_time s)); simpl; countdown_facts.
  - intros now line sink s r s1 o Hidc F Q. rewrite (quiet_no_log o Q).
    unfold countdown_step, countdown_restart, send_raised. signal_to_old F. intros m K.
    split; [discriminate|]. intros _. split; reflexivity.
  - intros now line sink s vs fv s1 o1 Hidc F Q.
    assert (Hidc1 : initial_delay_complete s1 = true).
    { destruct (signal_only_fields _ _ F) as (_ & _ & _ & _ & E & _). congruence. }
    unfold countdown_step, countdown_restart, send_raised, arming_inv. signal_to_new F.
    fold (arming_inv s1). unfold after_filters.
    destruct (ready_for_operation s1) eqn:Hr; detect_cases; countdown_facts.
Qed.

Lemma arming_inv_countdown (s : SignalVisualizer) (m : nat) :
  arming_inv s m -> countdown_timer s = true -> (1 <= countdown_remaining s <= 3)%Z.
Proof.
  unfold arming_inv. intros K Ht.
  destruct (initial_delay_complete s), (ready_for_operation s);
    intuition congruence.
Qed.

Lemma run_countdown `{Externals} (halt : bool) (ins : list input) :
  forall (s : SignalVisualizer) (m : nat),
  arming_inv s m ->
  existsb is_log (effects_of (run halt ins s).1) = false ->
  countdown_timer (run halt ins s).2
  = countdown_timer s
    && (count_countdown_ticks (run halt ins s).1 <? Z.to_nat (countdown_remaining s)).
Proof.
  induction ins as [|i ins IH]; intros s m K; simpl.
  - intros _. unfold count_countdown_ticks. simpl.
    destruct (countdown_timer s) eqn:Ht; [|reflexivity].
    pose proof (arming_inv_countdown s m K Ht) as Hk.
    symmetry. apply Nat.ltb_lt. lia.
  - pose proof (deliver_countdown i s) as D. pose proof (deliver_arming_inv i s) as A.
    destruct (deliver i s) as [[r s1] o].
    specialize (D m K). specialize (A m K).
    assert (Htick : is_countdown_tick (MkDelivery i r o)
                    = match i with CountdownTimeout => true | _ => false end)
      by reflexivity.
    pose proof (arming_inv_countdown s m K) as Hk.
    destruct (halt && is_raise r); simpl.
    + rewrite effects_of_cons. simpl. rewrite app_nil_r. intros Hlog.
      apply (proj2 D) in Hlog. clear D. rename Hlog into D. unfold countdown_step in D.
      rewrite count_countdown_ticks_cons, Htick.
      unfold count_countdown_ticks. simpl.
      destruct i.
      * destruct D as [D1 D2]. rewrite D1.
        destruct (countdown_timer s) eqn:Ht; [|reflexivity].
        symmetry. apply Nat.ltb_lt. specialize (Hk eq_refl). lia.
      * destruct D as [D1 D2]. rewrite D1.
        destruct (countdown_timer s) eqn:Ht; [|reflexivity].
        symmetry. apply Nat.ltb_lt. specialize (Hk eq_refl). lia.
      * destruct (countdown_timer s) eqn:Ht; [|exact D].
        specialize (Hk eq_refl).
        destruct (Z.eqb_spec (countdown_remaining s) 1) as [E|E].
        -- destruct D as [D _]. rewrite D, E. reflexivity.
        -- destruct D as [D _]. rewrite D. symmetry. apply Nat.ltb_lt. lia.
    + specialize (IH s1 _ A).
      destruct (run halt ins s1) as [ds s2]. simpl in *.
      rewrite effects_of_cons, existsb_app. simpl. intros Hlog.
      apply orb_false_elim in Hlog as [Hlog1 Hlog2].
      apply (proj2 D) in Hlog1. clear D. rename Hlog1 into D. unfold countdown_step in D.
      rewrite (IH Hlog2).
      rewrite count_countdown_ticks_cons, Htick.
      destruct i.
      * destruct D as [D1 D2]. rewrite D1, D2. reflexivity.
      * destruct D as [D1 D2]. rewrite D1, D2. reflexivity.
      * destruct (countdown_timer s) eqn:Ht; [|rewrite D; reflexivity].
        specialize (Hk eq_refl).
        destruct (Z.eqb_spec (countdown_remaining s) 1) as [E|E].
        -- destruct D as [D _]. rewrite D, E. reflexivity.
        -- destruct D as [D1 D2]. rewrite D1, D2. simpl.
           destruct (Nat.ltb_spec (count_countdown_ticks ds)
                       (Z.to_nat (countdown_remaining s - 1)));
             symmetry; [apply Nat.ltb_lt | apply Nat.ltb_ge]; lia.
Qed.

(** X13: over a run of deliveries in which no event fires, the countdown
    timer is still running at the end exactly when it was running at the
    start and fewer than [countdown_remaining] of its ticks were delivered:
    it stops at the tick that brings the count to 0 and is not started by
    anything but a fired event. *)
Theorem countdown_stops_after_remaining_ticks `{Externals} (halt : bool)
    (channels data_length : nat) (t0 : Q) (s0 : SignalVisualizer)
    (before after : list input) :
  SignalVisualizer_init channels data_length t0 = Ok s0 ->
  let s := (run halt before s0).2 in
  existsb is_log (effects_of (run halt after s).1) = false ->
  countdown_timer (run halt after s).2
  = countdown_timer s
    && (count_countdown_ticks (run halt after s).1 <? Z.to_nat (countdown_remaining s)).
Proof.
  intros Hinit s Hlog.
  pose proof (run_arming_inv halt before s0 0 (init_arming_inv _ _ _ _ Hinit)) as K.
  exact (run_countdown halt after s _ K Hlog).
Qed.

(** Witness of X13: three ticks after the event fired at 12 s. *)
Lemma countdown_stops_after_remaining_ticks_witness :
  let s := (run true Sessions.first_event_inputs (Demo.fresh 1)).2 in
  countdown_timer s = true
  /\ countdown_remaining s = 3%Z
  /\ countdown_timer (run true Sessions.quiet_inputs s).2 = false
  /\ countdown_timer (run true Sessions.quiet_inputs s).2
     = countdown_timer s
       && (count_countdown_ticks (run true Sessions.quiet_inputs s).1
           <? Z.to_nat (countdown_remaining s)).
Proof.
  split; [vm_compute; reflexivity|]. split; [vm_compute; reflexivity|].
  split; [vm_compute; reflexivity|].
  apply (countdown_stops_after_remaining_ticks (H := Demo.externals) true 1 3 0%Q
           (Demo.fresh 1) Sessions.first_event_inputs Sessions.quiet_inputs eq_refl).
  vm_compute. reflexivity.
Defined.

(** X14: a fired event (re)starts the countdown, whether its command was
    sent, skipped or held back by the cooldown: the slot returns, and after
    the call the countdown timer runs with 3 seconds remaining and the label
    shows them.  The one exception is a call in which the body of
    [send_command] raises: [start_countdown] stands behind that call (lines
    281 and 301), so that the countdown is left as it was and the label is
    not touched. *)
Theorem fired_event_restarts_countdown `{Externals} (halt : bool)
    (channels data_length : nat) (t0 : Q) (s0 : SignalVisualizer)
    (ins : list input) (i : input) :
  SignalVisualizer_init channels data_length t0 = Ok s0 ->
  let s := (run halt ins s0).2 in
  let '(r, s', o) := deliver i s in
  existsb is_log o = true ->
  if send_raised i o then
    countdown_timer s' = countdown_timer s
    /\ countdown_remaining s' = countdown_remaining s
    /\ forall l, ~ In (SetLabel l) o
  else
    r = Ok tt
    /\ countdown_timer s' = true /\ countdown_remaining s' = 3%Z
    /\ In (SetLabel (TimerRemaining 3)) o.
Proof.
  intros Hinit s.
  pose proof (run_arming_inv halt ins s0 0 (init_arming_inv _ _ _ _ Hinit)) as K.
  pose proof (deliver_countdown i s) as D.
  destruct (deliver i s) as [[r s'] o].
  intros Hlog. exact (proj1 (D _ K) Hlog).
Qed.

(** Witness of X14: the first event fired in Ready, at 12 s, starts the
    countdown; the select at 21 s, whose call of [send_command] raises, finds
    the countdown stopped and leaves it so. *)
Lemma fired_event_restarts_countdown_witness :
  (let '(r, s', o) :=
     deliver (DataReady 12 "250" returns)
       (run true (Demo.countdown_inputs ++ [InitialCountdownTimeout]) (Demo.fresh 1)).2 in
   existsb is_log o = true
   /\ r = Ok tt
   /\ countdown_timer s' = true /\ countdown_remaining s' = 3%Z
   /\ In (SetLabel (TimerRemaining 3)) o)
  /\ (let s := (run true Sessions.before_exit (Demo.fresh 1)).2 in
      let '(r, s', o) := deliver (DataReady 21 "5" (Raise TclError)) s in
      existsb is_log o = true
      /\ In (SendCommand select) o
      /\ r = Raise TclError
      /\ countdown_timer s = false
      /\ countdown_timer s' = countdown_timer s
      /\ countdown_remaining s' = countdown_remaining s
      /\ forall l, ~ In (SetLabel l) o).
Proof.
  split.
  - generalize (fired_event_restarts_countdown true 1 3 0%Q (Demo.fresh 1)
                  (Demo.countdown_inputs ++ [InitialCountdownTimeout])
                  (DataReady 12 "250" returns)).
    vm_compute. intros W. split; [reflexivity|]. exact (W eq_refl eq_refl).
  - generalize (fired_event_restarts_countdown true 1 3 0%Q (Demo.fresh 1)
                  Sessions.before_exit (DataReady 21 "5" (Raise TclError))).
    vm_compute. intros W. split; [reflexivity|]. split; [auto 10|].
    split; [reflexivity|]. split; [reflexivity|]. exact (W eq_refl eq_refl).
Defined.

(** * Properties of the windows *)

(** ** The cursor of a keyboard *)

Lemma length_concat_take_S (rows : list (list string)) (r : nat) (row : list string) :
  rows !! r = Some row ->
  length (concat (take (S r) rows)) = length (concat (take r rows)) + length row.
Proof.
  intros Hr. rewrite (take_S_r _ _ _ Hr), concat_app, length_app. simpl.
  rewrite app_nil_r. reflexivity.
Qed.

Lemma length_concat_take_le (rows : list (list string)) (r : nat) :
  length (concat (take r rows)) <= length (concat rows).
Proof.
  rewrite <- (take_drop r rows) at 2. rewrite concat_app, length_app. lia.
Qed.

Lemma length_concat_take_all (rows : list (list string)) (r : nat) :
  length rows <= r -> length (concat (take r rows)) = length (concat rows).
Proof. intros Hr. rewrite take_ge by exact Hr. reflexivity. Qed.

(** The key under the cursor is the key at its reading index. *)
Lemma concat_lookup_cursor (rows : list (list string)) (r p : nat)
    (row : list string) (key : string) :
  rows !! r = Some row -> row !! p = Some key ->
  concat rows !! (length (concat (take r rows)) + p) = Some key.
Proof.
  revert r. induction rows as [|row0 rows IH]; intros [|r] Hr Hp; simpl in *;
    try discriminate.
  - injection Hr as ->. rewrite lookup_app_l by (eapply lookup_lt_Some; eassumption).
    exact Hp.
  - rewrite length_app, <- Nat.add_assoc.
    rewrite lookup_app_r by lia.
    replace (length row0 + (length (concat (take r rows)) + p) - length row0)
      with (length (concat (take r rows)) + p) by lia.
    exact (IH r Hr Hp).
Qed.

Lemma on_key_reading_index (rows : list (list string)) (c : Keyboard.Cursor) :
  Keyboard.on_key rows c -> Keyboard.reading_index rows c < length (concat rows).
Proof.
  intros (row & Hr & Hp). unfold Keyboard.reading_index.
  pose proof (length_concat_take_S rows _ row Hr).
  pose proof (length_concat_take_le rows (S (Keyboard.current_row c))). lia.
Qed.

(** One step: on a layout without empty rows, [Keyboard.move_right] takes the
    cursor to the next key in reading order and from the last key to the
    first one. *)
Lemma move_right_next (rows : list (list string)) (c : Keyboard.Cursor) :
  Forall (fun row => row <> []) rows ->
  Keyboard.on_key rows c ->
  exists c', Keyboard.move_right rows c = Returns c'
             /\ Keyboard.on_key rows c'
             /\ Keyboard.reading_index rows c' = (Keyboard.reading_index rows c + 1) mod length (concat rows).
Proof.
  intros Hrows (row & Hr & Hp).
  pose proof (on_key_reading_index rows c (ex_intro _ row (conj Hr Hp))) as Hlt.
  pose proof (length_concat_take_S rows _ row Hr) as HS.
  unfold Keyboard.move_right. rewrite Hr. cbv zeta.
  destruct (Z.ltb_spec (Z.of_nat (Keyboard.current_pos c)) (Z.of_nat (length row) - 1)) as [H1|H1].
  - eexists. split; [reflexivity|]. split.
    + exists row. simpl. split; [exact Hr|lia].
    + unfold Keyboard.reading_index in *. simpl.
      pose proof (length_concat_take_le rows (S (Keyboard.current_row c))).
      rewrite Nat.mod_small by lia. lia.
  - assert (Hpos : Keyboard.current_pos c + 1 = length row) by lia.
    destruct (Z.ltb_spec (Z.of_nat (Keyboard.current_row c)) (Z.of_nat (length rows) - 1)) as [H2|H2].
    + destruct (lookup_lt_is_Some_2 rows (Keyboard.current_row c + 1) ltac:(lia)) as [row' Hr'].
      assert (Hne : row' <> []) by exact (proj1 (Forall_lookup _ _) Hrows _ _ Hr').
      eexists. split; [reflexivity|]. split.
      * exists row'. simpl. split; [exact Hr'|]. destruct row'; [contradiction|simpl; lia].
      * unfold Keyboard.reading_index in *. simpl.
        replace (Keyboard.current_row c + 1) with (S (Keyboard.current_row c)) in * by lia.
        pose proof (length_concat_take_S rows _ row' Hr') as HS'.
        pose proof (length_concat_take_le rows (S (S (Keyboard.current_row c)))).
        assert (0 < length row') by (destruct row'; [contradiction|simpl; lia]).
        rewrite Nat.mod_small by lia. lia.
    + assert (Hlast : S (Keyboard.current_row c) = length rows).
      { apply lookup_lt_Some in Hr. lia. }
      destruct rows as [|row0 rows']; [discriminate|].
      eexists. split; [reflexivity|]. split.
      * exists row0. simpl. split; [reflexivity|].
        apply Forall_cons in Hrows as [Hne _].
        destruct row0; [contradiction|simpl; lia].
      * unfold Keyboard.reading_index in *. simpl Keyboard.current_row. simpl Keyboard.current_pos.
        rewrite (length_concat_take_all _ (S (Keyboard.current_row c))) in HS by lia.
        replace (length (concat (take (Keyboard.current_row c) (row0 :: rows'))) + Keyboard.current_pos c + 1)
          with (length (concat (row0 :: rows'))) by lia.
        rewrite Nat.Div0.mod_same. reflexivity.
Qed.

Lemma move_right_modulo_eq (rows : list (list string)) (c : Keyboard.Cursor) :
  Keyboard.move_right_modulo rows c = Keyboard.move_right rows c.
Proof.
  unfold Keyboard.move_right_modulo, Keyboard.move_right.
  destruct (rows !! Keyboard.current_row c) as [row|] eqn:Hr; [|reflexivity]. cbv zeta.
  destruct (Z.of_nat (Keyboard.current_pos c) <? Z.of_nat (length row) - 1)%Z; [reflexivity|].
  apply lookup_lt_Some in Hr.
  destruct (Z.ltb_spec (Z.of_nat (Keyboard.current_row c)) (Z.of_nat (length rows) - 1)) as [H|H].
  - rewrite Nat.mod_small by lia. reflexivity.
  - replace (Keyboard.current_row c + 1) with (length rows) by lia.
    rewrite Nat.Div0.mod_same. reflexivity.
Qed.

(** X15: [VirtualKeyboard.move_right], which takes the next row modulo
    the number of rows, and the [move_right] of the three other keyboards,
    which tests for the last row, move the cursor alike: for every layout
    and every cursor, any number of calls gives the same cursor or the same
    exception. *)
Theorem move_right_variants_agree (rows : list (list string)) (n : nat) (c : Keyboard.Cursor) :
  repeat_call (Keyboard.move_right_modulo rows) n c = repeat_call (Keyboard.move_right rows) n c.
Proof.
  revert c. induction n as [|n IH]; intros c; simpl; [reflexivity|].
  rewrite move_right_modulo_eq. destruct (Keyboard.move_right rows c); [apply IH|reflexivity].
Qed.

(** Witness of X15: 60 steps over the 51 keys of the virtual keyboard. *)
Lemma move_right_variants_agree_witness :
  repeat_call (Keyboard.move_right_modulo vkb_rows) 60 (Keyboard.MkCursor 0 0)
  = repeat_call (Keyboard.move_right vkb_rows) 60 (Keyboard.MkCursor 0 0).
Proof. exact (move_right_variants_agree vkb_rows 60 (Keyboard.MkCursor 0 0)). Defined.

Lemma move_right_times (rows : list (list string)) (c : Keyboard.Cursor) (n : nat) :
  Forall (fun row => row <> []) rows ->
  Keyboard.on_key rows c ->
  exists c',
    repeat_call (Keyboard.move_right rows) n c = Returns c'
    /\ Keyboard.on_key rows c'
    /\ Keyboard.reading_index rows c' = (Keyboard.reading_index rows c + n) mod length (concat rows)
    /\ Keyboard.key_at rows c'
       = match concat rows !! ((Keyboard.reading_index rows c + n) mod length (concat rows)) with
         | Some key => Returns key
         | None => Raises IndexError
         end.
Proof.
  intros Hrows. revert c. induction n as [|n IH]; intros c Hc.
  - exists c. simpl. split; [reflexivity|]. split; [exact Hc|].
    pose proof (on_key_reading_index rows c Hc) as Hlt.
    rewrite Nat.add_0_r, Nat.mod_small by exact Hlt. split; [reflexivity|].
    destruct Hc as (row & Hr & Hp).
    destruct (lookup_lt_is_Some_2 row _ Hp) as [key Hk].
    unfold Keyboard.key_at. rewrite Hr, Hk.
    unfold Keyboard.reading_index. rewrite (concat_lookup_cursor rows _ _ row key Hr Hk).
    reflexivity.
  - destruct (move_right_next rows c Hrows Hc) as (c1 & E1 & Hc1 & I1).
    destruct (IH c1 Hc1) as (c' & E & Hc' & I & K).
    exists c'. simpl. rewrite E1. split; [exact E|]. split; [exact Hc'|].
    assert (Hidx : (Keyboard.reading_index rows c1 + n) mod length (concat rows)
                   = (Keyboard.reading_index rows c + S n) mod length (concat rows)).
    { rewrite I1. rewrite Nat.Div0.add_mod_idemp_l. f_equal. lia. }
    rewrite <- Hidx. split; assumption.
Qed.

(** X16: on a keyboard layout without empty rows, [n] calls of
    [move_right] from a cursor that is on a key do not raise and take the
    cursor [n] keys further in reading order, wrapping from the last key of
    the last row to the first key of the first row; the key that
    [select_highlighted_key] then reads is the key at that place.  Every key
    of the layout can thus be reached with move-next commands alone. *)
Theorem move_right_reading_order (rows : list (list string)) (c : Keyboard.Cursor) (n : nat) :
  Forall (fun row => row <> []) rows ->
  Keyboard.on_key rows c ->
  exists c',
    repeat_call (Keyboard.move_right rows) n c = Returns c'
    /\ Keyboard.on_key rows c'
    /\ Keyboard.reading_index rows c' = (Keyboard.reading_index rows c + n) mod length (concat rows)
    /\ Keyboard.key_at rows c'
       = match concat rows !! ((Keyboard.reading_index rows c + n) mod length (concat rows)) with
         | Some key => Returns key
         | None => Raises IndexError
         end.
Proof. exact (move_right_times rows c n). Qed.

(** None of the four layouts has an empty row. *)
Lemma mail_rows_not_empty : Forall (fun row : list string => row <> []) mail_rows.
Proof. repeat constructor; discriminate. Qed.

Lemma vkb_rows_not_empty : Forall (fun row : list string => row <> []) vkb_rows.
Proof. repeat constructor; discriminate. Qed.

Lemma vscode_rows_not_empty : Forall (fun row : list string => row <> []) vscode_rows.
Proof. repeat constructor; discriminate. Qed.

Lemma notepad_rows_not_empty : Forall (fun row : list string => row <> []) notepad_rows.
Proof. repeat constructor; discriminate. Qed.

(** Witness of X16: 70 steps over the 68 keys of the mail keyboard. *)
Lemma move_right_reading_order_witness :
  exists c',
    repeat_call (Keyboard.move_right mail_rows) 70 (Keyboard.MkCursor 0 0) = Returns c'
    /\ Keyboard.on_key mail_rows c'
    /\ Keyboard.reading_index mail_rows c'
       = (Keyboard.reading_index mail_rows (Keyboard.MkCursor 0 0) + 70)
         mod length (concat mail_rows)
    /\ Keyboard.key_at mail_rows c'
       = match concat mail_rows
               !! ((Keyboard.reading_index mail_rows (Keyboard.MkCursor 0 0) + 70)
                   mod length (concat mail_rows)) with
         | Some key => Returns key
         | None => Raises IndexError
         end.
Proof.
  apply (move_right_reading_order mail_rows (Keyboard.MkCursor 0 0) 70 mail_rows_not_empty).
  exists (nth 0 mail_rows []). split; [reflexivity|]. simpl. lia.
Defined.

(** ** Equations of the methods of the windows *)

Section GuiEquations.
Context {S A B : Type}.

Lemma gbind_unfold (m : GM S A) (k : A -> GM S B) (s : S) :
  gbind m k s
  = match m s with
    | (Returns x, s1, o1) => let '(r, s2, o2) := k x s1 in (r, s2, o1 ++ o2)
    | (Raises e, s1, o1) => (Raises e, s1, o1)
    end.
Proof. reflexivity. Qed.

Lemma gbind_ret (x : A) (k : A -> GM S B) (s : S) : gbind (gret x) k s = k x s.
Proof. unfold gbind, gret. destruct (k x s) as [[r s2] o2]. reflexivity. Qed.

Lemma gbind_gets (f : S -> A) (k : A -> GM S B) (s : S) : gbind (ggets f) k s = k (f s) s.
Proof. unfold gbind, ggets. destruct (k (f s) s) as [[r s2] o2]. reflexivity. Qed.

Lemma gbind_raise (e : exn) (k : A -> GM S B) (s : S) :
  gbind (graise e) k s = (Raises e, s, []).
Proof. reflexivity. Qed.

Lemma gbind_lift_returns (x : A) (k : A -> GM S B) (s : S) :
  gbind (glift (Returns x)) k s = k x s.
Proof. unfold gbind, glift. destruct (k x s) as [[r s2] o2]. reflexivity. Qed.

Lemma gbind_lift_raises (e : exn) (k : A -> GM S B) (s : S) :
  gbind (glift (Raises e)) k s = (Raises e, s, []).
Proof. reflexivity. Qed.

End GuiEquations.

Lemma gbind_modify {S B : Type} (f : S -> S) (k : unit -> GM S B) (s : S) :
  gbind (gmodify f) k s = k tt (f s).
Proof. unfold gbind, gmodify. destruct (k tt (f s)) as [[r s2] o2]. reflexivity. Qed.


Lemma gbind_assoc {S A B C : Type} (m : GM S A) (k : A -> GM S B) (h : B -> GM S C)
    (s : S) :
  gbind (gbind m k) h s = gbind m (fun x => gbind (k x) h) s.
Proof.
  unfold gbind. destruct (m s) as [[[x|e] s1] o1]; [|reflexivity].
  destruct (k x s1) as [[[y|e] s2] o2]; [|reflexivity].
  destruct (h y s2) as [[r s3] o3]. rewrite app_assoc. reflexivity.
Qed.

Ltac gui_simpl :=
  repeat first
    [ rewrite gbind_gets | rewrite gbind_modify | rewrite gbind_ret
    | rewrite gbind_raise | rewrite gbind_lift_returns | rewrite gbind_lift_raises ];
  cbv beta.


(** ** The launcher *)

Section LauncherFacts.
Import LauncherGUI.









End LauncherFacts.




(** ** Commands on their way to a window *)





(** Five move-next commands and a select reach the Exit button: the call
    of [send_command] that passes the select raises (line 1897). *)
Example select_on_exit_raises :
  (dispatch_commands (replicate 5 right ++ [select]) Desk.launched).1.1 = Raises TclError
  /\ (dispatch_commands (replicate 5 right ++ [select]) Desk.launched).2
     = [Invoke exit_program].
Proof. vm_compute. split; reflexivity. Qed.

(** ** The virtual keyboard *)

Section VirtualKeyboardFacts.
Import VirtualKeyboard.

Lemma tk_call_alive (k : t) : destroyed k = false -> tk_call k = (Returns tt, k, []).
Proof. intros Hd. unfold tk_call. gui_simpl. rewrite Hd. reflexivity. Qed.

Lemma gbind_tk_call_alive {B : Type} (h : unit -> GM t B) (k : t) :
  destroyed k = false -> gbind tk_call h k = h tt k.
Proof.
  intros Hd. rewrite gbind_unfold, (tk_call_alive k Hd).
  destruct (h tt k) as [[r s2] o2]. reflexivity.
Qed.

Lemma move_right_alive (k : t) (c' : Keyboard.Cursor) :
  destroyed k = false ->
  Keyboard.move_right (rows k) (cursor_of k) = Returns c' ->
  move_right k = (Returns tt, set_cursor c' k, []).
Proof.
  intros Hd Hc. unfold move_right. gui_simpl.
  rewrite move_right_modulo_eq, Hc. gui_simpl.
  unfold repaint. apply tk_call_alive. exact Hd.
Qed.

(** A plain key types itself, in the text box and in [text_var]. *)
Lemma select_plain_key (k : t) (key : string) :
  destroyed k = false ->
  Keyboard.key_at (rows k) (cursor_of k) = Returns key ->
  plain_key (py_lower key) = true ->
  select_highlighted_key k
  = (Returns tt,
     set_text_var (text_var k ++ py_lower key)
       (set_text_box (text_box k ++ py_lower key) k),
     [KeyPressVisual (current_row k) (current_pos k);
      AfterKeyRelease (current_row k) (current_pos k)]).
Proof.
  intros Hd Hk Hplain. unfold select_highlighted_key. gui_simpl. rewrite Hk. gui_simpl.
  unfold plain_key in Hplain. apply negb_true_iff in Hplain.
  repeat (apply orb_false_elim in Hplain as [Hplain ?]).
  repeat match goal with
    | Hx : String.eqb _ _ = false |- _ => rewrite Hx; clear Hx
    end.
  unfold on_key_press_visual, text_box_insert_end, tk_call,
    gbind, ggets, gmodify, gemit, graise, gret.
  simpl. repeat (rewrite Hd; simpl). reflexivity.
Qed.

Lemma dispatch_command_vkb (c : command) (v : Visualizer) :
  active_gui v = Some vkb -> vkb_gui v = true ->
  dispatch_command c v = (Returns tt, set_command_queue (command_queue v ++ [(c, tt)]) v, []).
Proof.
  intros Ha Hk. unfold dispatch_command. gui_simpl. rewrite Ha. cbn [active_is gui_name_eqb andb].
  gui_simpl. rewrite Hk. reflexivity.
Qed.

Lemma dispatch_commands_vkb (cs : list command) :
  forall v : Visualizer,
  active_gui v = Some vkb -> vkb_gui v = true ->
  dispatch_commands cs v
  = (Returns tt,
     set_command_queue (command_queue v ++ map (fun c => (c, tt)) cs) v, []).
Proof.
  induction cs as [|c cs IH]; intros v Ha Hk; simpl.
  - rewrite app_nil_r. destruct v; reflexivity.
  - rewrite gbind_unfold, (dispatch_command_vkb c v Ha Hk).
    rewrite (IH (set_command_queue (command_queue v ++ [(c, tt)]) v) Ha Hk).
    simpl. rewrite <- app_assoc. reflexivity.
Qed.

(** The loop of [process_commands] on a queue that starts with [n]
    move-next commands. *)
Lemma drain_rights (n : nat) :
  forall (k : t) (c' : Keyboard.Cursor) (rest : list (command * unit)) (fuel : nat),
  destroyed k = false ->
  command_queue (visualizer k) = map (fun c => (c, tt)) (replicate n right) ++ rest ->
  repeat_call (Keyboard.move_right (rows k)) n (cursor_of k) = Returns c' ->
  drain (n + fuel) k
  = drain fuel (set_cursor c' (set_visualizer (set_command_queue rest (visualizer k)) k)).
Proof.
  induction n as [|n IH]; intros k c' rest fuel Hd Hq Hc.
  - simpl in *. injection Hc as <-. rewrite <- Hq. destruct k as [[] ? ? ? ? ? ?]; reflexivity.
  - simpl in Hc. destruct (Keyboard.move_right (rows k) (cursor_of k)) as [[r1 p1]|] eqn:E1;
      [|discriminate].
    cbn [Nat.add drain]. gui_simpl. rewrite Hq. cbn [replicate map app].
    rewrite gbind_unfold. unfold on_visualizer at 1. unfold gmodify at 1.
    cbn [fst snd].
    rewrite gbind_unfold.
    rewrite (move_right_alive _ (Keyboard.MkCursor r1 p1)) by (try exact Hd; exact E1).
    cbn [app].
    rewrite (IH _ c' rest fuel); [|exact Hd|reflexivity|exact Hc].
    match goal with
    | |- context [drain fuel ?x] =>
        change x with (set_cursor c'
                         (set_visualizer (set_command_queue rest (visualizer k)) k))
    end.
    destruct (drain fuel _) as [[r s2] o2]. reflexivity.
Qed.

End VirtualKeyboardFacts.

(** X19: while the virtual keyboard is the active window, [n] move-next
    commands and a select, each passed to [send_command], wait in the queue
    in that order; the next run of [process_commands] empties the queue,
    moves the cursor [n] keys on in reading order and, when the key there is
    none of space, enter, delete, bg and exit, appends its lower-case name
    to the text box and to [text_var], and schedules itself again. *)
Theorem commands_type_a_key (k : VirtualKeyboard.t) (n : nat) (key : string) :
  VirtualKeyboard.destroyed k = false ->
  active_gui (VirtualKeyboard.visualizer k) = Some vkb ->
  vkb_gui (VirtualKeyboard.visualizer k) = true ->
  command_queue (VirtualKeyboard.visualizer k) = [] ->
  Forall (fun row => row <> []) (VirtualKeyboard.rows k) ->
  Keyboard.on_key (VirtualKeyboard.rows k) (VirtualKeyboard.cursor_of k) ->
  concat (VirtualKeyboard.rows k)
    !! ((Keyboard.reading_index (VirtualKeyboard.rows k) (VirtualKeyboard.cursor_of k) + n)
        mod length (concat (VirtualKeyboard.rows k)))
  = Some key ->
  VirtualKeyboard.plain_key (py_lower key) = true ->
  let '(_, v, _) :=
    dispatch_commands (replicate n right ++ [select]) (VirtualKeyboard.visualizer k) in
  let '(r, k', o) := VirtualKeyboard.process_commands (VirtualKeyboard.set_visualizer v k) in
  r = Returns tt
  /\ VirtualKeyboard.text_box k' = (VirtualKeyboard.text_box k ++ py_lower key)%string
  /\ VirtualKeyboard.text_var k' = (VirtualKeyboard.text_var k ++ py_lower key)%string
  /\ command_queue (VirtualKeyboard.visualizer k') = []
  /\ Keyboard.reading_index (VirtualKeyboard.rows k') (VirtualKeyboard.cursor_of k')
     = (Keyboard.reading_index (VirtualKeyboard.rows k) (VirtualKeyboard.cursor_of k) + n)
       mod length (concat (VirtualKeyboard.rows k))
  /\ last o = Some AfterProcessCommands.
Proof.
  intros Hd Ha Hv Hq Hrows Hon Hkey Hplain.
  rewrite (dispatch_commands_vkb _ _ Ha Hv).
  rewrite Hq. cbn [app].
  destruct (move_right_times (VirtualKeyboard.rows k) (VirtualKeyboard.cursor_of k) n
              Hrows Hon) as ([r' p'] & Hc & Hon' & Hidx & Hat).
  rewrite Hkey in Hat.
  unfold VirtualKeyboard.process_commands, try_finally.
  rewrite gbind_gets. cbn [VirtualKeyboard.visualizer VirtualKeyboard.set_visualizer
                           command_queue set_command_queue].
  rewrite List.map_app, List.length_app, List.length_map, length_replicate. cbn [map length].
  rewrite (drain_rights n _ (Keyboard.MkCursor r' p') [(select, tt)] 1);
    [|exact Hd|reflexivity|exact Hc].
  cbn [VirtualKeyboard.drain]. rewrite gbind_gets.
  cbn [VirtualKeyboard.visualizer VirtualKeyboard.set_visualizer VirtualKeyboard.set_cursor
       command_queue set_command_queue].
  rewrite gbind_unfold. unfold VirtualKeyboard.on_visualizer at 1. unfold gmodify at 1.
  cbn [fst snd]. rewrite gbind_unfold.
  rewrite (select_plain_key _ key); [|exact Hd|exact Hat|exact Hplain].
  cbn [app]. unfold gret at 1.
  unfold gemit. cbn.
  repeat split; try reflexivity. exact Hidx.
Qed.

(** Witness of X19: thirteen steps from "a" reach "i". *)
Lemma commands_type_a_key_witness :
  let k := Desk.keyboard in
  let '(_, v, _) :=
    dispatch_commands (replicate 13 right ++ [select]) (VirtualKeyboard.visualizer k) in
  let '(r, k', o) := VirtualKeyboard.process_commands (VirtualKeyboard.set_visualizer v k) in
  r = Returns tt
  /\ VirtualKeyboard.text_box k' = "i"%string
  /\ VirtualKeyboard.text_var k' = "i"%string
  /\ command_queue (VirtualKeyboard.visualizer k') = []
  /\ Keyboard.reading_index (VirtualKeyboard.rows k') (VirtualKeyboard.cursor_of k') = 13
  /\ last o = Some AfterProcessCommands.
Proof.
  intros k.
  assert (Hon : Keyboard.on_key (VirtualKeyboard.rows k) (VirtualKeyboard.cursor_of k)).
  { exists (nth 0 vkb_rows []). split; [reflexivity|]. simpl. lia. }
  generalize (commands_type_a_key k 13 "i" eq_refl eq_refl eq_refl eq_refl
                vkb_rows_not_empty Hon eq_refl eq_refl).
  vm_compute. exact (fun W => W).
Defined.

(** ** Case analysis of the handlers of the virtual keyboard *)

Ltac vkb_unfold :=
  unfold VirtualKeyboard.select_highlighted_key, VirtualKeyboard.on_button_click,
    VirtualKeyboard.move_right, VirtualKeyboard.move_to_first_key_of_row,
    VirtualKeyboard.on_key_press_visual, VirtualKeyboard.text_box_insert_end,
    VirtualKeyboard.text_box_get, VirtualKeyboard.text_box_delete_last,
    VirtualKeyboard.perform_web_search, VirtualKeyboard.on_closing,
    VirtualKeyboard.on_visualizer, VirtualKeyboard.repaint, VirtualKeyboard.tk_call,
    gbind, ggets, gmodify, gemit, graise, gret, glift in *.

Ltac vkb_test x :=
  lazymatch x with
  | String.eqb _ _ => idtac
  | negb (String.eqb _ _) => idtac
  | Nat.ltb _ _ => idtac
  | VirtualKeyboard.destroyed ?k => is_var k
  | launcher_gui (VirtualKeyboard.visualizer ?k) => is_var k
  | Keyboard.key_at _ _ => idtac
  | Keyboard.move_right_modulo _ _ => idtac
  | _ => is_var x
  end.

Ltac vkb_split :=
  repeat (simpl; match goal with
    | |- context [match ?x with _ => _ end] => vkb_test x; destruct x eqn:?
    end); simpl.

Ltac vkb_cases := vkb_unfold; vkb_split.

(** ** [text_var] and the text box *)

Lemma length_with_newline (s : string) :
  (1 <? String.length (s ++ String "010" EmptyString))
  = negb (String.eqb s EmptyString).
Proof. destruct s as [|c [|c' s]]; reflexivity. Qed.

Ltac mirror_facts :=
  unfold mirrored in *; simpl in *;
  try congruence;
  repeat match goal with
    | Hx : context [1 <? String.length (_ ++ _)] |- _ => rewrite length_with_newline in Hx
    end;
  repeat match goal with
    | Hm : VirtualKeyboard.text_var ?k = VirtualKeyboard.text_box ?k,
      Hx : context [VirtualKeyboard.text_var ?k] |- _ =>
        lazymatch Hx with
        | Hm => fail
        | _ => rewrite Hm in Hx
        end
    end;
  repeat match goal with
    | Hx : negb _ = true |- _ => apply negb_true_iff in Hx
    | Hx : negb _ = false |- _ => apply negb_false_iff in Hx
    end;
  try congruence.

Lemma on_button_click_mirrored (button : string) (k : VirtualKeyboard.t) :
  mirrored k -> mirrored (VirtualKeyboard.on_button_click button k).1.2.
Proof.
  intros Hm. unfold VirtualKeyboard.on_button_click.
  vkb_unfold. rewrite ?length_with_newline. unfold mirrored in Hm. rewrite <- ?Hm.
  vkb_split; mirror_facts.
Qed.

Lemma select_highlighted_key_mirrored (k : VirtualKeyboard.t) :
  mirrored k -> mirrored (VirtualKeyboard.select_highlighted_key k).1.2.
Proof. intros Hm. vkb_cases; mirror_facts. Qed.

Lemma move_right_mirrored (k : VirtualKeyboard.t) :
  mirrored k -> mirrored (VirtualKeyboard.move_right k).1.2.
Proof. intros Hm. vkb_cases; mirror_facts. Qed.

Lemma drain_mirrored (fuel : nat) :
  forall k : VirtualKeyboard.t,
  mirrored k -> mirrored (VirtualKeyboard.drain fuel k).1.2.
Proof.
  induction fuel as [|fuel IH]; intros k Hm; simpl; [exact Hm|].
  rewrite gbind_gets.
  destruct (command_queue (VirtualKeyboard.visualizer k)) as [|[c []] q']; [exact Hm|].
  rewrite gbind_unfold. unfold VirtualKeyboard.on_visualizer at 1, gmodify at 1.
  cbn [fst snd]. rewrite gbind_unfold.
  set (k1 := VirtualKeyboard.set_visualizer _ k).
  assert (Hm1 : mirrored k1) by exact Hm.
  assert (Hh : mirrored (match c with
                         | select => VirtualKeyboard.select_highlighted_key
                         | right => VirtualKeyboard.move_right
                         end k1).1.2).
  { destruct c; [apply select_highlighted_key_mirrored|apply move_right_mirrored];
      exact Hm1. }
  destruct (match c with
            | select => VirtualKeyboard.select_highlighted_key
            | right => VirtualKeyboard.move_right
            end k1) as [[[[]|e] k2] o2]; simpl in Hh; [|exact Hh].
  specialize (IH k2 Hh).
  destruct (VirtualKeyboard.drain fuel k2) as [[r3 k3] o3]. exact IH.
Qed.

Lemma process_commands_mirrored (k : VirtualKeyboard.t) :
  mirrored k -> mirrored (VirtualKeyboard.process_commands k).1.2.
Proof.
  intros Hm. unfold VirtualKeyboard.process_commands, try_finally.
  rewrite gbind_gets.
  pose proof (drain_mirrored (length (command_queue (VirtualKeyboard.visualizer k))) k Hm)
    as D.
  destruct (VirtualKeyboard.drain _ k) as [[r1 k1] o1]. simpl in D.
  vkb_cases; exact D.
Qed.

(** X20: [text_var] keeps holding the text of the text box: when the two
    agree they agree again after a run of [process_commands] and after a
    click on any button, whatever was queued or clicked, exceptions
    included. *)
Theorem text_var_mirrors_text_box (k : VirtualKeyboard.t) :
  VirtualKeyboard.text_var k = VirtualKeyboard.text_box k ->
  (let k' := (VirtualKeyboard.process_commands k).1.2 in
   VirtualKeyboard.text_var k' = VirtualKeyboard.text_box k')
  /\ forall button,
       let k' := (VirtualKeyboard.on_button_click button k).1.2 in
       VirtualKeyboard.text_var k' = VirtualKeyboard.text_box k'.
Proof.
  intros Hm. split.
  - exact (process_commands_mirrored k Hm).
  - intros button. exact (on_button_click_mirrored button k Hm).
Qed.

(** Witness of X20: "i" selected after "hi". *)
Lemma text_var_mirrors_text_box_witness :
  let k := Desk.keyboard_at 1 2 "hi" [(select, tt); (right, tt)] in
  VirtualKeyboard.text_box (VirtualKeyboard.process_commands k).1.2 = "hii"%string
  /\ VirtualKeyboard.text_var (VirtualKeyboard.process_commands k).1.2
     = VirtualKeyboard.text_box (VirtualKeyboard.process_commands k).1.2.
Proof.
  intros k. split; [vm_compute; reflexivity|].
  exact (proj1 (text_var_mirrors_text_box k eq_refl)).
Defined.

Lemma gbind_ext {S A B : Type} (m : GM S A) (k1 k2 : A -> GM S B) (s : S) :
  (forall x s', k1 x s' = k2 x s') -> gbind m k1 s = gbind m k2 s.
Proof.
  intros E. unfold gbind. destruct (m s) as [[[x|e] s1] o1]; [|reflexivity].
  rewrite E. reflexivity.
Qed.

(** X21: selecting the highlighted key with the eyes does what a click on
    that key does: [select_highlighted_key] is the press effect on the
    button, [on_button_click] of the key under the cursor, and the timer
    that takes the press effect back, for every key and every state. *)
Theorem select_is_click_on_highlighted_key (k : VirtualKeyboard.t) (key : string) :
  Keyboard.key_at (VirtualKeyboard.rows k) (VirtualKeyboard.cursor_of k) = Returns key ->
  VirtualKeyboard.select_highlighted_key k
  = (VirtualKeyboard.on_key_press_visual (VirtualKeyboard.current_row k)
       (VirtualKeyboard.current_pos k) ;;
     VirtualKeyboard.on_button_click key ;;
     gemit (AfterKeyRelease (VirtualKeyboard.current_row k)
              (VirtualKeyboard.current_pos k))) k.
Proof.
  intros Hk. unfold VirtualKeyboard.select_highlighted_key.
  rewrite !gbind_gets, Hk, gbind_lift_returns.
  apply gbind_ext. intros [] k1.
  unfold VirtualKeyboard.on_button_click.
  symmetry. apply gbind_assoc.
Qed.

(** Witness of X21: the cursor on "delete". *)
Lemma select_is_click_on_highlighted_key_witness :
  let k := Desk.keyboard_at 0 8 "hi" [] in
  Keyboard.key_at (VirtualKeyboard.rows k) (VirtualKeyboard.cursor_of k) = Returns "delete"%string
  /\ VirtualKeyboard.select_highlighted_key k
     = (VirtualKeyboard.on_key_press_visual 0 8 ;;
        VirtualKeyboard.on_button_click "delete" ;;
        gemit (AfterKeyRelease 0 8)) k.
Proof.
  intros k. split; [reflexivity|].
  exact (select_is_click_on_highlighted_key k "delete" eq_refl).
Defined.

(** ** The exit key *)

(** X22: a select on the exit key closes the virtual keyboard and hands
    control back: the launcher is the active window again and is shown,
    [vkb_gui] is [None], the text is not changed.  The call on the text box
    of the destroyed window that follows (line 942) raises, so that the loop
    of [process_commands] stops there and the commands queued behind the
    select stay in the queue.  The [finally] clause schedules the next run
    all the same, after [on_closing] cancelled the pending ones: the closed
    keyboard goes on polling the queue. *)
Theorem exit_key_returns_to_launcher (k : VirtualKeyboard.t) (key : string)
    (rest : list (command * unit)) (g : LauncherGUI.t) :
  VirtualKeyboard.destroyed k = false ->
  Keyboard.key_at (VirtualKeyboard.rows k) (VirtualKeyboard.cursor_of k) = Returns key ->
  py_lower key = "exit"%string ->
  command_queue (VirtualKeyboard.visualizer k) = (select, tt) :: rest ->
  launcher_gui (VirtualKeyboard.visualizer k) = Some g ->
  let '(r, k', o) := VirtualKeyboard.process_commands k in
  r = Raises TclError
  /\ VirtualKeyboard.destroyed k' = true
  /\ active_gui (VirtualKeyboard.visualizer k') = Some launcher
  /\ vkb_gui (VirtualKeyboard.visualizer k') = false
  /\ launcher_gui (VirtualKeyboard.visualizer k') = Some (LauncherGUI.set_withdrawn false g)
  /\ command_queue (VirtualKeyboard.visualizer k') = rest
  /\ VirtualKeyboard.text_box k' = VirtualKeyboard.text_box k
  /\ o = [KeyPressVisual (VirtualKeyboard.current_row k) (VirtualKeyboard.current_pos k);
          AfterCancelAll; AfterProcessCommands].
Proof.
  intros Hd Hk Hexit Hq Hl.
  unfold VirtualKeyboard.process_commands, try_finally.
  rewrite gbind_gets, Hq. cbn [length VirtualKeyboard.drain].
  rewrite gbind_gets, Hq.
  rewrite gbind_unfold. unfold VirtualKeyboard.on_visualizer at 1, gmodify at 1.
  cbn [fst snd]. rewrite gbind_unfold.
  unfold VirtualKeyboard.select_highlighted_key.
  rewrite !gbind_gets.
  cbn [VirtualKeyboard.rows VirtualKeyboard.set_visualizer].
  change (VirtualKeyboard.cursor_of (VirtualKeyboard.set_visualizer _ k))
    with (VirtualKeyboard.cursor_of k).
  rewrite Hk, gbind_lift_returns, Hexit.
  vkb_unfold. simpl. repeat (rewrite ?Hd, ?Hl; progress simpl).
  repeat split; reflexivity.
Qed.

(** Witness of X22: a select on "exit" with a move-next queued behind it. *)
Lemma exit_key_returns_to_launcher_witness :
  let k := Desk.keyboard_at 0 10 "hi" [(select, tt); (right, tt)] in
  let '(r, k', o) := VirtualKeyboard.process_commands k in
  r = Raises TclError
  /\ VirtualKeyboard.destroyed k' = true
  /\ active_gui (VirtualKeyboard.visualizer k') = Some launcher
  /\ vkb_gui (VirtualKeyboard.visualizer k') = false
  /\ launcher_gui (VirtualKeyboard.visualizer k')
     = Some (LauncherGUI.set_withdrawn false LauncherGUI.created)
  /\ command_queue (VirtualKeyboard.visualizer k') = [(right, tt)]
  /\ VirtualKeyboard.text_box k' = VirtualKeyboard.text_box k
  /\ o = [KeyPressVisual 0 10; AfterCancelAll; AfterProcessCommands].
Proof.
  intros k.
  exact (exit_key_returns_to_launcher k "exit" [(right, tt)] LauncherGUI.created
           eq_refl eq_refl eq_refl eq_refl eq_refl).
Defined.


(** X25: a keyboard that was closed still takes commands.  A run of
    [process_commands] on the destroyed window, with the cursor on a key and
    a command waiting, takes that command off the queue, raises [TclError]
    at the first call on a widget (repainting for a move-next, the press
    effect for a select) and schedules the next run: one command is lost per
    run, whichever window it was meant for; the text and the active window
    are not touched. *)
Theorem closed_keyboard_takes_commands (k : VirtualKeyboard.t) (c : command)
    (rest : list (command * unit)) :
  VirtualKeyboard.destroyed k = true ->
  Keyboard.on_key (VirtualKeyboard.rows k) (VirtualKeyboard.cursor_of k) ->
  command_queue (VirtualKeyboard.visualizer k) = (c, tt) :: rest ->
  let '(r, k', o) := VirtualKeyboard.process_commands k in
  r = Raises TclError
  /\ command_queue (VirtualKeyboard.visualizer k') = rest
  /\ active_gui (VirtualKeyboard.visualizer k') = active_gui (VirtualKeyboard.visualizer k)
  /\ VirtualKeyboard.text_box k' = VirtualKeyboard.text_box k
  /\ VirtualKeyboard.text_var k' = VirtualKeyboard.text_var k
  /\ o = [AfterProcessCommands].
Proof.
  intros Hd (row & Hrow & Hpos) Hq.
  destruct (lookup_lt_is_Some_2 row (VirtualKeyboard.current_pos k) Hpos) as [key Hkey].
  unfold VirtualKeyboard.process_commands, try_finally.
  rewrite gbind_gets, Hq. cbn [length VirtualKeyboard.drain].
  rewrite gbind_gets, Hq.
  rewrite gbind_unfold. unfold VirtualKeyboard.on_visualizer at 1, gmodify at 1.
  cbn [fst snd]. rewrite gbind_unfold.
  destruct c.
  - unfold VirtualKeyboard.select_highlighted_key, VirtualKeyboard.on_key_press_visual,
      VirtualKeyboard.tk_call, Keyboard.key_at.
    rewrite !gbind_gets.
    cbn [VirtualKeyboard.rows VirtualKeyboard.set_visualizer].
    change (VirtualKeyboard.cursor_of (VirtualKeyboard.set_visualizer _ k))
      with (VirtualKeyboard.cursor_of k).
    cbn [Keyboard.current_row Keyboard.current_pos VirtualKeyboard.cursor_of] in *.
    rewrite Hrow, Hkey, gbind_lift_returns.
    unfold gbind, ggets, graise, gemit, gret. simpl. rewrite Hd. simpl.
    repeat split; reflexivity.
  - unfold VirtualKeyboard.move_right, VirtualKeyboard.repaint, VirtualKeyboard.tk_call,
      Keyboard.move_right_modulo.
    rewrite !gbind_gets.
    cbn [VirtualKeyboard.rows VirtualKeyboard.set_visualizer].
    change (VirtualKeyboard.cursor_of (VirtualKeyboard.set_visualizer _ k))
      with (VirtualKeyboard.cursor_of k).
    cbn [Keyboard.current_row Keyboard.current_pos VirtualKeyboard.cursor_of] in *.
    rewrite Hrow.
    destruct (_ <? _)%Z;
      unfold gbind, glift, gmodify, ggets, graise, gemit, gret; simpl; rewrite Hd; simpl;
      repeat split; reflexivity.
Qed.

(** Witness of X25: the keyboard closed by a select on "exit", at its next
    run, with the move-next that was queued behind the select. *)
Lemma closed_keyboard_takes_commands_witness :
  let k := (VirtualKeyboard.process_commands
              (Desk.keyboard_at 0 10 "hi" [(select, tt); (right, tt)])).1.2 in
  VirtualKeyboard.destroyed k = true
  /\ command_queue (VirtualKeyboard.visualizer k) = [(right, tt)]
  /\ let '(r, k', o) := VirtualKeyboard.process_commands k in
     r = Raises TclError
     /\ command_queue (VirtualKeyboard.visualizer k') = []
     /\ active_gui (VirtualKeyboard.visualizer k') = active_gui (VirtualKeyboard.visualizer k)
     /\ VirtualKeyboard.text_box k' = VirtualKeyboard.text_box k
     /\ VirtualKeyboard.text_var k' = VirtualKeyboard.text_var k
     /\ o = [AfterProcessCommands].
Proof.
  intros k. split; [reflexivity|]. split; [reflexivity|].
  apply (closed_keyboard_takes_commands k right []).
  - reflexivity.
  - exists (nth 0 vkb_rows []). split; [reflexivity|]. simpl. lia.
  - reflexivity.
Defined.

(** ** Python strings *)

Lemma all_chars_append (P : ascii -> bool) (s t : string) :
  all_chars P (s ++ t) = all_chars P s && all_chars P t.
Proof.
  induction s as [|c s IH]; simpl; [reflexivity|]. rewrite IH, andb_assoc. reflexivity.
Qed.

Lemma all_chars_lstrip (P : ascii -> bool) (s : string) :
  all_chars P s = true -> all_chars P (py_lstrip s) = true.
Proof.
  induction s as [|c s IH]; simpl; [reflexivity|]. intros H.
  apply andb_prop in H as [Hc Hs].
  destruct (py_isspace c); [exact (IH Hs)|]. simpl. rewrite Hc, Hs. reflexivity.
Qed.

Lemma all_chars_rstrip (P : ascii -> bool) (s : string) :
  all_chars P s = true -> all_chars P (py_rstrip s) = true.
Proof.
  induction s as [|c s IH]; simpl; [reflexivity|]. intros H.
  apply andb_prop in H as [Hc Hs]. specialize (IH Hs).
  destruct (py_rstrip s) as [|c' s'].
  - destruct (py_isspace c); simpl; [reflexivity|]. rewrite Hc. reflexivity.
  - simpl in *. rewrite Hc, IH. reflexivity.
Qed.

Lemma all_chars_drop_last (P : ascii -> bool) (s : string) :
  all_chars P s = true -> all_chars P (py_drop_last s) = true.
Proof.
  induction s as [|c s IH]; simpl; [reflexivity|]. intros H.
  apply andb_prop in H as [Hc Hs]. specialize (IH Hs).
  destruct s as [|c' s']; [reflexivity|]. simpl in *. rewrite Hc. exact IH.
Qed.

Lemma py_rstrip_space_end (s : string) (c : ascii) :
  py_isspace c = true -> py_rstrip (s ++ String c EmptyString) = py_rstrip s.
Proof.
  intros Hc. induction s as [|c' s IH]; simpl.
  - rewrite Hc. reflexivity.
  - rewrite IH. reflexivity.
Qed.

Lemma py_lstrip_space_end (s : string) (c : ascii) :
  py_isspace c = true ->
  py_lstrip (s ++ String c EmptyString)
  = match py_lstrip s with
    | EmptyString => EmptyString
    | rest => (rest ++ String c EmptyString)%string
    end.
Proof.
  intros Hc. induction s as [|c' s IH]; simpl.
  - rewrite Hc. reflexivity.
  - destruct (py_isspace c'); [exact IH|reflexivity].
Qed.

(** The newline that Tk adds does not survive [strip]. *)
Lemma py_strip_newline (s : string) :
  py_strip (s ++ String "010" EmptyString) = py_strip s.
Proof.
  unfold py_strip. rewrite py_lstrip_space_end by reflexivity.
  destruct (py_lstrip s) as [|c rest]; [reflexivity|].
  apply (py_rstrip_space_end (String c rest)). reflexivity.
Qed.

Lemma all_chars_strip (P : ascii -> bool) (s : string) :
  all_chars P s = true -> all_chars P (py_strip s) = true.
Proof. intros H. apply all_chars_rstrip, all_chars_lstrip, H. Qed.

Lemma replace_blank_url (s : string) :
  all_chars typed_char s = true ->
  all_chars url_char (py_replace_char " " "+" s) = true.
Proof.
  induction s as [|c s IH]; simpl; [reflexivity|]. intros H.
  apply andb_prop in H as [Hc Hs]. rewrite (IH Hs), andb_true_r.
  unfold typed_char in Hc. unfold url_char.
  destruct (Ascii.eqb c " ") eqn:E; [reflexivity|].
  rewrite orb_false_r in Hc. rewrite Hc. reflexivity.
Qed.

(** ** The keys of the virtual keyboard *)

Lemma key_at_in (rows : list (list string)) (c : Keyboard.Cursor) (key : string) :
  Keyboard.key_at rows c = Returns key -> In key (concat rows).
Proof.
  unfold Keyboard.key_at.
  destruct (rows !! Keyboard.current_row c) as [row|] eqn:Hr; [|discriminate].
  destruct (row !! Keyboard.current_pos c) as [key'|] eqn:Hp; [|discriminate].
  intros [= <-]. apply in_concat. exists row. split.
  - apply list_elem_of_In. eapply list_elem_of_lookup_2. exact Hr.
  - apply list_elem_of_In. eapply list_elem_of_lookup_2. exact Hp.
Qed.

Lemma vkb_plain_keys (c : Keyboard.Cursor) (key : string) :
  Keyboard.key_at vkb_rows c = Returns key ->
  VirtualKeyboard.plain_key (py_lower key) = true ->
  all_chars typed_char (py_lower key) = true.
Proof.
  intros Hk Hplain. apply key_at_in in Hk.
  assert (Hall : forallb (fun key => implb (VirtualKeyboard.plain_key (py_lower key))
                                       (all_chars typed_char (py_lower key)))
                   (concat vkb_rows) = true) by (vm_compute; reflexivity).
  rewrite forallb_forall in Hall. specialize (Hall key Hk).
  rewrite Hplain in Hall. exact Hall.
Qed.

Ltac urls_facts :=
  let url := fresh "url" in let Hin := fresh "Hin" in
  intros url Hin; simpl in Hin;
  repeat match goal with
    | H : _ \/ _ |- _ => destruct H as [H|H]
    | H : False |- _ => destruct H
    | H : In _ [] |- _ => destruct H
    | H : In _ (_ ++ _) |- _ => apply in_app_or in H
    | H : In _ (_ :: _) |- _ => destruct H as [H|H]
    end;
  try discriminate;
  repeat match goal with
    | H : WebbrowserOpen _ = WebbrowserOpen _ |- _ => injection H as <-
    end;
  try (eexists; split; [reflexivity|];
       rewrite ?py_strip_newline; apply replace_blank_url, all_chars_strip; assumption).

Ltac typed_facts :=
  unfold typed, urls_safe; simpl;
  repeat match goal with
    | |- _ /\ _ => split
    end;
  try assumption; try urls_facts;
  rewrite ?all_chars_append;
  repeat match goal with
    | Htext : all_chars typed_char ?s = true |- context [all_chars typed_char ?s] =>
        rewrite Htext
    end;
  simpl; try reflexivity; try discriminate;
  try (apply all_chars_drop_last; assumption);
  try match goal with
    | Hrows : VirtualKeyboard.rows ?k = vkb_rows,
      Hk : Keyboard.key_at (VirtualKeyboard.rows ?k) ?c = Returns ?key
      |- all_chars typed_char (py_lower ?key) = true =>
        rewrite Hrows in Hk; apply (vkb_plain_keys c key Hk);
        unfold VirtualKeyboard.plain_key;
        repeat match goal with
          | Hx : String.eqb _ _ = false |- _ => rewrite Hx; clear Hx
          end;
        reflexivity
    end.

Lemma select_highlighted_key_typed (k : VirtualKeyboard.t) :
  typed k ->
  let '(r, k', o) := VirtualKeyboard.select_highlighted_key k in
  typed k' /\ urls_safe o.
Proof.
  intros [Hrows Htext]. vkb_cases; typed_facts.
Qed.

Lemma move_right_typed (k : VirtualKeyboard.t) :
  typed k ->
  let '(r, k', o) := VirtualKeyboard.move_right k in
  typed k' /\ urls_safe o.
Proof. intros [Hrows Htext]. vkb_cases; typed_facts. Qed.

Lemma urls_safe_app (o1 o2 : list gui_effect) :
  urls_safe o1 -> urls_safe o2 -> urls_safe (o1 ++ o2).
Proof.
  intros H1 H2 url Hin. apply in_app_or in Hin as [Hin|Hin]; [exact (H1 url Hin)|exact (H2 url Hin)].
Qed.

Lemma urls_safe_nil : urls_safe [].
Proof. intros url []. Qed.

Lemma drain_typed (fuel : nat) :
  forall k : VirtualKeyboard.t,
  typed k ->
  let '(r, k', o) := VirtualKeyboard.drain fuel k in
  typed k' /\ urls_safe o.
Proof.
  induction fuel as [|fuel IH]; intros k Ht; simpl.
  { split; [exact Ht|exact urls_safe_nil]. }
  rewrite gbind_gets.
  destruct (command_queue (VirtualKeyboard.visualizer k)) as [|[c []] q'].
  { split; [exact Ht|exact urls_safe_nil]. }
  rewrite gbind_unfold. unfold VirtualKeyboard.on_visualizer at 1, gmodify at 1.
  cbn [fst snd]. rewrite gbind_unfold.
  set (k1 := VirtualKeyboard.set_visualizer _ k).
  assert (Ht1 : typed k1) by exact Ht.
  assert (Hh : let '(r, k', o) := match c with
                                  | select => VirtualKeyboard.select_highlighted_key
                                  | right => VirtualKeyboard.move_right
                                  end k1 in typed k' /\ urls_safe o).
  { destruct c; [apply select_highlighted_key_typed|apply move_right_typed]; exact Ht1. }
  destruct (match c with
            | select => VirtualKeyboard.select_highlighted_key
            | right => VirtualKeyboard.move_right
            end k1) as [[[[]|e] k2] o2]; destruct Hh as [Hh1 Hh2].
  - specialize (IH k2 Hh1).
    destruct (VirtualKeyboard.drain fuel k2) as [[r3 k3] o3]. destruct IH as [I1 I2].
    cbn [app]. split; [exact I1|]. apply urls_safe_app; assumption.
  - cbn [app]. split; assumption.
Qed.

(** X23: on the layout of the virtual keyboard, as long as the text box
    holds letters and blanks only it keeps doing so through every run of
    [process_commands], and every page such a run opens is the search URL
    followed by letters and "+" only: the final newline of the widget is
    stripped and every blank replaced. *)
Theorem search_urls_need_no_escaping (k : VirtualKeyboard.t) :
  VirtualKeyboard.rows k = vkb_rows ->
  all_chars typed_char (VirtualKeyboard.text_box k) = true ->
  let '(r, k', o) := VirtualKeyboard.process_commands k in
  all_chars typed_char (VirtualKeyboard.text_box k') = true
  /\ forall url, In (WebbrowserOpen url) o ->
     exists q, url = ("https://www.google.com/search?q=" ++ q)%string
               /\ all_chars url_char q = true.
Proof.
  intros Hrows Htext.
  unfold VirtualKeyboard.process_commands, try_finally. rewrite gbind_gets.
  pose proof (drain_typed (length (command_queue (VirtualKeyboard.visualizer k))) k
                (conj Hrows Htext)) as D.
  destruct (VirtualKeyboard.drain _ k) as [[r1 k1] o1]. destruct D as [[D1 D2] D3].
  vkb_cases; (split; [exact D2|]); intros url Hin;
    apply in_app_or in Hin as [Hin|Hin]; try exact (D3 url Hin);
    simpl in Hin; repeat destruct Hin as [Hin|Hin]; try discriminate; destruct Hin.
Qed.

(** Witness of X23: "a b" and a select on "enter". *)
Lemma search_urls_need_no_escaping_witness :
  let k := Desk.keyboard_at 0 7 "a b" [(select, tt)] in
  let '(r, k', o) := VirtualKeyboard.process_commands k in
  In (WebbrowserOpen "https://www.google.com/search?q=a+b") o
  /\ all_chars typed_char (VirtualKeyboard.text_box k') = true
  /\ forall url, In (WebbrowserOpen url) o ->
     exists q, url = ("https://www.google.com/search?q=" ++ q)%string
               /\ all_chars url_char q = true.
Proof.
  intros k.
  generalize (search_urls_need_no_escaping k eq_refl eq_refl).
  destruct (VirtualKeyboard.process_commands k) as [[r k'] o] eqn:E.
  intros W. split; [|exact W].
  assert (Ho : (VirtualKeyboard.process_commands k).2
               = [KeyPressVisual 0 7;
                  WebbrowserOpen "https://www.google.com/search?q=a+b";
                  AfterKeyRelease 0 7; AfterProcessCommands])
    by (vm_compute; reflexivity).
  rewrite E in Ho. simpl in Ho. rewrite Ho. right. left. reflexivity.
Defined.

(** ** The To field of the mail keyboard *)

Lemma string_length_append (s t : string) :
  String.length (s ++ t) = String.length s + String.length t.
Proof. induction s as [|c s IH]; simpl; [reflexivity|]. rewrite IH. reflexivity. Qed.

Lemma substring_all (s : string) : substring 0 (String.length s) s = s.
Proof. induction s as [|c s IH]; simpl; [reflexivity|]. rewrite IH. reflexivity. Qed.

Lemma substring_append_r (s t : string) :
  substring (String.length s) (String.length t) (s ++ t) = t.
Proof. induction s as [|c s IH]; simpl; [apply substring_all|exact IH]. Qed.

Lemma py_endswith_append (s suffix : string) : py_endswith (s ++ suffix) suffix = true.
Proof.
  unfold py_endswith. rewrite string_length_append.
  replace (String.length s + String.length suffix - String.length suffix)
    with (String.length s) by lia.
  rewrite substring_append_r, String.eqb_refl.
  rewrite (proj2 (Nat.leb_le _ _)) by lia. reflexivity.
Qed.

Lemma py_split_first_no_sep (sep : ascii) (s : string) :
  all_chars (fun c => negb (Ascii.eqb c sep)) (py_split_first sep s) = true.
Proof.
  induction s as [|c s IH]; simpl; [reflexivity|].
  destruct (Ascii.eqb c sep) eqn:E; [reflexivity|]. simpl. rewrite E. exact IH.
Qed.

(** X24: [append_gmail_domain] leaves an empty To field empty and makes
    every other one end in "@gmail.com"; a second call changes nothing; and
    where the call changes the field, the new address has a single "@", the
    one of "@gmail.com". *)
Theorem append_gmail_domain_fixes_address (to_entry : string) :
  let after := append_gmail_domain to_entry in
  (to_entry = EmptyString -> after = EmptyString)
  /\ (to_entry <> EmptyString -> py_endswith after "@gmail.com" = true)
  /\ append_gmail_domain after = after
  /\ (after <> to_entry ->
      exists name, after = (name ++ "@gmail.com")%string
                   /\ all_chars (fun c => negb (Ascii.eqb c "@")) name = true).
Proof.
  unfold append_gmail_domain.
  destruct (String.eqb_spec to_entry "") as [->|Hne]; simpl.
  { repeat split; try reflexivity; intros H; contradiction. }
  destruct (py_endswith to_entry "@gmail.com") eqn:E; simpl.
  - split; [intros H; contradiction|]. split; [intros _; exact E|].
    split.
    + destruct (String.eqb_spec to_entry ""); [contradiction|]. rewrite E. reflexivity.
    + intros H. contradiction.
  - split; [intros H; contradiction|].
    split; [intros _; apply py_endswith_append|].
    split.
    + rewrite py_endswith_append, andb_false_r. reflexivity.
    + intros _. eexists. split; [reflexivity|]. apply py_split_first_no_sep.
Qed.

(** Witness of X24: an address of another domain. *)
Lemma append_gmail_domain_fixes_address_witness :
  append_gmail_domain "ann@example.org" = "ann@gmail.com"%string
  /\ py_endswith (append_gmail_domain "ann@example.org") "@gmail.com" = true.
Proof.
  split; [reflexivity|].
  apply (proj1 (proj2 (append_gmail_domain_fixes_address "ann@example.org"))).
  discriminate.
Defined.
